(** * Solar environment monitoring backend: ingestion, alerts, live fan-out

    A shallow embedding of the Django application under [backend/sensors]:
    the models of [models.py], the serializers of [serializers.py], the
    [post_save] receivers of [signals.py], the views [receive_sensor_data],
    [AlertViewSet.resolve], [AlertViewSet.active] and [dashboard_summary]
    of [views.py], the two alert actions of [admin.py], the WebSocket
    consumers of [consumers.py] and the command [generate_test_data].

    Python floats are IEEE binary64 numbers, hence primitive floats here; the
    database, the server clock and the channel layer form an explicit
    [world] threaded through a small state-and-exception monad. Every ORM
    call commits on its own, the receivers of [signals.py] are connected,
    and [group_send] hands the message to the layer without failing. *)

From Stdlib Require Import Floats ZArith.
From stdpp Require Import base tactics option list sorting strings gmap.

(* ===================================================================== *)
(** * models.py *)
(* ===================================================================== *)

(** Validators attached to the numeric columns
    ([django.core.validators]): [MinValueValidator(b)] rejects [a] when
    [a < b], [MaxValueValidator(b)] rejects [a] when [a > b]. *)
Inductive validator :=
| MinValueValidator (limit_value : float)
| MaxValueValidator (limit_value : float).

Definition compare (v : validator) (a : float) : bool :=
  match v with
  | MinValueValidator b => (a <? b)%float
  | MaxValueValidator b => (b <? a)%float
  end.

(** A [models.FloatField(...)] declaration: its validators and whether it
    is declared [null=True, blank=True]. *)
Record FloatField := mkFloatField {
  validators : list validator;
  null : bool;
}.

Module Device.
(** [Device]. The [api_key] column is declared [unique=True]: the device
    table is a finite map from [api_key] to the remaining columns. *)
Record t := mk {
  id : Z;            (* UUIDField primary key *)
  name : string;
  location : string;
  is_active : bool;  (* default=True *)
  owner : Z;         (* ForeignKey(User): the owner's pk *)
}.
End Device.

Module SensorData.
Definition temperature_field : FloatField :=
  mkFloatField [MinValueValidator (-50); MaxValueValidator 100] false.
Definition humidity_field : FloatField :=
  mkFloatField [MinValueValidator 0; MaxValueValidator 100] false.
Definition air_quality_field : FloatField :=
  mkFloatField [MinValueValidator 0; MaxValueValidator 1000] false.
Definition uv_index_field : FloatField :=
  mkFloatField [MinValueValidator 0; MaxValueValidator 15] true.
Definition light_level_field : FloatField :=
  mkFloatField [MinValueValidator 0] true.

(** A saved [SensorData] instance. [device] is the related object the
    instance carries; its [Device.id] is the foreign-key column. *)
Record t := mk {
  id : Z;                      (* BigAutoField *)
  device : Device.t;
  temperature : float;
  humidity : float;
  air_quality : float;
  uv_index : option float;
  light_level : option float;
  timestamp : Z;               (* auto_now_add=True *)
  raw_data : string;           (* JSONField(default=dict), serialised *)
}.
End SensorData.

Inductive ALERT_TYPES :=
| temperature_high | temperature_low
| humidity_high | humidity_low
| air_quality_bad
| uv_high.

Inductive ALERT_STATUS := active | resolved | ignored.

(** An f-string before rendering: literal text and interpolated floats. *)
Inductive fragment := Lit (s : string) | Val (x : float).

Module Alert.
(** An [Alert] instance. [id] and [created_at] are [None] until the
    instance is written to the database. *)
Record t := mk {
  id : option Z;
  device : Device.t;
  alert_type : ALERT_TYPES;
  threshold_value : float;
  current_value : float;
  status : ALERT_STATUS;       (* default='active' *)
  message : list fragment;
  created_at : option Z;       (* auto_now_add=True *)
  resolved_at : option Z;      (* null=True, blank=True *)
}.

(** [Alert(device=..., alert_type=..., threshold_value=...,
    current_value=..., message=...)]: the other fields take their
    defaults. *)
Definition new (device : Device.t) (alert_type : ALERT_TYPES)
    (threshold_value current_value : float) (message : list fragment) : t :=
  mk None device alert_type threshold_value current_value active message
     None None.
End Alert.

Module UserSettings.
(** [UserSettings]. [user] is a [OneToOneField]: at most one row per user,
    so the table is a finite map from the user's pk to the other columns. *)
Record t := mk {
  temp_high_threshold : float;
  temp_low_threshold : float;
  humidity_high_threshold : float;
  humidity_low_threshold : float;
  air_quality_threshold : float;
  email_notifications : bool;
  push_notifications : bool;
  created_at : Z;              (* auto_now_add=True *)
  updated_at : Z;              (* auto_now=True *)
}.

(** [UserSettings(user=owner)]: every threshold takes its declared
    default. *)
Definition new (now : Z) : t :=
  mk 35.0 5.0 80.0 20.0 500.0 true true now now.
End UserSettings.

(* ===================================================================== *)
(** * The world: database, clock, channel layer *)
(* ===================================================================== *)

(** Channel-layer groups: [f'user_{id}_sensors'] and
    [f'user_{id}_alerts']. *)
Inductive group := user_sensors (user : Z) | user_alerts (user : Z).

(** Messages handed to [channel_layer.group_send]. The second argument of
    [alert_notification] is the optional ['timestamp'] key. *)
Inductive event :=
| sensor_data_update (data : SensorData.t)
| alert_notification (alert : Alert.t) (timestamp : option Z).

(** What a request does to the outside, in the order it happens. *)
Inductive effect :=
| Select_Device (api_key : string)
| Insert_SensorData (pk : Z)
| Select_UserSettings (user : Z)
| Insert_UserSettings (user : Z)
| Bulk_Insert_Alert (pks : list Z)
| Select_Alert (pk : Z)
| Update_Alert (pk : Z)
| Insert_Alert (pk : Z)
| group_send (g : group) (e : event).

Record world := World {
  devices : gmap string Device.t;
  sensor_data : list SensorData.t;
  alerts : list Alert.t;
  user_settings : gmap Z UserSettings.t;
  sensor_data_seq : Z;       (* next SensorData pk *)
  alert_seq : Z;             (* next Alert pk *)
  clock : Z;                 (* what timezone.now() reads *)
  log : list effect;         (* oldest first *)
}.

Inductive exn :=
| DoesNotExist
| IntegrityError
| AttributeError
| MultipleObjectsReturned
| Http404
| ValidationError (detail : string).

Inductive outcome (A : Type) :=
| Return (a : A)
| Raise (e : exn).
Arguments Return {A} a.
Arguments Raise {A} e.

Definition M (A : Type) : Type := world → outcome A * world.

Definition ret {A} (a : A) : M A := λ w, (Return a, w).

Definition raise {A} (e : exn) : M A := λ w, (Raise e, w).

Definition bind {A B} (m : M A) (k : A → M B) : M B :=
  λ w, match m w with
       | (Return a, w') => k a w'
       | (Raise e, w') => (Raise e, w')
       end.

(** [try: m except handler]: [handler e = None] lets [e] propagate. Writes
    made before the exception stay (no request runs in a transaction). *)
Definition try_except {A} (m : M A) (handler : exn → option (M A)) : M A :=
  λ w, match m w with
       | (Return a, w') => (Return a, w')
       | (Raise e, w') =>
           match handler e with
           | Some h => h w'
           | None => (Raise e, w')
           end
       end.

Notation "'let*' x ':=' m 'in' k" := (bind m (λ x, k))
  (at level 10, x binder, m at level 100, k at level 200,
   format "'[v' 'let*'  x  ':='  m  'in' '/' k ']'").
Notation "m ';;' k" := (bind m (λ _, k))
  (at level 100, k at level 200, right associativity).

Definition timezone_now : M Z := λ w, (Return (clock w), w).

Definition record (e : effect) : M unit :=
  λ w, (Return tt,
        World (devices w) (sensor_data w) (alerts w) (user_settings w)
              (sensor_data_seq w) (alert_seq w) (clock w) (log w ++ [e])).

(* ===================================================================== *)
(** * signals.py *)
(* ===================================================================== *)

(** [@receiver(post_save, sender=SensorData)] *)
Definition sensor_data_created (instance : SensorData.t) (created : bool)
    : M unit :=
  if created then
    let group_name :=
      user_sensors (Device.owner (SensorData.device instance)) in
    record (group_send group_name (sensor_data_update instance))
  else ret tt.

(** [@receiver(post_save, sender=Alert)]. [instance.created_at.isoformat()]
    fails on an instance whose [created_at] is still [None]. *)
Definition alert_created (instance : Alert.t) (created : bool) : M unit :=
  if created then
    let alert_data := instance in
    let group_name := user_alerts (Device.owner (Alert.device instance)) in
    let* timestamp :=
      match Alert.created_at instance with
      | Some t => ret t
      | None => raise AttributeError
      end in
    record (group_send group_name
              (alert_notification alert_data (Some timestamp)));;
    let sensor_group_name :=
      user_sensors (Device.owner (Alert.device instance)) in
    record (group_send sensor_group_name
              (alert_notification alert_data None))
  else ret tt.

(* ===================================================================== *)
(** * The ORM calls the application makes *)
(* ===================================================================== *)

(** [Device.objects.get(api_key=value, is_active=True)] *)
Definition Device_objects_get (api_key : string) : M Device.t :=
  record (Select_Device api_key);;
  λ w, match devices w !! api_key with
       | Some d => if Device.is_active d then (Return d, w)
                   else (Raise DoesNotExist, w)
       | None => (Raise DoesNotExist, w)
       end.

(** The fields of a reading once the serializer has validated them. *)
Record validated_data := mkValidated {
  v_api_key : string;
  v_temperature : float;
  v_humidity : float;
  v_air_quality : float;
  v_uv_index : option float;
  v_light_level : option float;
  v_raw_data : option string;
}.

(** [SensorData.objects.create(device=device, **validated_data)]: the row
    is inserted with a fresh pk and [timestamp] read from the server clock,
    then [post_save] is sent with [created=True]. *)
Definition SensorData_objects_create (device : Device.t)
    (data : validated_data) : M SensorData.t :=
  let* now := timezone_now in
  let* instance := (λ w,
    let pk := sensor_data_seq w in
    let obj :=
      SensorData.mk pk device (v_temperature data) (v_humidity data)
        (v_air_quality data) (v_uv_index data) (v_light_level data) now
        (default "{}"%string (v_raw_data data)) in
    (Return obj,
     World (devices w) (sensor_data w ++ [obj]) (alerts w) (user_settings w)
           (pk + 1)%Z (alert_seq w) (clock w)
           (log w ++ [Insert_SensorData pk]))) in
  sensor_data_created instance true;;
  ret instance.

(** [UserSettings.objects.get(user=owner)] *)
Definition UserSettings_objects_get (user : Z) : M UserSettings.t :=
  record (Select_UserSettings user);;
  λ w, match user_settings w !! user with
       | Some s => (Return s, w)
       | None => (Raise DoesNotExist, w)
       end.

(** [UserSettings.objects.create(user=owner)]: the unique constraint on
    [user] rejects a second row. No receiver listens to this model. *)
Definition UserSettings_objects_create (user : Z) : M UserSettings.t :=
  let* now := timezone_now in
  λ w, match user_settings w !! user with
       | Some _ => (Raise IntegrityError, w)
       | None =>
           let obj := UserSettings.new now in
           (Return obj,
            World (devices w) (sensor_data w) (alerts w)
                  (<[user := obj]> (user_settings w))
                  (sensor_data_seq w) (alert_seq w) (clock w)
                  (log w ++ [Insert_UserSettings user]))
       end.

(** Primary keys and [created_at] given to a batch of new alerts. *)
Fixpoint assign_pks (pk : Z) (now : Z) (objs : list Alert.t)
    : list Alert.t :=
  match objs with
  | [] => []
  | a :: rest =>
      Alert.mk (Some pk) (Alert.device a) (Alert.alert_type a)
        (Alert.threshold_value a) (Alert.current_value a) (Alert.status a)
        (Alert.message a) (Some now) (Alert.resolved_at a)
      :: assign_pks (pk + 1)%Z now rest
  end.

(** [Alert.objects.bulk_create(objs)]: one multi-row INSERT. [save()] is
    not called on the objects and [post_save] is not sent. *)
Definition Alert_objects_bulk_create (objs : list Alert.t)
    : M (list Alert.t) :=
  let* now := timezone_now in
  λ w,
    let rows := assign_pks (alert_seq w) now objs in
    (Return rows,
     World (devices w) (sensor_data w) (alerts w ++ rows) (user_settings w)
           (sensor_data_seq w) (alert_seq w + Z.of_nat (length objs))%Z
           (clock w)
           (log w ++ [Bulk_Insert_Alert (omap Alert.id rows)])).

(** [alert.save()]: an instance with a pk is written with UPDATE; when no
    row has that pk, or the instance has none, it is inserted. [post_save]
    is sent either way, with [created] telling which. *)
Definition Alert_save (a : Alert.t) : M Alert.t :=
  let* instance := (λ w,
    match Alert.id a with
    | Some pk =>
        if bool_decide (Some pk ∈ Alert.id <$> alerts w) then
          (Return (a, false),
           World (devices w) (sensor_data w)
                 ((λ r, if bool_decide (Alert.id r = Some pk) then a else r)
                    <$> alerts w)
                 (user_settings w) (sensor_data_seq w) (alert_seq w)
                 (clock w) (log w ++ [Update_Alert pk]))
        else
          let obj :=
            Alert.mk (Some pk) (Alert.device a) (Alert.alert_type a)
              (Alert.threshold_value a) (Alert.current_value a)
              (Alert.status a) (Alert.message a) (Some (clock w))
              (Alert.resolved_at a) in
          (Return (obj, true),
           World (devices w) (sensor_data w) (alerts w ++ [obj])
                 (user_settings w) (sensor_data_seq w) (alert_seq w)
                 (clock w) (log w ++ [Insert_Alert pk]))
    | None =>
        let pk := alert_seq w in
        let obj :=
          Alert.mk (Some pk) (Alert.device a) (Alert.alert_type a)
            (Alert.threshold_value a) (Alert.current_value a)
            (Alert.status a) (Alert.message a) (Some (clock w))
            (Alert.resolved_at a) in
        (Return (obj, true),
         World (devices w) (sensor_data w) (alerts w ++ [obj])
               (user_settings w) (sensor_data_seq w) (pk + 1)%Z
               (clock w) (log w ++ [Insert_Alert pk]))
    end) in
  alert_created instance.1 instance.2;;
  ret instance.1.

(* ===================================================================== *)
(** * serializers.py: SensorDataCreateSerializer *)
(* ===================================================================== *)

(** What a serializer field finds under its key of the JSON object: no
    such key ([empty]), [null], or a value. *)
Inductive primitive (A : Type) :=
| empty
| JSON_null
| JSON_value (a : A).
Arguments empty {A}.
Arguments JSON_null {A}.
Arguments JSON_value {A} a.

Module Payload.
(** A JSON object as the serializer's fields read it, from a client that
    puts numbers under the numeric keys and a string under [api_key]:
    each key is left out, [null], or holds such a value. [raw_data] holds
    any JSON value, kept as its text. [Meta.fields] has no ['timestamp'],
    so the last key, whatever a client puts there, is never looked at. *)
Record t := mk {
  temperature : primitive float;
  humidity : primitive float;
  air_quality : primitive float;
  uv_index : primitive float;
  light_level : primitive float;
  raw_data : primitive string;
  api_key : primitive string;
  timestamp : primitive Z;
}.
End Payload.

(** [request.data], the parsed JSON body: [null], a value that is no
    object ([datatype] is the name of its Python type: list, str, int,
    float or bool), or an object. *)
Inductive request_data :=
| JSON_body_null
| JSON_body_other (datatype : string)
| JSON_object (data : Payload.t).

(** An [ErrorDetail], by its code. *)
Inductive ErrorDetail :=
| required
| min_value (limit_value : float)
| max_value (limit_value : float)
| invalid (detail : string)
| may_not_be_null                 (* code 'null' *)
| may_not_be_blank                (* code 'blank' *)
| null_characters_not_allowed
| no_data_provided.               (* code 'null', for the body as a whole *)

Definition run_validators (f : FloatField) (value : float)
    : list ErrorDetail :=
  omap (λ v, if compare v value then
               Some match v with
                    | MinValueValidator b => min_value b
                    | MaxValueValidator b => max_value b
                    end
             else None)
       (validators f).

(** [field.run_validation(primitive_value)] for a float column: the errors
    of the field, or the validated value. A column declared
    [null=True, blank=True] gives a field that is not required and allows
    [null]; left out or [null], it ends as [None] in the row. *)
Definition run_validation (f : FloatField) (data : primitive float)
    : list ErrorDetail + option float :=
  match data with
  | empty => if null f then inr None else inl [required]
  | JSON_null => if null f then inr None else inl [may_not_be_null]
  | JSON_value x =>
      match run_validators f x with
      | [] => inr (Some x)
      | errs => inl errs
      end
  end.

(** The [raw_data] field, from [JSONField(default=dict, blank=True)]: not
    required, [null] not allowed, any other JSON value taken as it is.
    [None] stands for the key left out of the validated data. *)
Definition run_validation_raw_data (data : primitive string)
    : list ErrorDetail + option string :=
  match data with
  | empty => inr None
  | JSON_null => inl [may_not_be_null]
  | JSON_value value => inr (Some value)
  end.

(** ** Python strings

    A [str] is kept as its UTF-8 bytes. *)

Definition bytes (s : string) : list N :=
  Strings.Ascii.N_of_ascii <$> Strings.String.list_ascii_of_string s.

Definition str (l : list N) : string :=
  Strings.String.string_of_list_ascii (Strings.Ascii.ascii_of_N <$> l).

(** The characters for which [str.isspace] holds, in UTF-8: U+0009 to
    U+000D, U+001C to U+0020, U+0085, U+00A0, U+1680, U+2000 to U+200A,
    U+2028, U+2029, U+202F, U+205F and U+3000. *)
Definition whitespace : list (list N) :=
  [[9]; [10]; [11]; [12]; [13]; [28]; [29]; [30]; [31]; [32];
   [194; 133]; [194; 160]; [225; 154; 128];
   [226; 128; 128]; [226; 128; 129]; [226; 128; 130]; [226; 128; 131];
   [226; 128; 132]; [226; 128; 133]; [226; 128; 134]; [226; 128; 135];
   [226; 128; 136]; [226; 128; 137]; [226; 128; 138];
   [226; 128; 168]; [226; 128; 169]; [226; 128; 175]; [226; 129; 159];
   [227; 128; 128]]%N.

(** The text after its first character, when that is one of [chars]. *)
Definition skip (chars : list (list N)) (l : list N) : option (list N) :=
  head (omap (λ c, if bool_decide (take (length c) l = c)
                   then Some (drop (length c) l) else None)
             chars).

Fixpoint skip_all (fuel : nat) (chars : list (list N)) (l : list N)
    : list N :=
  match fuel with
  | O => l
  | S fuel =>
      match skip chars l with
      | Some rest => skip_all fuel chars rest
      | None => l
      end
  end.

(** [str.lstrip], [str.rstrip] and [str.strip] without argument. *)
Definition lstrip (l : list N) : list N := skip_all (length l) whitespace l.

Definition rstrip (l : list N) : list N :=
  reverse (skip_all (length l) (reverse <$> whitespace) (reverse l)).

Definition strip (s : string) : string := str (rstrip (lstrip (bytes s))).

Definition validate_api_key (value : string) : M string :=
  try_except
    (let* device := Device_objects_get value in ret value)
    (λ e, match e with
          | DoesNotExist =>
              Some (raise (ValidationError "유효하지 않은 API 키입니다."))
          | _ => None
          end).

(** [CharField(write_only=True).run_validation]: required, no [null], no
    blank text, surrounding whitespace trimmed, no NUL character. *)
Definition CharField_run_validation (data : primitive string)
    : list ErrorDetail + string :=
  match data with
  | empty => inl [required]
  | JSON_null => inl [may_not_be_null]
  | JSON_value data =>
      if bool_decide (strip data = EmptyString) then inl [may_not_be_blank]
      else
        let value := strip data in
        if bool_decide (0%N ∈ bytes value)
        then inl [null_characters_not_allowed]
        else inr value
  end.

(** The [api_key] field: its own validation, then [validate_api_key]; a
    [ValidationError] becomes the field's error list. *)
Definition run_validation_api_key (data : primitive string)
    : M (list ErrorDetail + string) :=
  match CharField_run_validation data with
  | inl errs => ret (inl errs)
  | inr value =>
      try_except
        (let* value := validate_api_key value in ret (inr value))
        (λ e, match e with
              | ValidationError detail => Some (ret (inl [invalid detail]))
              | _ => None
              end)
  end.

Definition field_errors {A} (field_name : string)
    (r : list ErrorDetail + A) : list (string * list ErrorDetail) :=
  match r with
  | inl errs => [(field_name, errs)]
  | inr _ => []
  end.

(** The loop of [to_internal_value] over [Meta.fields]: every field is
    validated in order and the errors are collected per field; the data is
    valid when no field reported one. [api_key] is what the last field,
    the only one that reads the database, came to. *)
Definition to_internal_value (data : Payload.t)
    (api_key : list ErrorDetail + string)
    : list (string * list ErrorDetail) + validated_data :=
  let temperature :=
    run_validation SensorData.temperature_field (Payload.temperature data) in
  let humidity :=
    run_validation SensorData.humidity_field (Payload.humidity data) in
  let air_quality :=
    run_validation SensorData.air_quality_field (Payload.air_quality data) in
  let uv_index :=
    run_validation SensorData.uv_index_field (Payload.uv_index data) in
  let light_level :=
    run_validation SensorData.light_level_field (Payload.light_level data) in
  let raw_data := run_validation_raw_data (Payload.raw_data data) in
  let errors :=
    field_errors "temperature" temperature ++
    field_errors "humidity" humidity ++
    field_errors "air_quality" air_quality ++
    field_errors "uv_index" uv_index ++
    field_errors "light_level" light_level ++
    field_errors "raw_data" raw_data ++
    field_errors "api_key" api_key in
  match temperature, humidity, air_quality, uv_index, light_level, raw_data,
        api_key with
  | inr (Some t), inr (Some h), inr (Some a), inr uv, inr ll, inr raw, inr k =>
      inr (mkValidated k t h a uv ll raw)
  | _, _, _, _, _, _, _ => inl errors
  end.

(** [serializer.is_valid()]. A body that is [null] or no object is
    refused before any field is looked at, under ['non_field_errors']. *)
Definition is_valid (data : request_data)
    : M (list (string * list ErrorDetail) + validated_data) :=
  match data with
  | JSON_body_null =>
      ret (inl [("non_field_errors"%string, [no_data_provided])])
  | JSON_body_other datatype =>
      ret (inl [("non_field_errors"%string,
                 [invalid ("Invalid data. Expected a dictionary, but got "
                           +:+ datatype +:+ ".")])])
  | JSON_object data =>
      let* api_key := run_validation_api_key (Payload.api_key data) in
      ret (to_internal_value data api_key)
  end.

(** The list [_check_alerts] builds between loading the settings and the
    bulk insert (its [alerts_to_create] variable). *)
Definition alerts_to_create (sensor_data : SensorData.t)
    (settings : UserSettings.t) : list Alert.t :=
  let device := SensorData.device sensor_data in
  let temperature := SensorData.temperature sensor_data in
  let humidity := SensorData.humidity sensor_data in
  let air_quality := SensorData.air_quality sensor_data in
  let temp_high_threshold := UserSettings.temp_high_threshold settings in
  let temp_low_threshold := UserSettings.temp_low_threshold settings in
  let humidity_high_threshold :=
    UserSettings.humidity_high_threshold settings in
  let humidity_low_threshold :=
    UserSettings.humidity_low_threshold settings in
  let air_quality_threshold := UserSettings.air_quality_threshold settings in
  let alerts : list Alert.t := [] in
  let alerts :=
    if (temp_high_threshold <? temperature)%float then
      alerts ++
      [Alert.new device temperature_high temp_high_threshold temperature
         [Lit "고온 경고: "; Val temperature; Lit "°C (임계값: ";
          Val temp_high_threshold; Lit "°C)"]]
    else if (temperature <? temp_low_threshold)%float then
      alerts ++
      [Alert.new device temperature_low temp_low_threshold temperature
         [Lit "저온 경고: "; Val temperature; Lit "°C (임계값: ";
          Val temp_low_threshold; Lit "°C)"]]
    else alerts in
  let alerts :=
    if (humidity_high_threshold <? humidity)%float then
      alerts ++
      [Alert.new device humidity_high humidity_high_threshold humidity
         [Lit "고습도 경고: "; Val humidity; Lit "% (임계값: ";
          Val humidity_high_threshold; Lit "%)"]]
    else if (humidity <? humidity_low_threshold)%float then
      alerts ++
      [Alert.new device humidity_low humidity_low_threshold humidity
         [Lit "저습도 경고: "; Val humidity; Lit "% (임계값: ";
          Val humidity_low_threshold; Lit "%)"]]
    else alerts in
  let alerts :=
    if (air_quality_threshold <? air_quality)%float then
      alerts ++
      [Alert.new device air_quality_bad air_quality_threshold air_quality
         [Lit "공기질 나쁨: "; Val air_quality; Lit " (임계값: ";
          Val air_quality_threshold; Lit ")"]]
    else alerts in
  alerts.

(** Lines 52-56 of [_check_alerts]: load the owner's settings, creating
    the default row when there is none. *)
Definition load_settings (owner : Z) : M UserSettings.t :=
  try_except
    (UserSettings_objects_get owner)
    (λ e, match e with
          | DoesNotExist => Some (UserSettings_objects_create owner)
          | _ => None
          end).

Definition _check_alerts (sensor_data : SensorData.t) : M unit :=
  let device := SensorData.device sensor_data in
  let owner := Device.owner device in
  let* settings := load_settings owner in
  let alerts_to_create := alerts_to_create sensor_data settings in
  match alerts_to_create with
  | [] => ret tt
  | _ => let* _ := Alert_objects_bulk_create alerts_to_create in ret tt
  end.

Definition create (data : validated_data) : M SensorData.t :=
  let api_key := v_api_key data in
  let* device := Device_objects_get api_key in
  let* sensor_data := SensorData_objects_create device data in
  _check_alerts sensor_data;;
  ret sensor_data.

(* ===================================================================== *)
(** * views.py *)
(* ===================================================================== *)

(** The responses the two views build. An exception that leaves a view
    ([Raise e]) is answered by the framework: 404 for [Http404], 500
    otherwise. *)
Inductive Response :=
| HTTP_201_CREATED (data_id : Z) (timestamp : Z) (device : string)
| HTTP_400_BAD_REQUEST (errors : list (string * list ErrorDetail))
| HTTP_200_OK (data : Alert.t).

Definition receive_sensor_data (data : request_data) : M Response :=
  let* serializer := is_valid data in
  match serializer with
  | inr validated =>
      let* sensor_data := create validated in
      ret (HTTP_201_CREATED (SensorData.id sensor_data)
             (SensorData.timestamp sensor_data)
             (Device.name (SensorData.device sensor_data)))
  | inl errors => ret (HTTP_400_BAD_REQUEST errors)
  end.

(** An authenticated request to [AlertViewSet]: [request.user] and the
    optional [status] query parameter. *)
Record Request := mkRequest {
  user : Z;
  status_filter : option string;
}.

Definition status_value (s : ALERT_STATUS) : string :=
  match s with
  | active => "active"
  | resolved => "resolved"
  | ignored => "ignored"
  end.

(** [AlertViewSet.get_queryset]; the ordering plays no role in a lookup by
    pk. *)
Definition get_queryset (request : Request) : M (list Alert.t) :=
  λ w,
    let user_devices :=
      filter (λ d, Device.owner d = user request)
             (snd <$> map_to_list (devices w)) in
    let queryset :=
      filter (λ a, Device.id (Alert.device a) ∈ Device.id <$> user_devices)
             (alerts w) in
    let queryset :=
      match status_filter request with
      | Some s =>
          if bool_decide (s = EmptyString) then queryset
          else filter (λ a, status_value (Alert.status a) = s) queryset
      | None => queryset
      end in
    (Return queryset, w).

(** [self.get_object()]: [get_object_or_404(queryset, pk=pk)]. *)
Definition get_object (request : Request) (pk : Z) : M Alert.t :=
  let* queryset := get_queryset request in
  record (Select_Alert pk);;
  match filter (λ a, Alert.id a = Some pk) queryset with
  | [] => raise Http404
  | [alert] => ret alert
  | _ => raise MultipleObjectsReturned
  end.

(** [AlertViewSet.resolve] *)
Definition resolve (request : Request) (pk : Z) : M Response :=
  let* alert := get_object request pk in
  let* now := timezone_now in
  let alert :=
    Alert.mk (Alert.id alert) (Alert.device alert) (Alert.alert_type alert)
      (Alert.threshold_value alert) (Alert.current_value alert)
      resolved (Alert.message alert) (Alert.created_at alert) (Some now) in
  let* alert := Alert_save alert in
  ret (HTTP_200_OK alert).

(* ===================================================================== *)
(** * Two ingests loading the same owner's settings at once *)
(* ===================================================================== *)

(** Where an ingest stands inside [load_settings]; each ORM call is one
    atomic step against the shared database. *)
Inductive thread :=
| at_get (owner : Z)
| at_create (owner : Z)
| loaded (settings : UserSettings.t)
| failed (e : exn).

Definition step (t : thread) (w : world) : thread * world :=
  match t with
  | at_get owner =>
      match UserSettings_objects_get owner w with
      | (Return settings, w') => (loaded settings, w')
      | (Raise DoesNotExist, w') => (at_create owner, w')
      | (Raise e, w') => (failed e, w')
      end
  | at_create owner =>
      match UserSettings_objects_create owner w with
      | (Return settings, w') => (loaded settings, w')
      | (Raise e, w') => (failed e, w')
      end
  | loaded _ | failed _ => (t, w)
  end.

Definition finished (t : thread) : bool :=
  match t with
  | loaded _ | failed _ => true
  | at_get _ | at_create _ => false
  end.

(** One ingest on its own takes its two steps back to back. *)
Definition alone (t : thread) (w : world) : thread * world :=
  let (t', w') := step t w in step t' w'.

(** A schedule says which ingest moves next: [false] the first, [true]
    the second. *)
Fixpoint interleave (schedule : list bool) (t1 t2 : thread) (w : world)
    : thread * thread * world :=
  match schedule with
  | [] => (t1, t2, w)
  | false :: rest =>
      let (t1', w') := step t1 w in interleave rest t1' t2 w'
  | true :: rest =>
      let (t2', w') := step t2 w in interleave rest t1 t2' w'
  end.

(** How many settings rows a stretch of the log inserted. *)
Definition is_settings_insert (owner : Z) (e : effect) : bool :=
  match e with
  | Insert_UserSettings u => bool_decide (u = owner)
  | _ => false
  end.

Definition settings_inserts (owner : Z) (l : list effect) : nat :=
  length (filter (λ e, is_settings_insert owner e) l).

(* ===================================================================== *)
(** * Vocabulary of the properties *)
(* ===================================================================== *)

(** The metric an alert type belongs to, in the order the checks run. *)
Definition metric (ty : ALERT_TYPES) : nat :=
  match ty with
  | temperature_high | temperature_low => 0
  | humidity_high | humidity_low => 1
  | air_quality_bad => 2
  | uv_high => 3
  end.

(** The threshold and the observed value an alert of a given type must
    carry for a reading and a policy. *)
Definition carried (sensor_data : SensorData.t) (settings : UserSettings.t)
    (ty : ALERT_TYPES) : option (float * float) :=
  match ty with
  | temperature_high =>
      Some (UserSettings.temp_high_threshold settings,
            SensorData.temperature sensor_data)
  | temperature_low =>
      Some (UserSettings.temp_low_threshold settings,
            SensorData.temperature sensor_data)
  | humidity_high =>
      Some (UserSettings.humidity_high_threshold settings,
            SensorData.humidity sensor_data)
  | humidity_low =>
      Some (UserSettings.humidity_low_threshold settings,
            SensorData.humidity sensor_data)
  | air_quality_bad =>
      Some (UserSettings.air_quality_threshold settings,
            SensorData.air_quality sensor_data)
  | uv_high => None
  end.

Definition emits (evs : list Alert.t) (ty : ALERT_TYPES) : Prop :=
  ∃ a, a ∈ evs ∧ Alert.alert_type a = ty.

(** No value above its high threshold, none below its low threshold. *)
Definition within_bounds (sensor_data : SensorData.t)
    (settings : UserSettings.t) : bool :=
  negb (UserSettings.temp_high_threshold settings
          <? SensorData.temperature sensor_data)%float
  && negb (SensorData.temperature sensor_data
             <? UserSettings.temp_low_threshold settings)%float
  && negb (UserSettings.humidity_high_threshold settings
             <? SensorData.humidity sensor_data)%float
  && negb (SensorData.humidity sensor_data
             <? UserSettings.humidity_low_threshold settings)%float
  && negb (UserSettings.air_quality_threshold settings
             <? SensorData.air_quality sensor_data)%float.

(** The world after [n] more calls of [load_settings] for an owner. *)
Definition later_calls (owner : Z) (n : nat) (w : world) : world :=
  Nat.iter n (λ w, (load_settings owner w).2) w.

(** The world with more effects appended to its log. *)
Definition logged (w : world) (l : list effect) : world :=
  World (devices w) (sensor_data w) (alerts w) (user_settings w)
        (sensor_data_seq w) (alert_seq w) (clock w) (log w ++ l).




Definition outside (lo hi x : float) : bool :=
  (x <? lo)%float || (hi <? x)%float.

(** The named field was sent with a value outside its declared range. *)
Definition out_of_range (data : Payload.t) (field_name : string) : Prop :=
  (field_name = "temperature"%string ∧
   ∃ t, Payload.temperature data = JSON_value t ∧
        outside (-50) 100 t = true) ∨
  (field_name = "humidity"%string ∧
   ∃ h, Payload.humidity data = JSON_value h ∧ outside 0 100 h = true) ∨
  (field_name = "air_quality"%string ∧
   ∃ q, Payload.air_quality data = JSON_value q ∧
        outside 0 1000 q = true) ∨
  (field_name = "uv_index"%string ∧
   ∃ u, Payload.uv_index data = JSON_value u ∧ outside 0 15 u = true) ∨
  (field_name = "light_level"%string ∧
   ∃ l, Payload.light_level data = JSON_value l ∧ (l <? 0)%float = true).

(** What the [api_key] field reports for a key that matches no active
    device. *)
Definition invalid_api_key : list ErrorDetail :=
  [invalid "유효하지 않은 API 키입니다."].


(** The instance [SensorData.objects.create] builds in a world. *)
Definition new_reading (w : world) (device : Device.t)
    (data : validated_data) : SensorData.t :=
  SensorData.mk (sensor_data_seq w) device (v_temperature data)
    (v_humidity data) (v_air_quality data) (v_uv_index data)
    (v_light_level data) (clock w) (default "{}"%string (v_raw_data data)).

(** What [_check_alerts] leaves behind, given the settings it loaded and
    the world after loading them. *)
Definition after_check (reading : SensorData.t) (settings : UserSettings.t)
    (w : world) : world :=
  match alerts_to_create reading settings with
  | [] => w
  | objs =>
      let rows := assign_pks (alert_seq w) (clock w) objs in
      World (devices w) (sensor_data w) (alerts w ++ rows)
            (user_settings w) (sensor_data_seq w)
            (alert_seq w + Z.of_nat (length objs))%Z (clock w)
            (log w ++ [Bulk_Insert_Alert (omap Alert.id rows)])
  end.

(** The world once a reading is stored and more effects are logged. *)
Definition persisted (w : world) (reading : SensorData.t) (l : list effect)
    : world :=
  World (devices w) (sensor_data w ++ [reading]) (alerts w) (user_settings w)
        (sensor_data_seq w + 1)%Z (alert_seq w) (clock w) (log w ++ l).

(** The effects of a successful ingest up to the point where
    [_check_alerts] starts. *)
Definition ingest_prefix (api_key : string) (reading : SensorData.t)
    : list effect :=
  [Select_Device api_key; Select_Device api_key;
   Insert_SensorData (SensorData.id reading);
   group_send (user_sensors (Device.owner (SensorData.device reading)))
     (sensor_data_update reading)].


(** Sorting the effects of a request. *)
Definition is_device_lookup (e : effect) : bool :=
  match e with Select_Device _ => true | _ => false end.

Definition is_reading_event (e : effect) : bool :=
  match e with group_send _ (sensor_data_update _) => true | _ => false end.

Definition is_alert_event (e : effect) : bool :=
  match e with group_send _ (alert_notification _ _) => true | _ => false end.

Definition is_reading_insert (e : effect) : bool :=
  match e with Insert_SensorData _ => true | _ => false end.

(** The database statements [_check_alerts] issues. *)
Definition is_evaluation (e : effect) : bool :=
  match e with
  | Select_UserSettings _ | Insert_UserSettings _ | Bulk_Insert_Alert _ => true
  | _ => false
  end.

(** The instance [resolve] saves for an alert it fetched. *)
Definition resolved_now (alert : Alert.t) (now : Z) : Alert.t :=
  Alert.mk (Alert.id alert) (Alert.device alert) (Alert.alert_type alert)
    (Alert.threshold_value alert) (Alert.current_value alert) resolved
    (Alert.message alert) (Alert.created_at alert) (Some now).

(** Where a racing ingest may stand while no settings row exists, and
    once the default row [d] is stored. *)
Definition before_insert (owner : Z) (t : thread) : Prop :=
  t = at_get owner ∨ t = at_create owner.

Definition after_insert (owner : Z) (d : UserSettings.t) (t : thread)
    : Prop :=
  t = at_get owner ∨ t = at_create owner ∨ t = loaded d ∨
  t = failed IntegrityError.

(** What every interleaving of two ingests, started in [w0] without a
    settings row for [owner], keeps true. *)
Definition race_invariant (owner : Z) (w0 : world) (t1 t2 : thread)
    (w : world) : Prop :=
  let d := UserSettings.new (clock w0) in
  clock w = clock w0 ∧
  ((user_settings w = user_settings w0 ∧
    settings_inserts owner (log w) = settings_inserts owner (log w0) ∧
    before_insert owner t1 ∧ before_insert owner t2) ∨
   (user_settings w = <[owner := d]> (user_settings w0) ∧
    settings_inserts owner (log w) = S (settings_inserts owner (log w0)) ∧
    after_insert owner d t1 ∧ after_insert owner d t2 ∧
    (t1 = loaded d ∨ t2 = loaded d))).

(** ** Sample data *)

Definition empty_world : world :=
  World ∅ [] [] ∅ 1 1 1000 [].

Definition greenhouse : Device.t :=
  Device.mk 11 "greenhouse" "roof" true 7.

Definition sample_reading (temperature humidity air_quality : float)
    : SensorData.t :=
  SensorData.mk 1 greenhouse temperature humidity air_quality None None
    1000 "{}".

Definition mild_reading : SensorData.t := sample_reading 20 50 100.

Definition cellar : Device.t :=
  Device.mk 12 "cellar" "basement" false 7.

(** One active and one disabled device of user 7, no settings row yet. *)
Definition sample_world : world :=
  World (<["key-greenhouse"%string := greenhouse]>
           (<["key-cellar"%string := cellar]> ∅))
        [] [] ∅ 1 1 1000 [].

Definition hot_alert : Alert.t :=
  Alert.mk (Some 5%Z) greenhouse temperature_high 35.0 36.0 active
    [Lit "고온 경고: "; Val 36.0; Lit "°C (임계값: "; Val 35.0; Lit "°C)"]
    (Some 900%Z) None.

Definition damp_alert : Alert.t :=
  Alert.mk (Some 6%Z) greenhouse humidity_high 80.0 85.0 active
    [Lit "고습도 경고: "; Val 85.0; Lit "% (임계값: "; Val 80.0; Lit "%)"]
    (Some 900%Z) None.

(** [sample_world] with two stored alerts of user 7's greenhouse. *)
Definition alert_world : world :=
  World (devices sample_world) [] [hot_alert; damp_alert] ∅ 1 7 1000 [].

Definition sample_payload (api_key : string)
    (temperature humidity air_quality : float) : Payload.t :=
  Payload.mk (JSON_value temperature) (JSON_value humidity)
    (JSON_value air_quality) empty empty empty (JSON_value api_key)
    (JSON_value 5%Z).

(** The settings [_check_alerts] works with in a world: the owner's row
    when there is one, the defaults it is about to store otherwise. *)
Definition settings_in_force (w : world) (owner : Z) : UserSettings.t :=
  default (UserSettings.new (clock w)) (user_settings w !! owner).



(** A required key of the payload is absent. *)
Definition missing (data : Payload.t) (field_name : string) : Prop :=
  (field_name = "temperature"%string ∧ Payload.temperature data = empty) ∨
  (field_name = "humidity"%string ∧ Payload.humidity data = empty) ∨
  (field_name = "air_quality"%string ∧ Payload.air_quality data = empty) ∨
  (field_name = "api_key"%string ∧ Payload.api_key data = empty).

(** A key whose field does not allow it holds [null]. *)
Definition sent_null (data : Payload.t) (field_name : string) : Prop :=
  (field_name = "temperature"%string ∧
   Payload.temperature data = JSON_null) ∨
  (field_name = "humidity"%string ∧ Payload.humidity data = JSON_null) ∨
  (field_name = "air_quality"%string ∧
   Payload.air_quality data = JSON_null) ∨
  (field_name = "raw_data"%string ∧ Payload.raw_data data = JSON_null) ∨
  (field_name = "api_key"%string ∧ Payload.api_key data = JSON_null).

(** Primary keys as the sequences hand them out: every stored row has a
    pk below the next one its sequence will give, and no two rows of a
    table share one. *)
Definition keys_in_order (w : world) : Prop :=
  Forall (λ r, (SensorData.id r < sensor_data_seq w)%Z) (sensor_data w) ∧
  NoDup (SensorData.id <$> sensor_data w) ∧
  Forall (λ a, ∃ pk, Alert.id a = Some pk ∧ (pk < alert_seq w)%Z) (alerts w) ∧
  NoDup (Alert.id <$> alerts w).

(** The world [resolve] leaves when it saved an alert under a pk. *)
Definition resolved_world (w : world) (pk : Z) (saved : Alert.t) : world :=
  World (devices w) (sensor_data w)
        ((λ r, if bool_decide (Alert.id r = Some pk) then saved else r)
           <$> alerts w)
        (user_settings w) (sensor_data_seq w) (alert_seq w) (clock w)
        (log w ++ [Select_Alert pk; Update_Alert pk]).

(** The user owns a device with the id the alert points to. *)
Definition owns_device_of (w : world) (user : Z) (a : Alert.t) : Prop :=
  ∃ key d, devices w !! key = Some d ∧ Device.owner d = user ∧
           Device.id d = Device.id (Alert.device a).

(* ===================================================================== *)
(** * views.py: listing the active alerts *)
(* ===================================================================== *)

(** [Device.objects.filter(owner=request.user)]. *)
Definition user_devices (request : Request) (w : world) : list Device.t :=
  filter (λ d, Device.owner d = user request)
         (snd <$> map_to_list (devices w)).

(** [order_by('-created_at')]: newest first. A stored alert always has a
    [created_at]. *)
Definition newest_first (a b : Alert.t) : Prop :=
  (default 0 (Alert.created_at b) ≤ default 0 (Alert.created_at a))%Z.

#[global] Instance newest_first_dec : RelDecision newest_first :=
  λ a b, decide (default 0 (Alert.created_at b)
                 ≤ default 0 (Alert.created_at a))%Z.

(** [AlertViewSet.active]: the serialised list the response carries. The
    action filters on its own and does not read the [status] parameter. *)
Definition active_alerts (request : Request) : M (list Alert.t) :=
  λ w,
    let user_devices := user_devices request w in
    let active_alerts :=
      merge_sort newest_first
        (filter (λ a, Device.id (Alert.device a) ∈ Device.id <$> user_devices
                      ∧ status_value (Alert.status a) = "active"%string)
                (alerts w)) in
    (Return active_alerts, w).

(* ===================================================================== *)
(** * admin.py: the two actions of AlertAdmin *)
(* ===================================================================== *)

(** The row is one of those ticked in the change list. *)
Definition selected_row (selected : list Z) (a : Alert.t) : bool :=
  match Alert.id a with
  | Some pk => bool_decide (pk ∈ selected)
  | None => false
  end.

(** [queryset.update(...)]: the selected rows are rewritten in the
    database, [save()] is not called and no signal is sent; the number of
    rows matched comes back. *)
Definition queryset_update (selected : list Z) (fields : Alert.t → Alert.t)
    : M nat :=
  λ w,
    let hit := filter (λ a, selected_row selected a) (alerts w) in
    (Return (length hit),
     World (devices w) (sensor_data w)
           ((λ a, if selected_row selected a then fields a else a)
              <$> alerts w)
           (user_settings w) (sensor_data_seq w) (alert_seq w) (clock w)
           (log w ++ omap (λ a, Update_Alert <$> Alert.id a) hit)).

(** [mark_as_resolved]: the count it reports through [message_user]. *)
Definition mark_as_resolved (selected : list Z) : M nat :=
  let* now := timezone_now in
  queryset_update selected
    (λ a, Alert.mk (Alert.id a) (Alert.device a) (Alert.alert_type a)
            (Alert.threshold_value a) (Alert.current_value a) resolved
            (Alert.message a) (Alert.created_at a) (Some now)).

(** [mark_as_ignored] *)
Definition mark_as_ignored (selected : list Z) : M nat :=
  queryset_update selected
    (λ a, Alert.mk (Alert.id a) (Alert.device a) (Alert.alert_type a)
            (Alert.threshold_value a) (Alert.current_value a) ignored
            (Alert.message a) (Alert.created_at a) (Alert.resolved_at a)).

(** The test [active_alerts] applies to a stored alert. *)
Definition listed_as_active (request : Request) (w : world) (a : Alert.t)
    : Prop :=
  Device.id (Alert.device a) ∈ Device.id <$> user_devices request w
  ∧ status_value (Alert.status a) = "active"%string.

(* ===================================================================== *)
(** * models.py: the two properties of SensorData *)
(* ===================================================================== *)

(** [SensorData.is_air_quality_dangerous] *)
Definition is_air_quality_dangerous (self : SensorData.t) : bool :=
  (500 <? SensorData.air_quality self)%float.

(** [SensorData.is_temperature_extreme] *)
Definition is_temperature_extreme (self : SensorData.t) : bool :=
  (SensorData.temperature self <? 0)%float
  || (40 <? SensorData.temperature self)%float.

(* ===================================================================== *)
(** * consumers.py: the WebSocket consumers and the channel layer *)
(* ===================================================================== *)

Module User.
(** What the consumers read of [scope["user"]]. *)
Record t := mk {
  id : Z;
  username : string;
}.
End User.

(** Python values, as far as [json.dumps] tells them apart. The three
    kinds of [str] are kept apart because their text is not computed
    here. *)
#[warnings="-register-all"] Inductive py :=
| py_None
| py_int (n : Z)
| py_float (x : float)
| py_str (s : string)
| py_str_isoformat (t : Z)           (* DateTimeField.to_representation *)
| py_str_format (l : list fragment)  (* a rendered f-string *)
| py_json (text : string)            (* what a JSONField holds *)
| py_UUID (id : Z)                   (* uuid.UUID *)
| py_list (l : list py)
| py_dict (items : list (string * py)).

(** What the default encoder of [json.dumps] accepts: it raises
    [TypeError] on a [uuid.UUID], wherever it sits. *)
Fixpoint serializable (o : py) : bool :=
  match o with
  | py_UUID _ => false
  | py_list l => forallb serializable l
  | py_dict items => forallb (λ item, let '(_, v) := item in serializable v)
                       items
  | _ => true
  end.

Definition optional {A} (f : A → py) (value : option A) : py :=
  match value with
  | Some a => f a
  | None => py_None
  end.

Definition alert_type_value (ty : ALERT_TYPES) : string :=
  match ty with
  | temperature_high => "temperature_high"
  | temperature_low => "temperature_low"
  | humidity_high => "humidity_high"
  | humidity_low => "humidity_low"
  | air_quality_bad => "air_quality_bad"
  | uv_high => "uv_high"
  end.

Definition get_alert_type_display (ty : ALERT_TYPES) : string :=
  match ty with
  | temperature_high => "고온 경고"
  | temperature_low => "저온 경고"
  | humidity_high => "고습도 경고"
  | humidity_low => "저습도 경고"
  | air_quality_bad => "공기질 나쁨"
  | uv_high => "자외선 강함"
  end.

Definition get_status_display (s : ALERT_STATUS) : string :=
  match s with
  | active => "활성"
  | resolved => "해결됨"
  | ignored => "무시됨"
  end.

(** [SensorDataSerializer(instance).data]. The [device] key is a
    [PrimaryKeyRelatedField]: its representation is the pk of the device
    itself, a [uuid.UUID]. *)
Definition SensorDataSerializer_data (instance : SensorData.t) : py :=
  py_dict
    [("id"%string, py_int (SensorData.id instance));
     ("device"%string, py_UUID (Device.id (SensorData.device instance)));
     ("device_name"%string,
      py_str (Device.name (SensorData.device instance)));
     ("device_location"%string,
      py_str (Device.location (SensorData.device instance)));
     ("temperature"%string, py_float (SensorData.temperature instance));
     ("humidity"%string, py_float (SensorData.humidity instance));
     ("air_quality"%string, py_float (SensorData.air_quality instance));
     ("uv_index"%string, optional py_float (SensorData.uv_index instance));
     ("light_level"%string,
      optional py_float (SensorData.light_level instance));
     ("timestamp"%string, py_str_isoformat (SensorData.timestamp instance));
     ("raw_data"%string, py_json (SensorData.raw_data instance))].

(** [AlertSerializer(instance).data]. *)
Definition AlertSerializer_data (instance : Alert.t) : py :=
  py_dict
    [("id"%string, optional py_int (Alert.id instance));
     ("device"%string, py_UUID (Device.id (Alert.device instance)));
     ("device_name"%string, py_str (Device.name (Alert.device instance)));
     ("alert_type"%string,
      py_str (alert_type_value (Alert.alert_type instance)));
     ("alert_type_display"%string,
      py_str (get_alert_type_display (Alert.alert_type instance)));
     ("threshold_value"%string, py_float (Alert.threshold_value instance));
     ("current_value"%string, py_float (Alert.current_value instance));
     ("status"%string, py_str (status_value (Alert.status instance)));
     ("status_display"%string,
      py_str (get_status_display (Alert.status instance)));
     ("message"%string, py_str_format (Alert.message instance));
     ("created_at"%string,
      optional py_str_isoformat (Alert.created_at instance));
     ("resolved_at"%string,
      optional py_str_isoformat (Alert.resolved_at instance))].

Module Frame.
(** The dicts a consumer hands to [json.dumps] to make a text frame, by
    their ['type']. The first three hold strings only; the others hold
    serializer data under ['data'] or ['alert']. *)
Inductive t :=
| connection_established (message : string)
| subscription_success (device_id : Z) (message : string)
| error (message : string)
| latest_data (data : list py)
| sensor_data (data : py)
| alert (alert : py)
| new_alert (alert : py) (timestamp : Z).

Definition serializable (f : t) : bool :=
  match f with
  | connection_established _ | subscription_success _ _ | error _ => true
  | latest_data data => forallb serializable data
  | sensor_data data => serializable data
  | alert a | new_alert a _ => serializable a
  end.
End Frame.

Inductive consumer_class := SensorDataConsumer | AlertConsumer.

(** A consumer instance: one per connection. [group_name] is the attribute
    [connect] sets; it does not exist before. *)
Record consumer := Consumer {
  class : consumer_class;
  channel_name : string;
  scope_user : option User.t;     (* None: AnonymousUser *)
  group_name : option group;
  accepted : bool;
  closed : bool;
  sent : list Frame.t;            (* oldest first *)
}.

(** The instance the framework builds for a new connection. *)
Definition new_consumer (class : consumer_class) (channel_name : string)
    (scope_user : option User.t) : consumer :=
  Consumer class channel_name scope_user None false false [].

(** Why a consumer method can fail. *)
Inductive crash :=
| no_group_name                   (* AttributeError on self.group_name *)
| no_timestamp                    (* KeyError on event['timestamp'] *)
| no_handler                      (* no method for the message type *)
| not_an_object                   (* AttributeError on data.get *)
| not_a_uuid                      (* ValidationError from the id lookup *)
| many_devices                    (* MultipleObjectsReturned *)
| anonymous_owner                 (* TypeError: AnonymousUser in a query *)
| not_serializable.               (* TypeError from json.dumps *)

#[global] Instance group_eq_dec : EqDecision group.
Proof. solve_decision. Defined.

(** The channel layer: which channel is in which group. *)
#[warnings="-notation-for-abbreviation"]
Notation layer := (list (group * string)) (only parsing).

Definition group_add (g : group) (channel : string) (l : layer) : layer :=
  if bool_decide ((g, channel) ∈ l) then l else l ++ [(g, channel)].

Definition group_discard (g : group) (channel : string) (l : layer)
    : layer :=
  filter (λ m, m ≠ (g, channel)) l.

(** The channels a [group_send] to [g] reaches. *)
Definition recipients (g : group) (l : layer) : list string :=
  snd <$> filter (λ m, m.1 = g) l.

Definition self_send (f : Frame.t) (c : consumer) : consumer :=
  Consumer (class c) (channel_name c) (scope_user c) (group_name c)
    (accepted c) (closed c) (sent c ++ [f]).

(** [self.send(text_data=json.dumps(f))]: nothing is sent when
    [json.dumps] raises. *)
Definition send_json (f : Frame.t) (c : consumer) : crash + consumer :=
  if Frame.serializable f then inr (self_send f c) else inl not_serializable.

(** A consumer whose method raised: the exception ends the consumer and
    the server drops the connection. [disconnect] is not run, so the
    channel stays in its group. *)
Definition lose_connection (c : consumer) : consumer :=
  Consumer (class c) (channel_name c) (scope_user c) (group_name c)
    (accepted c) true (sent c).

(** [connect] of either consumer; only [SensorDataConsumer] greets. *)
Definition connect (c : consumer) (l : layer) : consumer * layer :=
  match scope_user c with
  | None =>
      (Consumer (class c) (channel_name c) (scope_user c) (group_name c)
         (accepted c) true (sent c), l)
  | Some user =>
      let group_name :=
        match class c with
        | SensorDataConsumer => user_sensors (User.id user)
        | AlertConsumer => user_alerts (User.id user)
        end in
      let l := group_add group_name (channel_name c) l in
      let c :=
        Consumer (class c) (channel_name c) (scope_user c) (Some group_name)
          true (closed c) (sent c) in
      match class c with
      | SensorDataConsumer =>
          (self_send
             (Frame.connection_established
                ("실시간 센서 데이터 연결됨 (사용자: " +:+ User.username user
                 +:+ ")")) c, l)
      | AlertConsumer => (c, l)
      end
  end.

(** [disconnect] of either consumer. *)
Definition disconnect (c : consumer) (l : layer) : crash + layer :=
  match group_name c with
  | None => inl no_group_name
  | Some g => inr (group_discard g (channel_name c) l)
  end.

(** The handlers for channel-layer messages, found by the message's
    ['type']: [sensor_data_update] and [alert_notification] of
    [SensorDataConsumer], [alert_notification] of [AlertConsumer]. The
    message carries the serializer data of the instance under ['data'] or
    ['alert']; the handler puts it in a dict and calls [json.dumps]. *)
Definition dispatch (e : event) (c : consumer) : crash + consumer :=
  match class c, e with
  | SensorDataConsumer, sensor_data_update data =>
      send_json (Frame.sensor_data (SensorDataSerializer_data data)) c
  | SensorDataConsumer, alert_notification alert _ =>
      send_json (Frame.alert (AlertSerializer_data alert)) c
  | AlertConsumer, alert_notification alert (Some timestamp) =>
      send_json (Frame.new_alert (AlertSerializer_data alert) timestamp) c
  | AlertConsumer, alert_notification alert None => inl no_timestamp
  | AlertConsumer, sensor_data_update _ => inl no_handler
  end.

(** What a client sends: text that is no JSON, JSON that is no object, or
    an object with its ['type'] and ['device_id'] keys. *)
Inductive json_id := id_absent | id_uuid (id : Z) | id_other.

Inductive text_data :=
| not_json
| json_not_object
| json_object (type : option string) (device_id : json_id).

(** [get_user_device]: [Device.objects.get(id=device_id, owner=self.user)],
    [None] on [DoesNotExist]. *)
Definition get_user_device (user : option User.t) (device_id : json_id)
    (w : world) : crash + option Device.t :=
  match user, device_id with
  | None, _ => inl anonymous_owner
  | Some _, id_other => inl not_a_uuid
  | Some _, id_absent => inr None
  | Some user, id_uuid id =>
      match filter (λ d, Device.id d = id ∧ Device.owner d = User.id user)
                   (snd <$> map_to_list (devices w)) with
      | [] => inr None
      | [device] => inr (Some device)
      | _ => inl many_devices
      end
  end.

(** [order_by('-timestamp')]: latest first. *)
Definition latest_first (a b : SensorData.t) : Prop :=
  (SensorData.timestamp b ≤ SensorData.timestamp a)%Z.

#[global] Instance latest_first_dec : RelDecision latest_first :=
  λ a b, decide (SensorData.timestamp b ≤ SensorData.timestamp a)%Z.

(** [SensorData.objects.filter(device=device).order_by('-timestamp')
    .first()], the query [latest], [dashboard_summary] and
    [get_latest_sensor_data] run for each device. *)
Definition latest_of (device : Device.t) (w : world) : option SensorData.t :=
  head (merge_sort latest_first
          (filter (λ r, Device.id (SensorData.device r) = Device.id device)
                  (sensor_data w))).

(** [get_latest_sensor_data]: the serializer data of the latest reading
    of each device of the user that has one. The devices come in the
    order of the device table here; their [created_at] ordering is not
    tracked. *)
Definition get_latest_sensor_data (user : option User.t) (w : world)
    : crash + list py :=
  match user with
  | None => inl anonymous_owner
  | Some user =>
      inr (omap (λ device, SensorDataSerializer_data <$> latest_of device w)
             (filter (λ d, Device.owner d = User.id user)
                     (snd <$> map_to_list (devices w))))
  end.

Definition subscribe_to_device (device_id : json_id) (w : world)
    (c : consumer) : crash + consumer :=
  match get_user_device (scope_user c) device_id w with
  | inl e => inl e
  | inr (Some device) =>
      inr (self_send
             (Frame.subscription_success
                match device_id with id_uuid id => id | _ => 0%Z end
                (Device.name device +:+ " 디바이스 구독 완료")) c)
  | inr None =>
      inr (self_send
             (Frame.error "디바이스를 찾을 수 없거나 권한이 없습니다.") c)
  end.

Definition send_latest_data (w : world) (c : consumer) : crash + consumer :=
  match get_latest_sensor_data (scope_user c) w with
  | inl e => inl e
  | inr latest_data => send_json (Frame.latest_data latest_data) c
  end.

(** [SensorDataConsumer.receive]; [AlertConsumer] inherits the empty
    [receive] of the base class. Only [json.JSONDecodeError] is caught:
    what [send_latest_data] raises leaves [receive]. *)
Definition receive (text : text_data) (w : world) (c : consumer)
    : crash + consumer :=
  match class c with
  | AlertConsumer => inr c
  | SensorDataConsumer =>
      match text with
      | not_json => inr (self_send (Frame.error "잘못된 JSON 형식입니다.") c)
      | json_not_object => inl not_an_object
      | json_object message_type device_id =>
          if bool_decide (message_type = Some "subscribe_device"%string) then
            subscribe_to_device device_id w c
          else if bool_decide (message_type = Some "get_latest_data"%string)
          then send_latest_data w c
          else inr c
      end
  end.

(** The live side of the server: the channel layer and the consumers of
    the open connections. *)
Record hub := Hub {
  members : layer;
  sockets : list consumer;
}.

(** A new connection: the framework builds the consumer and runs
    [connect]. *)
Definition open_connection (class : consumer_class) (channel_name : string)
    (scope_user : option User.t) (h : hub) : hub :=
  let (c, l) := connect (new_consumer class channel_name scope_user)
                  (members h) in
  Hub l (sockets h ++ [c]).

(** [channel_layer.group_send]: every consumer that is still running and
    whose channel is in the group handles the message; one that fails on
    it loses its connection. Nobody reads the channel of a connection
    that is closed. *)
Definition deliver (g : group) (e : event) (h : hub) : hub :=
  Hub (members h)
      ((λ c, if bool_decide (channel_name c ∈ recipients g (members h))
                && negb (closed c)
             then
               match dispatch e c with
               | inr c' => c'
               | inl _ => lose_connection c
               end
             else c) <$> sockets h).

(** The [group_send]s of a stretch of the log, delivered in order. *)
Fixpoint publish (l : list effect) (h : hub) : hub :=
  match l with
  | [] => h
  | group_send g e :: l => publish l (deliver g e h)
  | _ :: l => publish l h
  end.

(** The group [connect] puts a consumer of a class and user in. *)
Definition own_group (class : consumer_class) (user : User.t) : group :=
  match class with
  | SensorDataConsumer => user_sensors (User.id user)
  | AlertConsumer => user_alerts (User.id user)
  end.

(** Every membership of the layer is one that [connect] made: the channel
    belongs to a consumer of the group's class and user. *)
Definition joined_by_connect (h : hub) : Prop :=
  ∀ g c, c ∈ sockets h → (g, channel_name c) ∈ members h →
         ∃ user, scope_user c = Some user ∧ g = own_group (class c) user.

(** A connection request: the consumer's class, the channel name the
    layer gave it, and the user of its scope. *)
Definition connection : Type := consumer_class * string * option User.t.

(** The hub after the connections [rs] were opened in that order. *)
Definition opened (rs : list connection) : hub :=
  foldl (λ h r, open_connection r.1.1 r.1.2 r.2 h) (Hub [] []) rs.

(** A sensors and an alerts connection of user 7, a sensors connection of
    user 8 and an anonymous one. *)
Definition family : list connection :=
  [(SensorDataConsumer, "ch-1"%string, Some (User.mk 7 "ada"));
   (AlertConsumer, "ch-2"%string, Some (User.mk 7 "ada"));
   (SensorDataConsumer, "ch-3"%string, Some (User.mk 8 "bob"));
   (AlertConsumer, "ch-4"%string, None)].


(** The sample devices with one reading of the greenhouse stored at 900. *)
Definition history_world : world :=
  World (devices sample_world)
        [SensorData.mk 1 greenhouse 18 55 90 None None 900 "{}"]
        [] ∅ 2 1 1000 [].

(* ===================================================================== *)
(** * views.py: the dashboard *)
(* ===================================================================== *)

(** [timedelta(hours=n)] on a clock that counts seconds. *)
Definition timedelta_hours (n : Z) : Z := (3600 * n)%Z.

Module LatestReading.
(** An entry of ['latest_readings']. *)
Record t := mk {
  device_name : string;
  device_location : string;
  temperature : float;
  humidity : float;
  air_quality : float;
  timestamp : Z;
}.
End LatestReading.

Module Summary.
(** The body of the answer of [dashboard_summary]. *)
Record t := mk {
  total_devices : nat;
  active_devices : nat;
  recent_data_count : nat;
  active_alerts_count : nat;
  latest_readings : list LatestReading.t;
}.
End Summary.

(** [dashboard_summary]. The devices are visited in the order of the device
    table here; their [created_at] ordering is not tracked. *)
Definition dashboard_summary (request : Request) : M Summary.t :=
  let* now := timezone_now in
  λ w,
    let user_devices := user_devices request w in
    let total_devices := length user_devices in
    let active_devices :=
      length (filter (λ d, Device.is_active d = true) user_devices) in
    let yesterday := (now - timedelta_hours 24)%Z in
    let recent_data_count :=
      length (filter (λ r, Device.id (SensorData.device r)
                           ∈ Device.id <$> user_devices
                           ∧ (yesterday ≤ SensorData.timestamp r)%Z)
                     (sensor_data w)) in
    let active_alerts_count :=
      length (filter (λ a, Device.id (Alert.device a)
                           ∈ Device.id <$> user_devices
                           ∧ status_value (Alert.status a) = "active"%string)
                     (alerts w)) in
    let latest_readings :=
      omap (λ device,
              match latest_of device w with
              | Some latest =>
                  Some (LatestReading.mk (Device.name device)
                          (Device.location device)
                          (SensorData.temperature latest)
                          (SensorData.humidity latest)
                          (SensorData.air_quality latest)
                          (SensorData.timestamp latest))
              | None => None
              end)
           (filter (λ d, Device.is_active d = true) user_devices) in
    (Return (Summary.mk total_devices active_devices recent_data_count
               active_alerts_count latest_readings), w).

(* ===================================================================== *)
(** * management/commands/generate_test_data.py *)
(* ===================================================================== *)

Module Options.
(** The command line options, parsed with [type=int] and [type=str]. *)
Record t := mk {
  hours : Z;          (* default 24 *)
  interval : Z;       (* minutes, default 60 *)
  username : string;  (* default 'newbe123' *)
}.
End Options.

Module Sample.
(** The five values one pass of the loop computes from the hour of
    [current_time] and its random draws. *)
Record t := mk {
  temperature : float;
  humidity : float;
  air_quality : float;
  uv_index : float;
  light_level : float;
}.
End Sample.

Module DataPoint.
(** An unsaved [SensorData(...)] instance: no pk yet, [timestamp] as
    passed to the constructor. *)
Record t := mk {
  device : Device.t;
  values : Sample.t;
  timestamp : Z;
}.
End DataPoint.

(** What the command's [except Exception] clause can catch. *)
Inductive failure :=
| integrity          (* IntegrityError from get_or_create *)
| several_devices    (* MultipleObjectsReturned from get_or_create *)
| overflow.          (* OverflowError from datetime arithmetic *)

(** The lines written to stdout, up to the closing sample of three rows. *)
Inductive line :=
| start_line
| user_line (username : string)
| device_created_line (name : string)
| device_reused_line (name : string)
| deleted_line (existing_count : nat)
| success_line (count : nat)
| period_line (start_time end_time : Z)
| device_line (name : string) (id : Z)
| owner_line (username : string)
| no_user_line (username : string)
| error_line (e : failure).

(** Python's [datetime] on a clock that counts seconds from the Unix
    epoch: [datetime.min], [datetime.max] and the bound on the days of a
    [timedelta]. Arithmetic that leaves them raises [OverflowError]. *)
Definition datetime_min : Z := -62135596800.
Definition datetime_max : Z := 253402300799.

Definition timedelta (seconds : Z) : option Z :=
  if bool_decide (-999999999 ≤ seconds `div` 86400 ≤ 999999999)%Z
  then Some seconds else None.

Definition datetime_add (t delta : Z) : option Z :=
  if bool_decide (datetime_min ≤ t + delta ≤ datetime_max)%Z
  then Some (t + delta)%Z else None.

(** [Device.objects.get_or_create(name=..., owner=user, defaults=...)].
    [uuid4] is the id drawn for a new device. A new row needs an unused
    [api_key] and an unused id. *)
Definition get_or_create (user : Z) (uuid4 : Z) (w : world)
    : failure + (Device.t * bool * world) :=
  match filter (λ d, Device.name d = "테스트 센서 #1"%string
                     ∧ Device.owner d = user)
               (snd <$> map_to_list (devices w)) with
  | [device] => inr (device, false, w)
  | [] =>
      let device :=
        Device.mk uuid4 "테스트 센서 #1" "서울시 강남구" true user in
      if bool_decide (is_Some (devices w !! "test-sensor-001"%string)
                      ∨ uuid4 ∈ Device.id <$> (snd <$> map_to_list (devices w)))
      then inl integrity
      else
        inr (device, true,
             World (<["test-sensor-001"%string := device]> (devices w))
                   (sensor_data w) (alerts w) (user_settings w)
                   (sensor_data_seq w) (alert_seq w) (clock w) (log w))
  | _ => inl several_devices
  end.

(** [SensorData.objects.filter(device=device).delete()] *)
Definition delete_readings (device : Device.t) (w : world) : world :=
  World (devices w)
        (filter (λ r, Device.id (SensorData.device r) ≠ Device.id device)
                (sensor_data w))
        (alerts w) (user_settings w) (sensor_data_seq w) (alert_seq w)
        (clock w) (log w).

(** The [while] loop. [draw count current_time] stands for the values a
    pass computes. [None]: the loop is still running when the fuel is
    spent. *)
Fixpoint generate (fuel : nat) (draw : nat → Z → Sample.t)
    (device : Device.t) (interval end_time current_time : Z)
    (data_points : list DataPoint.t) (count : nat)
    : option (failure + list DataPoint.t * nat) :=
  match fuel with
  | O => None
  | S fuel =>
      if bool_decide (current_time ≤ end_time)%Z then
        let data_point :=
          DataPoint.mk device (draw count current_time) current_time in
        let data_points := data_points ++ [data_point] in
        let count := S count in
        match timedelta (60 * interval) with
        | None => Some (inl overflow)
        | Some minutes =>
            match datetime_add current_time minutes with
            | None => Some (inl overflow)
            | Some current_time =>
                generate fuel draw device interval end_time current_time
                  data_points count
            end
        end
      else Some (inr (data_points, count))
  end.

(** The rows of [SensorData.objects.bulk_create]: the next pks, and
    [timestamp] set by [auto_now_add] whatever the instance carried. *)
Fixpoint SensorData_rows (pk : Z) (now : Z) (objs : list DataPoint.t)
    : list SensorData.t :=
  match objs with
  | [] => []
  | p :: rest =>
      SensorData.mk pk (DataPoint.device p)
        (Sample.temperature (DataPoint.values p))
        (Sample.humidity (DataPoint.values p))
        (Sample.air_quality (DataPoint.values p))
        (Some (Sample.uv_index (DataPoint.values p)))
        (Some (Sample.light_level (DataPoint.values p)))
        now "{}"
      :: SensorData_rows (pk + 1)%Z now rest
  end.

(** [SensorData.objects.bulk_create(objs, batch_size=100)]: [save()] is
    not called and [post_save] is not sent. *)
Definition SensorData_objects_bulk_create (objs : list DataPoint.t)
    (w : world) : world :=
  World (devices w)
        (sensor_data w ++ SensorData_rows (sensor_data_seq w) (clock w) objs)
        (alerts w) (user_settings w)
        (sensor_data_seq w + Z.of_nat (length objs))%Z (alert_seq w)
        (clock w) (log w).

(** [Command.handle], with the user table as a map from username to pk.
    The result is what was written to stdout and the database left
    behind. *)
Definition handle (fuel : nat) (users : gmap string Z) (uuid4 : Z)
    (draw : nat → Z → Sample.t) (options : Options.t) (w : world)
    : option (list line * world) :=
  let hours := Options.hours options in
  let interval := Options.interval options in
  let username := Options.username options in
  let out := [start_line] in
  match users !! username with
  | None => Some (out ++ [no_user_line username], w)
  | Some user =>
      let out := out ++ [user_line username] in
      match get_or_create user uuid4 w with
      | inl e => Some (out ++ [error_line e], w)
      | inr (device, created, w) =>
          let out :=
            out ++ [if created then device_created_line (Device.name device)
                    else device_reused_line (Device.name device)] in
          let existing_count :=
            length (filter (λ r, Device.id (SensorData.device r)
                                 = Device.id device) (sensor_data w)) in
          let (out, w) :=
            if bool_decide (0 < existing_count) then
              (out ++ [deleted_line existing_count], delete_readings device w)
            else (out, w) in
          let end_time := clock w in
          match timedelta (3600 * hours) with
          | None => Some (out ++ [error_line overflow], w)
          | Some delta =>
              match datetime_add end_time (- delta) with
              | None => Some (out ++ [error_line overflow], w)
              | Some start_time =>
                  match generate fuel draw device interval end_time
                          start_time [] 0 with
                  | None => None
                  | Some (inl e) => Some (out ++ [error_line e], w)
                  | Some (inr (data_points, count)) =>
                      let w := SensorData_objects_bulk_create data_points w in
                      Some (out ++ [success_line count;
                                    period_line start_time end_time;
                                    device_line (Device.name device)
                                      (Device.id device);
                                    owner_line username], w)
                  end
              end
          end
      end
  end.

(** The default run on the sample devices: user 7 is 'newbe123'. *)
Definition sample_draw (count : nat) (current_time : Z) : Sample.t :=
  Sample.mk 24.5 52 230 0 12.

(** The device a first run makes for user 7 when 13 is drawn as its id. *)
Definition test_device : Device.t :=
  Device.mk 13 "테스트 센서 #1" "서울시 강남구" true 7.

Definition sample_users : gmap string Z := {["newbe123"%string := 7%Z]}.

(* ===================================================================== *)
(** * Comparisons of binary64 numbers *)
(* ===================================================================== *)



(* ===================================================================== *)
(** * The alert evaluator *)
(* ===================================================================== *)

Ltac in_list H :=
  repeat (apply elem_of_cons in H as [-> | H]);
  try (by apply elem_of_nil in H).

Ltac find_in_list :=
  first
    [ solve [eexists; split; [apply list_elem_of_here | reflexivity]]
    | solve [eexists; split;
             [apply list_elem_of_further, list_elem_of_here | reflexivity]]
    | solve [eexists; split;
             [do 2 apply list_elem_of_further; apply list_elem_of_here
             | reflexivity]] ].

Ltac emits_iff :=
  split;
  [ intros (a & Hin & Hty); in_list Hin; simpl in Hty;
    first [discriminate | done]
  | first [ intros [? ?]; first [discriminate | find_in_list]
          | intros ?; first [discriminate | find_in_list] ] ].

(** C1: the evaluator emits temperature_high exactly when the temperature
    is above the high threshold, otherwise temperature_low exactly when it
    is below the low threshold; likewise for humidity; air_quality_bad
    exactly when the air quality is above its threshold. The events come
    in the order temperature, humidity, air quality, at most one per
    metric, and each carries the device, the policy threshold used and the
    observed value. *)
Theorem alerts_to_create_spec (sensor_data : SensorData.t)
    (settings : UserSettings.t) :
  let evs := alerts_to_create sensor_data settings in
  let t := SensorData.temperature sensor_data in
  let h := SensorData.humidity sensor_data in
  let q := SensorData.air_quality sensor_data in
  (emits evs temperature_high ↔
     (UserSettings.temp_high_threshold settings <? t)%float = true) ∧
  (emits evs temperature_low ↔
     (UserSettings.temp_high_threshold settings <? t)%float = false ∧
     (t <? UserSettings.temp_low_threshold settings)%float = true) ∧
  (emits evs humidity_high ↔
     (UserSettings.humidity_high_threshold settings <? h)%float = true) ∧
  (emits evs humidity_low ↔
     (UserSettings.humidity_high_threshold settings <? h)%float = false ∧
     (h <? UserSettings.humidity_low_threshold settings)%float = true) ∧
  (emits evs air_quality_bad ↔
     (UserSettings.air_quality_threshold settings <? q)%float = true) ∧
  StronglySorted
    (λ a b, metric (Alert.alert_type a) < metric (Alert.alert_type b)) evs ∧
  Forall (λ a, Alert.device a = SensorData.device sensor_data ∧
               Alert.status a = active ∧
               carried sensor_data settings (Alert.alert_type a)
               = Some (Alert.threshold_value a, Alert.current_value a)) evs.
Proof.
  unfold alerts_to_create, emits; cbv zeta.
  destruct (UserSettings.temp_high_threshold settings
              <? SensorData.temperature sensor_data)%float;
  destruct (SensorData.temperature sensor_data
              <? UserSettings.temp_low_threshold settings)%float;
  destruct (UserSettings.humidity_high_threshold settings
              <? SensorData.humidity sensor_data)%float;
  destruct (SensorData.humidity sensor_data
              <? UserSettings.humidity_low_threshold settings)%float;
  destruct (UserSettings.air_quality_threshold settings
              <? SensorData.air_quality sensor_data)%float;
  simpl;
  (split; [emits_iff |]); (split; [emits_iff |]); (split; [emits_iff |]);
  (split; [emits_iff |]); (split; [emits_iff |]);
  (split;
   [ repeat match goal with
            | |- StronglySorted _ _ => constructor
            | |- Forall _ _ => constructor
            end; simpl; lia
   | repeat match goal with |- Forall _ _ => constructor end;
     by repeat split ]).
Qed.

(** The three readings the specification lists, against the defaults. *)
Example one_alert_for_temperature :
  alerts_to_create (sample_reading 36.0 50 100) (UserSettings.new 1000)
  = [Alert.new greenhouse temperature_high 35.0 36.0
       [Lit "고온 경고: "; Val 36.0; Lit "°C (임계값: "; Val 35.0;
        Lit "°C)"]].
Proof. reflexivity. Qed.

Example three_alerts_in_order :
  Alert.alert_type <$>
    alerts_to_create (sample_reading 36.0 85.0 600) (UserSettings.new 1000)
  = [temperature_high; humidity_high; air_quality_bad].
Proof. reflexivity. Qed.

Example no_alert_for_mild_reading :
  alerts_to_create mild_reading (UserSettings.new 1000) = [].
Proof. reflexivity. Qed.

(** A NaN compares false both ways: it raises no alert. *)
Example no_alert_for_nan :
  alerts_to_create (sample_reading nan nan nan) (UserSettings.new 1000) = [].
Proof. reflexivity. Qed.

(* ===================================================================== *)
(** * The threshold policy store *)
(* ===================================================================== *)

Lemma load_settings_found (owner : Z) (w : world) (s : UserSettings.t) :
  user_settings w !! owner = Some s →
  load_settings owner w =
    (Return s,
     World (devices w) (sensor_data w) (alerts w) (user_settings w)
           (sensor_data_seq w) (alert_seq w) (clock w)
           (log w ++ [Select_UserSettings owner])).
Proof.
  intros Hs. unfold load_settings, try_except, UserSettings_objects_get,
    bind, record. simpl. by rewrite Hs.
Qed.

Lemma load_settings_missing (owner : Z) (w : world) :
  user_settings w !! owner = None →
  load_settings owner w =
    (Return (UserSettings.new (clock w)),
     World (devices w) (sensor_data w) (alerts w)
           (<[owner := UserSettings.new (clock w)]> (user_settings w))
           (sensor_data_seq w) (alert_seq w) (clock w)
           ((log w ++ [Select_UserSettings owner])
              ++ [Insert_UserSettings owner])).
Proof.
  intros Hs. unfold load_settings, try_except, UserSettings_objects_get,
    UserSettings_objects_create, timezone_now, bind, record. simpl.
  rewrite Hs. simpl. by rewrite Hs.
Qed.

(** Loading the settings always succeeds and touches no other table. *)
Lemma load_settings_frame (owner : Z) (w : world) :
  ∃ s w', load_settings owner w = (Return s, w') ∧
    user_settings w' !! owner = Some s ∧
    devices w' = devices w ∧ sensor_data w' = sensor_data w ∧
    alerts w' = alerts w ∧ sensor_data_seq w' = sensor_data_seq w ∧
    alert_seq w' = alert_seq w ∧ clock w' = clock w.
Proof.
  destruct (user_settings w !! owner) as [s|] eqn:Hs.
  - rewrite (load_settings_found _ _ _ Hs). by eexists _, _.
  - rewrite (load_settings_missing _ _ Hs). eexists _, _.
    split; [done |]. simpl. by rewrite lookup_insert_eq.
Qed.

Lemma settings_inserts_app (owner : Z) (l1 l2 : list effect) :
  settings_inserts owner (l1 ++ l2)
  = settings_inserts owner l1 + settings_inserts owner l2.
Proof. unfold settings_inserts. by rewrite filter_app, length_app. Qed.

Lemma settings_inserts_cons (owner : Z) (e : effect) (l : list effect) :
  settings_inserts owner (e :: l)
  = (if is_settings_insert owner e then 1 else 0)
    + settings_inserts owner l.
Proof.
  unfold settings_inserts. rewrite filter_cons.
  destruct (is_settings_insert owner e); by case_decide.
Qed.

Lemma settings_inserts_nil (owner : Z) : settings_inserts owner [] = 0.
Proof. reflexivity. Qed.

Lemma is_settings_insert_same (owner : Z) :
  is_settings_insert owner (Insert_UserSettings owner) = true.
Proof. simpl. by apply bool_decide_eq_true_2. Qed.

Ltac count_inserts :=
  repeat first
    [ rewrite settings_inserts_app | rewrite settings_inserts_cons
    | rewrite settings_inserts_nil | rewrite is_settings_insert_same
    | progress simpl ];
  try lia.

Lemma later_calls_stable (owner : Z) (s : UserSettings.t) (w : world)
    (n : nat) :
  user_settings w !! owner = Some s →
  user_settings (later_calls owner n w) = user_settings w ∧
  settings_inserts owner (log (later_calls owner n w))
  = settings_inserts owner (log w).
Proof.
  intros Hs. induction n as [|n [IHu IHl]]; [done |].
  unfold later_calls in *. simpl.
  rewrite (load_settings_found owner _ s) by (by rewrite IHu). simpl.
  split; [done |]. count_inserts.
Qed.

(** C7: for an account without settings, the first load creates and stores
    a row holding exactly the defaults 35.0, 5.0, 80.0, 20.0 and 500.0 and
    returns it; every later load for that account returns the stored row
    and inserts nothing. *)
Theorem load_settings_creates_defaults_once (owner : Z) (w : world) :
  user_settings w !! owner = None →
  ∃ s w1, load_settings owner w = (Return s, w1) ∧
    UserSettings.temp_high_threshold s = 35.0%float ∧
    UserSettings.temp_low_threshold s = 5.0%float ∧
    UserSettings.humidity_high_threshold s = 80.0%float ∧
    UserSettings.humidity_low_threshold s = 20.0%float ∧
    UserSettings.air_quality_threshold s = 500.0%float ∧
    user_settings w1 = <[owner := s]> (user_settings w) ∧
    settings_inserts owner (log w1) = S (settings_inserts owner (log w)) ∧
    ∀ n, let w2 := later_calls owner n w1 in
      (load_settings owner w2).1 = Return s ∧
      user_settings (load_settings owner w2).2 = user_settings w1 ∧
      settings_inserts owner (log (load_settings owner w2).2)
      = settings_inserts owner (log w1).
Proof.
  intros Hnone. eexists _, _. split; [by apply load_settings_missing |].
  do 5 (split; [reflexivity |]). simpl. split; [done |].
  split.
  { count_inserts. }
  intros n.
  set (s := UserSettings.new (clock w)).
  set (w1 := World _ _ _ _ _ _ _ _) in *.
  assert (user_settings w1 !! owner = Some s) as Hs
    by (subst w1; simpl; apply lookup_insert_eq).
  destruct (later_calls_stable owner s w1 n Hs) as [Hu Hl].
  rewrite (load_settings_found owner (later_calls owner n w1) s)
    by (by rewrite Hu).
  simpl. split; [done |]. split; [done |].
  rewrite settings_inserts_app, Hl. count_inserts.
Qed.

Lemma load_settings_creates_defaults_once_witness :
  ∃ s w1, load_settings 7 empty_world = (Return s, w1) ∧
    UserSettings.temp_high_threshold s = 35.0%float ∧
    UserSettings.temp_low_threshold s = 5.0%float ∧
    UserSettings.humidity_high_threshold s = 80.0%float ∧
    UserSettings.humidity_low_threshold s = 20.0%float ∧
    UserSettings.air_quality_threshold s = 500.0%float ∧
    user_settings w1 = <[7%Z := s]> (user_settings empty_world) ∧
    settings_inserts 7 (log w1)
    = S (settings_inserts 7 (log empty_world)) ∧
    ∀ n, let w2 := later_calls 7 n w1 in
      (load_settings 7 w2).1 = Return s ∧
      user_settings (load_settings 7 w2).2 = user_settings w1 ∧
      settings_inserts 7 (log (load_settings 7 w2).2)
      = settings_inserts 7 (log w1).
Proof.
  apply (load_settings_creates_defaults_once 7 empty_world).
  reflexivity.
Defined.

(* ===================================================================== *)
(** * The ingestion pipeline, step by step *)
(* ===================================================================== *)

Lemma Device_objects_get_run (api_key : string) (w : world) :
  Device_objects_get api_key w =
    (match devices w !! api_key with
     | Some d => if Device.is_active d then Return d else Raise DoesNotExist
     | None => Raise DoesNotExist
     end, logged w [Select_Device api_key]).
Proof.
  unfold Device_objects_get, bind, record. simpl.
  destruct (devices w !! api_key) as [d|]; [| done].
  by destruct (Device.is_active d).
Qed.

Lemma run_validation_api_key_run (data : primitive string) (w : world) :
  run_validation_api_key data w =
    match CharField_run_validation data with
    | inl errs => (Return (inl errs), w)
    | inr value =>
        (Return match devices w !! value with
                | Some d => if Device.is_active d then inr value
                            else inl invalid_api_key
                | None => inl invalid_api_key
                end, logged w [Select_Device value])
    end.
Proof.
  unfold run_validation_api_key.
  destruct (CharField_run_validation data) as [errs | value]; [done |].
  unfold validate_api_key, try_except, bind.
  rewrite Device_objects_get_run.
  destruct (devices w !! value) as [d|]; [| done].
  by destruct (Device.is_active d).
Qed.

Lemma is_valid_run (data : Payload.t) (w : world) :
  is_valid (JSON_object data) w =
    match CharField_run_validation (Payload.api_key data) with
    | inl errs => (Return (to_internal_value data (inl errs)), w)
    | inr k =>
        (Return (to_internal_value data
                   match devices w !! k with
                   | Some d => if Device.is_active d then inr k
                               else inl invalid_api_key
                   | None => inl invalid_api_key
                   end), logged w [Select_Device k])
    end.
Proof.
  unfold is_valid, bind. rewrite run_validation_api_key_run.
  by destruct (CharField_run_validation (Payload.api_key data)).
Qed.

Lemma _check_alerts_run (sensor_data : SensorData.t) (w : world) :
  ∃ settings w1,
    load_settings (Device.owner (SensorData.device sensor_data)) w
    = (Return settings, w1) ∧
    _check_alerts sensor_data w
    = (Return tt, after_check sensor_data settings w1).
Proof.
  destruct (load_settings_frame
              (Device.owner (SensorData.device sensor_data)) w)
    as (s & w1 & Hload & _).
  exists s, w1. split; [done |].
  unfold _check_alerts, after_check, bind. rewrite Hload.
  by destruct (alerts_to_create sensor_data s).
Qed.

Lemma SensorData_objects_create_run (device : Device.t)
    (data : validated_data) (w : world) :
  SensorData_objects_create device data w =
    (Return (new_reading w device data),
     persisted w (new_reading w device data)
       [Insert_SensorData (sensor_data_seq w);
        group_send (user_sensors (Device.owner device))
          (sensor_data_update (new_reading w device data))]).
Proof.
  unfold SensorData_objects_create, sensor_data_created, timezone_now, bind,
    record, persisted, ret. simpl. by rewrite <- app_assoc.
Qed.

Lemma create_run (data : validated_data) (device : Device.t) (w : world) :
  devices w !! v_api_key data = Some device →
  Device.is_active device = true →
  let reading := new_reading w device data in
  ∃ settings w1,
    load_settings (Device.owner device)
      (persisted w reading
         [Select_Device (v_api_key data);
          Insert_SensorData (SensorData.id reading);
          group_send (user_sensors (Device.owner device))
            (sensor_data_update reading)])
    = (Return settings, w1) ∧
    create data w = (Return reading, after_check reading settings w1).
Proof.
  intros Hdev Hactive reading.
  unfold create, bind. rewrite Device_objects_get_run, Hdev, Hactive.
  rewrite SensorData_objects_create_run.
  change (new_reading (logged w _) device data) with reading.
  set (w2 := persisted (logged w _) reading _).
  destruct (_check_alerts_run reading w2) as (s & w1 & Hload & Hcheck).
  exists s, w1. rewrite Hcheck. split; [| done].
  rewrite <- Hload. f_equal. subst w2. unfold persisted, logged. simpl.
  by rewrite <- app_assoc.
Qed.



Lemma after_check_frame (reading : SensorData.t) (settings : UserSettings.t)
    (w : world) :
  devices (after_check reading settings w) = devices w ∧
  sensor_data (after_check reading settings w) = sensor_data w ∧
  user_settings (after_check reading settings w) = user_settings w ∧
  sensor_data_seq (after_check reading settings w) = sensor_data_seq w ∧
  clock (after_check reading settings w) = clock w.
Proof. unfold after_check. by destruct (alerts_to_create reading settings). Qed.



(* ===================================================================== *)
(** * Rejected requests *)
(* ===================================================================== *)

(** Either every field validated, or the answer is the collected errors. *)
Lemma to_internal_value_cases (data : Payload.t)
    (api_key : list ErrorDetail + string) :
  (∃ validated, to_internal_value data api_key = inr validated ∧
     (∃ t, run_validation SensorData.temperature_field
             (Payload.temperature data) = inr t) ∧
     (∃ h, run_validation SensorData.humidity_field
             (Payload.humidity data) = inr h) ∧
     (∃ q, run_validation SensorData.air_quality_field
             (Payload.air_quality data) = inr q) ∧
     (∃ u, run_validation SensorData.uv_index_field
             (Payload.uv_index data) = inr u) ∧
     (∃ l, run_validation SensorData.light_level_field
             (Payload.light_level data) = inr l) ∧
     (∃ raw, run_validation_raw_data (Payload.raw_data data) = inr raw) ∧
     api_key = inr (v_api_key validated)) ∨
  to_internal_value data api_key =
    inl (field_errors "temperature"
           (run_validation SensorData.temperature_field
              (Payload.temperature data)) ++
         field_errors "humidity"
           (run_validation SensorData.humidity_field
              (Payload.humidity data)) ++
         field_errors "air_quality"
           (run_validation SensorData.air_quality_field
              (Payload.air_quality data)) ++
         field_errors "uv_index"
           (run_validation SensorData.uv_index_field
              (Payload.uv_index data)) ++
         field_errors "light_level"
           (run_validation SensorData.light_level_field
              (Payload.light_level data)) ++
         field_errors "raw_data"
           (run_validation_raw_data (Payload.raw_data data)) ++
         field_errors "api_key" api_key).
Proof.
  unfold to_internal_value. cbv zeta.
  generalize (run_validation SensorData.temperature_field
                (Payload.temperature data)).
  generalize (run_validation SensorData.humidity_field
                (Payload.humidity data)).
  generalize (run_validation SensorData.air_quality_field
                (Payload.air_quality data)).
  generalize (run_validation SensorData.uv_index_field
                (Payload.uv_index data)).
  generalize (run_validation SensorData.light_level_field
                (Payload.light_level data)).
  generalize (run_validation_raw_data (Payload.raw_data data)).
  intros rraw rl ru rq rh rt.
  destruct rt as [?|[?|]]; [by right | | by right].
  destruct rh as [?|[?|]]; [by right | | by right].
  destruct rq as [?|[?|]]; [by right | | by right].
  destruct ru as [?|?]; [by right |].
  destruct rl as [?|?]; [by right |].
  destruct rraw as [?|?]; [by right |].
  destruct api_key as [?|?]; [by right |].
  left. eauto 20.
Qed.

Lemma run_validation_outside (lo hi x : float) (nullable : bool) :
  outside lo hi x = true →
  ∃ d ds,
    run_validation
      (mkFloatField [MinValueValidator lo; MaxValueValidator hi] nullable)
      (JSON_value x) = inl (d :: ds).
Proof.
  unfold outside, run_validation, run_validators. simpl.
  destruct (x <? lo)%float, (hi <? x)%float; simpl; intros ?;
    by eauto.
Qed.

Lemma to_internal_value_out_of_range (data : Payload.t)
    (field_name : string) (api_key : list ErrorDetail + string) :
  out_of_range data field_name →
  ∃ errors details,
    to_internal_value data api_key = inl errors ∧
    (field_name, details) ∈ errors ∧ details ≠ [].
Proof.
  intros Hout.
  destruct (to_internal_value_cases data api_key)
    as [(v & _ & [t Ht] & [h Hh] & [q Hq] & [u Hu] & [l Hl] & _) | ->].
  - exfalso.
    destruct Hout as [(_ & x & Hx & Ho) | [(_ & x & Hx & Ho) |
      [(_ & x & Hx & Ho) | [(_ & x & Hx & Ho) | (_ & x & Hx & Ho)]]]].
    + rewrite Hx in Ht.
      destruct (run_validation_outside _ _ _ false Ho) as (d & ds & Hr).
      unfold SensorData.temperature_field in Ht. congruence.
    + rewrite Hx in Hh.
      destruct (run_validation_outside _ _ _ false Ho) as (d & ds & Hr).
      unfold SensorData.humidity_field in Hh. congruence.
    + rewrite Hx in Hq.
      destruct (run_validation_outside _ _ _ false Ho) as (d & ds & Hr).
      unfold SensorData.air_quality_field in Hq. congruence.
    + rewrite Hx in Hu.
      destruct (run_validation_outside _ _ _ true Ho) as (d & ds & Hr).
      unfold SensorData.uv_index_field in Hu. congruence.
    + rewrite Hx in Hl. unfold run_validation, run_validators in Hl.
      simpl in Hl. by rewrite Ho in Hl.
  - destruct Hout as [(-> & x & Hx & Ho) | [(-> & x & Hx & Ho) |
      [(-> & x & Hx & Ho) | [(-> & x & Hx & Ho) | (-> & x & Hx & Ho)]]]];
      rewrite Hx.
    + destruct (run_validation_outside _ _ _ false Ho) as (d & ds & Hr).
      unfold SensorData.temperature_field. rewrite Hr.
      eexists _, (d :: ds). split; [done |]. split; [| done].
      simpl. apply list_elem_of_here.
    + destruct (run_validation_outside _ _ _ false Ho) as (d & ds & Hr).
      unfold SensorData.humidity_field. rewrite Hr.
      eexists _, (d :: ds). split; [done |]. split; [| done].
      rewrite !elem_of_app. right; left. apply list_elem_of_here.
    + destruct (run_validation_outside _ _ _ false Ho) as (d & ds & Hr).
      unfold SensorData.air_quality_field. rewrite Hr.
      eexists _, (d :: ds). split; [done |]. split; [| done].
      rewrite !elem_of_app. right; right; left. apply list_elem_of_here.
    + destruct (run_validation_outside _ _ _ true Ho) as (d & ds & Hr).
      unfold SensorData.uv_index_field. rewrite Hr.
      eexists _, (d :: ds). split; [done |]. split; [| done].
      rewrite !elem_of_app. do 3 right; left. apply list_elem_of_here.
    + eexists _, [min_value 0]. split; [done |]. split; [| done].
      rewrite !elem_of_app. do 4 right; left.
      unfold run_validation, run_validators. simpl. rewrite Ho.
      apply list_elem_of_here.
Qed.

(** A request that fails validation is answered 400 and writes nothing:
    at most the key lookup shows in the log. *)
Lemma receive_sensor_data_rejected (data : request_data) (w : world)
    (errors : list (string * list ErrorDetail)) :
  (is_valid data w).1 = Return (inl errors) →
  ∃ w' l,
    receive_sensor_data data w = (Return (HTTP_400_BAD_REQUEST errors), w') ∧
    devices w' = devices w ∧ sensor_data w' = sensor_data w ∧
    alerts w' = alerts w ∧ user_settings w' = user_settings w ∧
    log w' = log w ++ l ∧ Forall is_device_lookup l.
Proof.
  unfold receive_sensor_data, bind.
  destruct data as [| datatype | data].
  - simpl. intros [= <-]. exists w, []. rewrite app_nil_r.
    repeat split; by constructor.
  - simpl. intros [= <-]. exists w, []. rewrite app_nil_r.
    repeat split; by constructor.
  - rewrite is_valid_run.
    destruct (CharField_run_validation (Payload.api_key data)) as [errs | k];
      simpl; intros [= ->].
    + exists w, []. rewrite app_nil_r. repeat split; by constructor.
    + eexists _, [Select_Device k]. repeat split; by repeat constructor.
Qed.

(** C3: a payload with a numeric field outside its declared range is
    answered 400 with an error list under that field's name; no reading,
    no alert and no settings row is written. *)
Theorem receive_sensor_data_rejects_out_of_range (data : Payload.t)
    (field_name : string) (w : world) :
  out_of_range data field_name →
  ∃ errors details w',
    receive_sensor_data (JSON_object data) w
    = (Return (HTTP_400_BAD_REQUEST errors), w') ∧
    (field_name, details) ∈ errors ∧ details ≠ [] ∧
    sensor_data w' = sensor_data w ∧ alerts w' = alerts w ∧
    user_settings w' = user_settings w ∧ devices w' = devices w.
Proof.
  intros Hout.
  assert (∃ errors details,
            (is_valid (JSON_object data) w).1 = Return (inl errors) ∧
            (field_name, details) ∈ errors ∧ details ≠ [])
    as (errors & details & Hvalid & Hin & Hne).
  { rewrite is_valid_run.
    destruct (CharField_run_validation (Payload.api_key data)) as [errs | k];
      simpl.
    - destruct (to_internal_value_out_of_range data field_name
                  (inl errs) Hout) as (errors & details & -> & ?).
      by eexists _, _.
    - destruct (to_internal_value_out_of_range data field_name
                  match devices w !! k with
                  | Some d => if Device.is_active d then inr k
                              else inl invalid_api_key
                  | None => inl invalid_api_key
                  end Hout) as (errors & details & -> & ?).
      by eexists _, _. }
  destruct (receive_sensor_data_rejected (JSON_object data) w errors Hvalid)
    as (w' & l & -> & ? & ? & ? & ? & _).
  by eexists _, _, _.
Qed.

Lemma receive_sensor_data_rejects_out_of_range_witness :
  ∃ errors details w',
    receive_sensor_data
      (JSON_object (sample_payload "key-greenhouse" 120 50 100))
      sample_world = (Return (HTTP_400_BAD_REQUEST errors), w') ∧
    ("temperature"%string, details) ∈ errors ∧ details ≠ [] ∧
    sensor_data w' = sensor_data sample_world ∧
    alerts w' = alerts sample_world ∧
    user_settings w' = user_settings sample_world ∧
    devices w' = devices sample_world.
Proof.
  apply (receive_sensor_data_rejects_out_of_range
           (sample_payload "key-greenhouse" 120 50 100) "temperature"
           sample_world).
  left. split; [reflexivity |]. exists 120%float. split; reflexivity.
Defined.






(* ===================================================================== *)
(** * Readings inside the bounds *)
(* ===================================================================== *)

Lemma alerts_to_create_within_bounds (reading : SensorData.t)
    (settings : UserSettings.t) :
  within_bounds reading settings = true →
  alerts_to_create reading settings = [].
Proof.
  unfold within_bounds, alerts_to_create. cbv zeta.
  intros [[[[H1 H2]%andb_prop H3]%andb_prop H4]%andb_prop H5]%andb_prop.
  apply negb_true_iff in H1, H2, H3, H4, H5.
  by rewrite H1, H2, H3, H4, H5.
Qed.

(** C9: when the reading is not above any high threshold and not below any
    low threshold of the policy [_check_alerts] loads, the evaluator
    builds no alert, no Alert row is stored and no bulk insert is
    issued. *)
Theorem _check_alerts_within_bounds (reading : SensorData.t)
    (settings : UserSettings.t) (w : world) :
  (load_settings (Device.owner (SensorData.device reading)) w).1
  = Return settings →
  within_bounds reading settings = true →
  alerts_to_create reading settings = [] ∧
  (_check_alerts reading w).1 = Return tt ∧
  alerts (_check_alerts reading w).2 = alerts w ∧
  alert_seq (_check_alerts reading w).2 = alert_seq w ∧
  log (_check_alerts reading w).2
  = log (load_settings (Device.owner (SensorData.device reading)) w).2.
Proof.
  intros Hload Hbounds.
  pose proof (alerts_to_create_within_bounds _ _ Hbounds) as Hnil.
  split; [done |].
  destruct (_check_alerts_run reading w) as (s & w1 & Hload' & ->).
  rewrite Hload' in Hload. simpl in Hload. injection Hload as ->.
  destruct (load_settings_frame (Device.owner (SensorData.device reading)) w)
    as (s' & w1' & Hload'' & _ & _ & _ & Halerts & _ & Hseq & _).
  rewrite Hload' in Hload''. simplify_eq.
  rewrite Hload'. unfold after_check. rewrite Hnil. simpl.
  by rewrite Halerts, Hseq.
Qed.

Lemma _check_alerts_within_bounds_witness :
  alerts_to_create mild_reading (UserSettings.new 1000) = [] ∧
  (_check_alerts mild_reading sample_world).1 = Return tt ∧
  alerts (_check_alerts mild_reading sample_world).2 = alerts sample_world ∧
  alert_seq (_check_alerts mild_reading sample_world).2
  = alert_seq sample_world ∧
  log (_check_alerts mild_reading sample_world).2
  = log (load_settings (Device.owner (SensorData.device mild_reading))
           sample_world).2.
Proof.
  apply (_check_alerts_within_bounds mild_reading (UserSettings.new 1000)
           sample_world); reflexivity.
Defined.

(* ===================================================================== *)
(** * Order of effects in one ingest *)
(* ===================================================================== *)

Lemma load_settings_log (owner : Z) (w : world) :
  ∃ l, log (load_settings owner w).2 = log w ++ l ∧ Forall is_evaluation l.
Proof.
  destruct (user_settings w !! owner) as [s|] eqn:Hs.
  - rewrite (load_settings_found _ _ _ Hs). simpl.
    eexists. split; [done |]. by repeat constructor.
  - rewrite (load_settings_missing _ _ Hs). simpl.
    exists [Select_UserSettings owner; Insert_UserSettings owner].
    rewrite <- app_assoc. split; [done |]. by repeat constructor.
Qed.

Lemma after_check_log (reading : SensorData.t) (settings : UserSettings.t)
    (w : world) :
  ∃ l, log (after_check reading settings w) = log w ++ l ∧
       Forall is_evaluation l.
Proof.
  unfold after_check. destruct (alerts_to_create reading settings).
  - exists []. by rewrite app_nil_r.
  - simpl. eexists. split; [done |]. by repeat constructor.
Qed.

(** A request that passes validation is an object whose key, as the
    [api_key] field hands it on, names an active device. *)
Lemma is_valid_inr (data : request_data) (w : world)
    (validated : validated_data) :
  (is_valid data w).1 = Return (inr validated) →
  (∃ payload,
     data = JSON_object payload ∧
     CharField_run_validation (Payload.api_key payload)
     = inr (v_api_key validated)) ∧
  (is_valid data w).2 = logged w [Select_Device (v_api_key validated)] ∧
  ∃ device, devices w !! v_api_key validated = Some device ∧
            Device.is_active device = true.
Proof.
  destruct data as [| datatype | data]; [done | done |].
  rewrite is_valid_run.
  destruct (CharField_run_validation (Payload.api_key data)) as [errs | k]
    eqn:Hfield; simpl.
  - intros [= Hv].
    destruct (to_internal_value_cases data (inl errs))
      as [(v & _ & _ & _ & _ & _ & _ & _ & [=]) | Herr].
    congruence.
  - intros [= Hv].
    destruct (to_internal_value_cases data
                match devices w !! k with
                | Some d => if Device.is_active d then inr k
                            else inl invalid_api_key
                | None => inl invalid_api_key
                end)
      as [(v & Hv' & _ & _ & _ & _ & _ & _ & Hk) | Herr]; [| congruence].
    rewrite Hv in Hv'. injection Hv' as <-.
    destruct (devices w !! k) as [d|] eqn:Hd; [| done].
    destruct (Device.is_active d) eqn:Hactive; [| done].
    injection Hk as ->. rewrite Hd.
    split; [by exists data |]. split; [done |]. by exists d.
Qed.

(** The log of one request: either key lookups only and no new reading,
    or the fixed opening of a successful ingest followed by the statements
    of the alert evaluation. *)
Lemma ingest_log_shape (data : request_data) (w : world) :
  let w' := (receive_sensor_data data w).2 in
  (∃ l, log w' = log w ++ l ∧ Forall is_device_lookup l ∧
        sensor_data w' = sensor_data w) ∨
  (∃ key reading post,
     log w' = log w ++ ingest_prefix key reading ++ post ∧
     Forall is_evaluation post ∧
     sensor_data w' = sensor_data w ++ [reading]).
Proof.
  intros w'. subst w'.
  destruct (is_valid data w) as [[[errors | validated] | e] w0] eqn:Hvalid.
  - left.
    destruct (receive_sensor_data_rejected data w errors)
      as (w' & l & -> & _ & ? & _ & _ & ? & ?); [by rewrite Hvalid |].
    by exists l.
  - right.
    destruct (is_valid_inr data w validated) as (_ & Hw0 & d & Hd & Hact);
      [by rewrite Hvalid |].
    rewrite Hvalid in Hw0. simpl in Hw0. subst w0.
    unfold receive_sensor_data, bind. rewrite Hvalid.
    set (k := v_api_key validated) in *.
    destruct (create_run validated d (logged w [Select_Device k]))
      as (s & w1 & Hload & ->); [done | done |].
    simpl.
    set (r := new_reading (logged w [Select_Device k]) d validated) in *.
    destruct (load_settings_log (Device.owner d)
                (persisted (logged w [Select_Device k]) r
                   [Select_Device k;
                    Insert_SensorData (SensorData.id r);
                    group_send (user_sensors (Device.owner d))
                      (sensor_data_update r)]))
      as (l1 & Hl1 & Hev1).
    destruct (load_settings_frame (Device.owner d)
                (persisted (logged w [Select_Device k]) r
                   [Select_Device k;
                    Insert_SensorData (SensorData.id r);
                    group_send (user_sensors (Device.owner d))
                      (sensor_data_update r)]))
      as (s' & w1' & Hload' & _ & _ & Hsd & _).
    fold k in Hload. rewrite Hload in Hl1, Hload'. simplify_eq.
    destruct (after_check_log r s' w1') as (l2 & Hl2 & Hev2).
    destruct (after_check_frame r s' w1') as (_ & Hsd2 & _).
    exists k, r, (l1 ++ l2).
    split.
    { rewrite Hl2. simpl in Hl1. rewrite Hl1. unfold ingest_prefix. simpl.
      rewrite <- !app_assoc. done. }
    split; [by apply Forall_app |].
    by rewrite Hsd2, Hsd.
  - exfalso. destruct data as [| datatype | data]; [done | done |].
    rewrite is_valid_run in Hvalid.
    by destruct (CharField_run_validation (Payload.api_key data)).
Qed.

Lemma evaluation_only (post : list effect) :
  Forall is_evaluation post →
  filter (λ e, is_reading_event e) post = [] ∧
  filter (λ e, is_reading_insert e) post = [].
Proof.
  induction 1 as [|e post He _ [IH1 IH2]]; [done |].
  rewrite !filter_cons, IH1, IH2. by destruct e.
Qed.

Lemma device_lookups_only (l : list effect) :
  Forall is_device_lookup l →
  filter (λ e, is_reading_event e) l = [] ∧
  filter (λ e, is_reading_insert e) l = [].
Proof.
  induction 1 as [|e l He _ [IH1 IH2]]; [done |].
  rewrite !filter_cons, IH1, IH2. by destruct e.
Qed.

(** What a request answers, and what that answer stands for. *)
Lemma ingest_answer (data : request_data) (w : world) :
  (∃ errors,
     (receive_sensor_data data w).1 = Return (HTTP_400_BAD_REQUEST errors) ∧
     sensor_data (receive_sensor_data data w).2 = sensor_data w) ∨
  (∃ validated device,
     (receive_sensor_data data w).1
     = Return (HTTP_201_CREATED (sensor_data_seq w) (clock w)
                 (Device.name device)) ∧
     sensor_data (receive_sensor_data data w).2
     = sensor_data w ++ [new_reading w device validated]).
Proof.
  destruct (is_valid data w) as [[[errors | validated] | e] w0] eqn:Hvalid.
  - left.
    destruct (receive_sensor_data_rejected data w errors)
      as (w' & l & -> & _ & ? & _); [by rewrite Hvalid |].
    by exists errors.
  - right.
    destruct (is_valid_inr data w validated) as (_ & Hw0 & d & Hd & Hact);
      [by rewrite Hvalid |].
    rewrite Hvalid in Hw0. simpl in Hw0. subst w0.
    unfold receive_sensor_data, bind. rewrite Hvalid.
    set (k := v_api_key validated) in *.
    destruct (create_run validated d (logged w [Select_Device k]))
      as (s & w1 & Hload & ->); [done | done |].
    set (r := new_reading (logged w [Select_Device k]) d validated) in *.
    destruct (load_settings_frame (Device.owner d)
                (persisted (logged w [Select_Device k]) r
                   [Select_Device k;
                    Insert_SensorData (SensorData.id r);
                    group_send (user_sensors (Device.owner d))
                      (sensor_data_update r)]))
      as (s' & w1' & Hload' & _ & _ & Hsd & _).
    fold k in Hload. rewrite Hload in Hload'. simplify_eq.
    destruct (after_check_frame r s' w1') as (_ & Hsd2 & _).
    exists validated, d. split; [done |]. simpl. by rewrite Hsd2, Hsd.
  - exfalso. destruct data as [| datatype | data]; [done | done |].
    rewrite is_valid_run in Hvalid.
    by destruct (CharField_run_validation (Payload.api_key data)).
Qed.

(** C5: every request is either refused or ingested. A refused request is
    answered 400, stores no reading and sends nothing: its effects are key
    lookups. An ingested reading is answered 201 with the id and time of
    the row that was stored; within the request's effects that row's
    INSERT comes first, the one [sensor_data_update], for that very row,
    right after it, and every statement of the alert evaluation after
    both; before the INSERT there are key lookups only. So a reading is
    announced only once it is stored, and once for each reading stored. *)
Theorem receive_sensor_data_persists_before_publishing (data : request_data)
    (w : world) :
  let w' := (receive_sensor_data data w).2 in
  (∃ errors l,
     (receive_sensor_data data w).1 = Return (HTTP_400_BAD_REQUEST errors) ∧
     sensor_data w' = sensor_data w ∧
     log w' = log w ++ l ∧
     Forall is_device_lookup l ∧
     filter (λ e, is_reading_insert e) l = [] ∧
     filter (λ e, is_reading_event e) l = []) ∨
  (∃ reading pre post,
     (receive_sensor_data data w).1
     = Return (HTTP_201_CREATED (SensorData.id reading)
                 (SensorData.timestamp reading)
                 (Device.name (SensorData.device reading))) ∧
     sensor_data w' = sensor_data w ++ [reading] ∧
     log w' =
       log w ++ pre ++
       [Insert_SensorData (SensorData.id reading);
        group_send (user_sensors (Device.owner (SensorData.device reading)))
          (sensor_data_update reading)] ++ post ∧
     Forall is_device_lookup pre ∧
     Forall is_evaluation post ∧
     filter (λ e, is_reading_insert e)
       (pre ++
        [Insert_SensorData (SensorData.id reading);
         group_send (user_sensors (Device.owner (SensorData.device reading)))
           (sensor_data_update reading)] ++ post)
     = [Insert_SensorData (SensorData.id reading)] ∧
     filter (λ e, is_reading_event e)
       (pre ++
        [Insert_SensorData (SensorData.id reading);
         group_send (user_sensors (Device.owner (SensorData.device reading)))
           (sensor_data_update reading)] ++ post)
     = [group_send (user_sensors (Device.owner (SensorData.device reading)))
          (sensor_data_update reading)]).
Proof.
  intros w'.
  destruct (ingest_answer data w)
    as [(errors & Hanswer & Hkept) | (v & d & Hanswer & Hgrown)];
    destruct (ingest_log_shape data w)
      as [(l & Hlog & Hlook & Hsame)
         | (key & reading & post & Hlog & Hpost & Hstored)];
    fold w' in Hlog |- *.
  - left. exists errors, l.
    destruct (device_lookups_only l Hlook) as [Hev Hins].
    by repeat split.
  - exfalso. rewrite Hkept in Hstored.
    apply (f_equal length) in Hstored. rewrite length_app in Hstored.
    simpl in Hstored. lia.
  - exfalso. rewrite Hgrown in Hsame.
    apply (f_equal length) in Hsame. rewrite length_app in Hsame.
    simpl in Hsame. lia.
  - right. rewrite Hgrown in Hstored.
    apply app_inj_tail in Hstored as [_ <-].
    exists (new_reading w d v), [Select_Device key; Select_Device key],
      post.
    destruct (evaluation_only post Hpost) as [Hev Hins].
    split; [exact Hanswer |]. split; [exact Hgrown |].
    split; [exact Hlog |]. split; [by repeat constructor |].
    split; [exact Hpost |].
    simpl. rewrite !filter_cons. simpl. by rewrite Hev, Hins.
Qed.

(* ===================================================================== *)
(** * Alerts and the channel layer *)
(* ===================================================================== *)

(** What the [post_save] receiver of [Alert] does when it runs for a newly
    created, saved alert: one message to the owner's alert group, one to
    the owner's sensor group. *)
Lemma alert_created_sends_to_both_groups (instance : Alert.t) (t : Z)
    (w : world) :
  Alert.created_at instance = Some t →
  alert_created instance true w =
    (Return tt,
     logged w
       [group_send (user_alerts (Device.owner (Alert.device instance)))
          (alert_notification instance (Some t));
        group_send (user_sensors (Device.owner (Alert.device instance)))
          (alert_notification instance None)]).
Proof.
  intros Ht. unfold alert_created, bind, record, ret, logged. rewrite Ht.
  simpl. by rewrite <- app_assoc.
Qed.

(** No ingest hands an alert to the channel layer: the receiver above is
    never reached from [receive_sensor_data]. *)
Lemma receive_sensor_data_sends_no_alert (data : request_data) (w : world) :
  ∃ l, log (receive_sensor_data data w).2 = log w ++ l ∧
       Forall (λ e, is_alert_event e = false) l.
Proof.
  destruct (ingest_log_shape data w)
    as [(l & Hl & Hlook & _) | (key & r & post & Hl & Hpost & _)].
  - exists l. split; [done |].
    eapply Forall_impl; [exact Hlook |]. by intros [].
  - eexists. split; [exact Hl |].
    apply Forall_app_2.
    + by repeat constructor.
    + eapply Forall_impl; [exact Hpost |]. by intros [].
Qed.

(** C6, as the code runs: a reading of 36.0 degrees against the default
    threshold of 35.0 stores one [temperature_high] alert through
    [bulk_create], and the request sends the reading to the sensor group
    and nothing else: no [alert_notification] reaches either group. *)
Theorem hot_reading_alert_is_not_published :
  let w' :=
    (receive_sensor_data
       (JSON_object (sample_payload "key-greenhouse" 36.0 50 100))
       sample_world).2 in
  (∃ alert,
     alerts w' = [alert] ∧ Alert.id alert = Some 1%Z ∧
     Alert.alert_type alert = temperature_high ∧
     Alert.threshold_value alert = 35.0%float ∧
     Alert.current_value alert = 36.0%float) ∧
  filter (λ e, is_alert_event e) (log w') = [] ∧
  length (filter (λ e, is_reading_event e) (log w')) = 1.
Proof.
  vm_compute. split; [| done]. eexists. by repeat split.
Qed.

(* ===================================================================== *)
(** * Resolving an alert *)
(* ===================================================================== *)

Lemma get_queryset_run (request : Request) (w : world) :
  ∃ queryset, get_queryset request w = (Return queryset, w) ∧
              ∀ a, a ∈ queryset → a ∈ alerts w.
Proof.
  unfold get_queryset. eexists. split; [reflexivity |].
  intros a Ha.
  destruct (status_filter request) as [s|]; [case_bool_decide |];
    repeat (apply list_elem_of_filter in Ha as [_ Ha]); done.
Qed.

(** An alert [get_object] returns is a stored row with the requested pk. *)
Lemma get_object_inv (request : Request) (pk : Z) (alert : Alert.t)
    (w : world) :
  (get_object request pk w).1 = Return alert →
  get_object request pk w = (Return alert, logged w [Select_Alert pk]) ∧
  alert ∈ alerts w ∧ Alert.id alert = Some pk.
Proof.
  unfold get_object, bind, record.
  destruct (get_queryset_run request w) as (qs & -> & Hqs). simpl.
  destruct (filter (λ a, Alert.id a = Some pk) qs) as [|a [|b l]] eqn:Hf;
    simpl; intros [= ->].
  assert (alert ∈ filter (λ a, Alert.id a = Some pk) qs) as Hin
    by (rewrite Hf; apply list_elem_of_here).
  apply list_elem_of_filter in Hin as [Hid Hin]. auto.
Qed.

Lemma Alert_save_existing (alert : Alert.t) (pk : Z) (w : world) :
  Alert.id alert = Some pk →
  Some pk ∈ Alert.id <$> alerts w →
  Alert_save alert w =
    (Return alert,
     World (devices w) (sensor_data w)
           ((λ r, if bool_decide (Alert.id r = Some pk) then alert else r)
              <$> alerts w)
           (user_settings w) (sensor_data_seq w) (alert_seq w) (clock w)
           (log w ++ [Update_Alert pk])).
Proof.
  intros Hid Hin. unfold Alert_save, bind. rewrite Hid.
  by rewrite bool_decide_eq_true_2.
Qed.

(** C10: resolving an alert stores it with status [resolved] and
    [resolved_at] set to the server clock's reading; its pk, device, type,
    threshold, observed value, message and creation time stay as they
    were, rows with another pk are not touched, and nothing is sent to the
    channel layer. *)
Theorem resolve_changes_status_and_time_only (request : Request) (pk : Z)
    (alert : Alert.t) (w : world) :
  (get_object request pk w).1 = Return alert →
  ∃ saved w',
    resolve request pk w = (Return (HTTP_200_OK saved), w') ∧
    Alert.status saved = resolved ∧
    Alert.resolved_at saved = Some (clock w) ∧
    Alert.id saved = Alert.id alert ∧
    Alert.device saved = Alert.device alert ∧
    Alert.alert_type saved = Alert.alert_type alert ∧
    Alert.threshold_value saved = Alert.threshold_value alert ∧
    Alert.current_value saved = Alert.current_value alert ∧
    Alert.message saved = Alert.message alert ∧
    Alert.created_at saved = Alert.created_at alert ∧
    alerts w' =
      (λ r, if bool_decide (Alert.id r = Some pk) then saved else r)
        <$> alerts w ∧
    saved ∈ alerts w' ∧
    (∀ r, r ∈ alerts w → Alert.id r ≠ Some pk → r ∈ alerts w') ∧
    log w' = log w ++ [Select_Alert pk; Update_Alert pk].
Proof.
  intros Hget.
  destruct (get_object_inv request pk alert w Hget) as (Hrun & Hin & Hid).
  exists (resolved_now alert (clock w)).
  unfold resolve, bind, timezone_now. rewrite Hrun.
  change (clock (logged w [Select_Alert pk])) with (clock w).
  fold (resolved_now alert (clock w)).
  rewrite (Alert_save_existing (resolved_now alert (clock w)) pk)
    by (try done; simpl; apply list_elem_of_fmap; by exists alert).
  eexists. split; [reflexivity |]. simpl.
  do 9 (split; [done |]). split; [done |].
  split; [| split].
  - apply list_elem_of_fmap. exists alert.
    by rewrite bool_decide_eq_true_2.
  - intros r Hr Hne. apply list_elem_of_fmap. exists r.
    by rewrite bool_decide_eq_false_2.
  - by rewrite <- app_assoc.
Qed.

Lemma resolve_changes_status_and_time_only_witness :
  ∃ saved w',
    resolve (mkRequest 7 None) 5 alert_world
    = (Return (HTTP_200_OK saved), w') ∧
    Alert.status saved = resolved ∧
    Alert.resolved_at saved = Some (clock alert_world) ∧
    Alert.id saved = Alert.id hot_alert ∧
    Alert.device saved = Alert.device hot_alert ∧
    Alert.alert_type saved = Alert.alert_type hot_alert ∧
    Alert.threshold_value saved = Alert.threshold_value hot_alert ∧
    Alert.current_value saved = Alert.current_value hot_alert ∧
    Alert.message saved = Alert.message hot_alert ∧
    Alert.created_at saved = Alert.created_at hot_alert ∧
    alerts w' =
      (λ r, if bool_decide (Alert.id r = Some 5%Z) then saved else r)
        <$> alerts alert_world ∧
    saved ∈ alerts w' ∧
    (∀ r, r ∈ alerts alert_world → Alert.id r ≠ Some 5%Z → r ∈ alerts w') ∧
    log w' = log alert_world ++ [Select_Alert 5; Update_Alert 5].
Proof.
  apply (resolve_changes_status_and_time_only (mkRequest 7 None) 5 hot_alert
           alert_world).
  vm_compute. reflexivity.
Defined.

(* ===================================================================== *)
(** * Two ingests racing for the first settings row *)
(* ===================================================================== *)

(** The two steps of one ingest, taken back to back, are
    [load_settings]. *)
Lemma alone_is_load_settings (owner : Z) (w : world) :
  alone (at_get owner) w =
    match load_settings owner w with
    | (Return settings, w') => (loaded settings, w')
    | (Raise e, w') => (failed e, w')
    end.
Proof.
  destruct (user_settings w !! owner) as [s|] eqn:Hs.
  - rewrite (load_settings_found _ _ _ Hs).
    unfold alone, step, UserSettings_objects_get, bind, record. simpl.
    by rewrite Hs.
  - rewrite (load_settings_missing _ _ Hs).
    unfold alone, step, UserSettings_objects_get, UserSettings_objects_create,
      timezone_now, bind, record. simpl. rewrite Hs. simpl. by rewrite Hs.
Qed.

(** A step taken while the row is missing: the lookup moves on to the
    insert, the insert stores the default row. *)
Lemma step_before_insert (owner : Z) (w0 w : world) (t : thread) :
  user_settings w0 !! owner = None →
  clock w = clock w0 →
  user_settings w = user_settings w0 →
  before_insert owner t →
  let d := UserSettings.new (clock w0) in
  clock (step t w).2 = clock w0 ∧
  ((user_settings (step t w).2 = user_settings w0 ∧
    settings_inserts owner (log (step t w).2)
    = settings_inserts owner (log w) ∧
    before_insert owner (step t w).1) ∨
   (user_settings (step t w).2 = <[owner := d]> (user_settings w0) ∧
    settings_inserts owner (log (step t w).2)
    = S (settings_inserts owner (log w)) ∧
    (step t w).1 = loaded d)).
Proof.
  intros Hnone Hclock Hus [-> | ->] d; subst d;
    unfold step, UserSettings_objects_get, UserSettings_objects_create,
      timezone_now, bind, record; simpl; rewrite Hus, Hnone; simpl.
  - split; [done |]. left. split; [done |]. split; [count_inserts |].
    by right.
  - split; [done |]. right. rewrite Hclock. split; [done |].
    split; [count_inserts | done].
Qed.

(** A step taken once the row is stored: a lookup finds it, an insert
    is refused by the unique constraint, a finished ingest stays put. *)
Lemma step_after_insert (owner : Z) (d : UserSettings.t) (w : world)
    (t : thread) :
  user_settings w !! owner = Some d →
  after_insert owner d t →
  clock (step t w).2 = clock w ∧
  user_settings (step t w).2 = user_settings w ∧
  settings_inserts owner (log (step t w).2)
  = settings_inserts owner (log w) ∧
  after_insert owner d (step t w).1 ∧
  (t = loaded d → (step t w).1 = loaded d).
Proof.
  intros Hsome [-> | [-> | [-> | ->]]];
    unfold step, UserSettings_objects_get, UserSettings_objects_create,
      timezone_now, bind, record, after_insert; simpl; rewrite ?Hsome; simpl;
    repeat split; try done; try count_inserts; auto.
Qed.

Lemma race_invariant_step (owner : Z) (w0 w : world) (t1 t2 : thread)
    (b : bool) :
  user_settings w0 !! owner = None →
  race_invariant owner w0 t1 t2 w →
  if b then race_invariant owner w0 t1 (step t2 w).1 (step t2 w).2
  else race_invariant owner w0 (step t1 w).1 t2 (step t1 w).2.
Proof.
  intros Hnone [Hclock [(Hus & Hn & H1 & H2) | (Hus & Hn & H1 & H2 & Hd)]].
  - destruct b.
    + destruct (step_before_insert owner w0 w t2 Hnone Hclock Hus H2)
        as [Hc [(? & ? & ?) | (? & ? & ?)]]; (split; [done |]).
      * left. repeat split; try done. congruence.
      * right. repeat split; try done; [congruence | | by right; right; left
                                        | by right].
        destruct H1 as [-> | ->]; [by left | by right; left].
    + destruct (step_before_insert owner w0 w t1 Hnone Hclock Hus H1)
        as [Hc [(? & ? & ?) | (? & ? & ?)]]; (split; [done |]).
      * left. repeat split; try done. congruence.
      * right. repeat split; try done; [congruence | by right; right; left
                                        | | by left].
        destruct H2 as [-> | ->]; [by left | by right; left].
  - assert (user_settings w !! owner = Some (UserSettings.new (clock w0)))
      as Hsome by (rewrite Hus; apply lookup_insert_eq).
    destruct b.
    + destruct (step_after_insert owner _ w t2 Hsome H2)
        as (Hc & Hu & Hi & Ha & Hl).
      split; [congruence |]. right. repeat split; try done; try congruence.
      destruct Hd as [? | ?]; [by left | right; auto].
    + destruct (step_after_insert owner _ w t1 Hsome H1)
        as (Hc & Hu & Hi & Ha & Hl).
      split; [congruence |]. right. repeat split; try done; try congruence.
      destruct Hd as [? | ?]; [left; auto | by right].
Qed.

Lemma race_invariant_interleave (owner : Z) (w0 : world)
    (schedule : list bool) (t1 t2 : thread) (w : world) :
  user_settings w0 !! owner = None →
  race_invariant owner w0 t1 t2 w →
  race_invariant owner w0 (interleave schedule t1 t2 w).1.1
    (interleave schedule t1 t2 w).1.2 (interleave schedule t1 t2 w).2.
Proof.
  intros Hnone. revert t1 t2 w.
  induction schedule as [|b schedule IH]; intros t1 t2 w Hinv; [done |].
  pose proof (race_invariant_step owner w0 w t1 t2 b Hnone Hinv) as Hstep.
  destruct b; simpl.
  - destruct (step t2 w) as [t2' w']. by apply IH.
  - destruct (step t1 w) as [t1' w']. by apply IH.
Qed.

(** C8, as the code behaves: however two ingests for an account without
    settings are interleaved, once both have finished exactly one default
    row has been inserted and is stored for the account, and at least one
    ingest holds it; each ingest either holds that row or was refused by
    the unique constraint. *)
Theorem racing_loads_insert_one_row (schedule : list bool) (owner : Z)
    (w w' : world) (t1 t2 : thread) :
  user_settings w !! owner = None →
  interleave schedule (at_get owner) (at_get owner) w = (t1, t2, w') →
  finished t1 = true →
  finished t2 = true →
  let d := UserSettings.new (clock w) in
  user_settings w' = <[owner := d]> (user_settings w) ∧
  settings_inserts owner (log w') = S (settings_inserts owner (log w)) ∧
  (t1 = loaded d ∨ t1 = failed IntegrityError) ∧
  (t2 = loaded d ∨ t2 = failed IntegrityError) ∧
  (t1 = loaded d ∨ t2 = loaded d).
Proof.
  intros Hnone Hrun Hf1 Hf2 d.
  assert (race_invariant owner w (at_get owner) (at_get owner) w) as Hinit.
  { split; [done |]. left. repeat split; by left. }
  pose proof (race_invariant_interleave owner w schedule _ _ w Hnone Hinit)
    as [_ Hinv].
  rewrite Hrun in Hinv. simpl in Hinv.
  destruct Hinv as [(_ & _ & [-> | ->] & _) | (Hus & Hn & H1 & H2 & Hd)];
    [done | done |].
  split; [done |]. split; [done |].
  split; [| split; [| done]].
  - destruct H1 as [-> | [-> | [-> | ->]]]; [done | done | by left | by right].
  - destruct H2 as [-> | [-> | [-> | ->]]]; [done | done | by left | by right].
Qed.

Lemma racing_loads_insert_one_row_witness :
  ∃ w',
    interleave [false; false; true; true] (at_get 7) (at_get 7) sample_world
    = (loaded (UserSettings.new 1000), loaded (UserSettings.new 1000), w') ∧
    user_settings w'
    = <[7%Z := UserSettings.new 1000]> (user_settings sample_world) ∧
    settings_inserts 7 (log w')
    = S (settings_inserts 7 (log sample_world)) ∧
    (loaded (UserSettings.new 1000) = loaded (UserSettings.new 1000) ∨
     loaded (UserSettings.new 1000) = failed IntegrityError) ∧
    (loaded (UserSettings.new 1000) = loaded (UserSettings.new 1000) ∨
     loaded (UserSettings.new 1000) = failed IntegrityError) ∧
    (loaded (UserSettings.new 1000) = loaded (UserSettings.new 1000) ∨
     loaded (UserSettings.new 1000) = loaded (UserSettings.new 1000)).
Proof.
  eexists. split; [vm_compute; reflexivity |].
  apply (racing_loads_insert_one_row [false; false; true; true] 7
           sample_world _ (loaded (UserSettings.new 1000))
           (loaded (UserSettings.new 1000)));
    [reflexivity | vm_compute; reflexivity | reflexivity | reflexivity].
Defined.

(** When both ingests look the row up before either inserts it, the
    second insert is refused and that ingest ends in [IntegrityError]. *)
Example both_lookups_first :
  ∃ w',
    interleave [false; true; false; true] (at_get 7) (at_get 7) sample_world
    = (loaded (UserSettings.new 1000), failed IntegrityError, w') ∧
    settings_inserts 7 (log w') = 1.
Proof. eexists. split; vm_compute; reflexivity. Qed.

(** The claim of C8 fails on the code: it is not so that in every
    interleaving of two ingests of user 7 on the sample database both end
    up holding the settings. *)
Lemma racing_ingest_is_refused :
  ¬ ∀ schedule t1 t2 w',
      interleave schedule (at_get 7) (at_get 7) sample_world = (t1, t2, w') →
      finished t1 = true → finished t2 = true →
      (∃ s, t1 = loaded s) ∧ (∃ s, t2 = loaded s).
Proof.
  intros Hclaim.
  destruct (Hclaim [false; true; false; true]
              (loaded (UserSettings.new 1000)) (failed IntegrityError)
              (interleave [false; true; false; true] (at_get 7) (at_get 7)
                 sample_world).2)
    as [_ [s Hs]]; [by vm_compute | done | done | discriminate].
Qed.

(* ===================================================================== *)
(** * What one ingest does to the database *)
(* ===================================================================== *)

Lemma assign_pks_length (pk now : Z) (objs : list Alert.t) :
  length (assign_pks pk now objs) = length objs.
Proof.
  revert pk. induction objs as [|a objs IH]; intros pk; [done |].
  simpl. by rewrite IH.
Qed.

Lemma assign_pks_lookup (pk now : Z) (objs : list Alert.t) (i : nat)
    (a : Alert.t) :
  objs !! i = Some a →
  assign_pks pk now objs !! i =
    Some (Alert.mk (Some (pk + Z.of_nat i)%Z) (Alert.device a)
            (Alert.alert_type a) (Alert.threshold_value a)
            (Alert.current_value a) (Alert.status a) (Alert.message a)
            (Some now) (Alert.resolved_at a)).
Proof.
  revert pk i. induction objs as [|b objs IH]; intros pk [|i] Hi; try done.
  - injection Hi as ->. simpl. by rewrite Z.add_0_r.
  - simpl in *. rewrite (IH (pk + 1)%Z i Hi). do 3 f_equal. lia.
Qed.

Lemma assign_pks_ids (pk now : Z) (objs : list Alert.t) :
  Alert.id <$> assign_pks pk now objs = Some <$> seqZ pk (Z.of_nat (length objs)).
Proof.
  revert pk. induction objs as [|a objs IH]; intros pk; [done |].
  rewrite length_cons, Nat2Z.inj_succ, seqZ_cons by lia. simpl.
  rewrite IH. do 3 f_equal. lia.
Qed.

(** The whole effect of [create] on the tables. *)
Lemma create_outcome (data : validated_data) (device : Device.t) (w : world) :
  devices w !! v_api_key data = Some device →
  Device.is_active device = true →
  let reading := new_reading w device data in
  let settings := settings_in_force w (Device.owner device) in
  let rows :=
    assign_pks (alert_seq w) (clock w) (alerts_to_create reading settings) in
  ∃ w',
    create data w = (Return reading, w') ∧
    devices w' = devices w ∧
    sensor_data w' = sensor_data w ++ [reading] ∧
    alerts w' = alerts w ++ rows ∧
    user_settings w' = <[Device.owner device := settings]> (user_settings w) ∧
    sensor_data_seq w' = (sensor_data_seq w + 1)%Z ∧
    alert_seq w' = (alert_seq w + Z.of_nat (length rows))%Z ∧
    clock w' = clock w.
Proof.
  intros Hdev Hactive reading settings rows.
  destruct (create_run data device w Hdev Hactive) as (s & w1 & Hload & Hrun).
  fold reading in Hload, Hrun. rewrite Hrun. eexists. split; [done |].
  subst rows settings. unfold settings_in_force.
  destruct (user_settings w !! Device.owner device) as [s0|] eqn:Hs.
  - rewrite (load_settings_found _ _ s0) in Hload by done.
    injection Hload as <- <-. simpl. rewrite insert_id by done.
    unfold after_check.
    destruct (alerts_to_create reading s0) as [|a l] eqn:Hal; simpl.
    + rewrite app_nil_r. repeat split; try done. lia.
    + rewrite assign_pks_length. repeat split; try done.
  - rewrite load_settings_missing in Hload by done.
    injection Hload as <- <-. simpl.
    unfold after_check.
    destruct (alerts_to_create reading (UserSettings.new (clock w)))
      as [|a l] eqn:Hal; simpl.
    + rewrite app_nil_r. repeat split; try done. lia.
    + rewrite assign_pks_length. repeat split; try done.
Qed.

Lemma is_valid_world (data : request_data) (w : world) :
  (is_valid data w).2 = w ∨
  ∃ k, (is_valid data w).2 = logged w [Select_Device k].
Proof.
  destruct data as [| datatype | data]; [by left | by left |].
  rewrite is_valid_run.
  destruct (CharField_run_validation (Payload.api_key data)) as [errs | k];
    [by left | right; by exists k].
Qed.

(** Every request is either turned away, leaving the tables as they were,
    or it passed validation for an active device and ran [create]. *)
Lemma ingest_outcome (data : request_data) (w : world) :
  (∃ errors w',
     receive_sensor_data data w = (Return (HTTP_400_BAD_REQUEST errors), w') ∧
     (is_valid data w).1 = Return (inl errors) ∧
     devices w' = devices w ∧ sensor_data w' = sensor_data w ∧
     alerts w' = alerts w ∧ user_settings w' = user_settings w ∧
     sensor_data_seq w' = sensor_data_seq w ∧ alert_seq w' = alert_seq w ∧
     clock w' = clock w) ∨
  (∃ validated device w',
     (is_valid data w).1 = Return (inr validated) ∧
     devices w !! v_api_key validated = Some device ∧
     Device.is_active device = true ∧
     let reading := new_reading w device validated in
     let settings := settings_in_force w (Device.owner device) in
     let rows :=
       assign_pks (alert_seq w) (clock w)
         (alerts_to_create reading settings) in
     receive_sensor_data data w =
       (Return (HTTP_201_CREATED (SensorData.id reading)
                  (SensorData.timestamp reading) (Device.name device)), w') ∧
     devices w' = devices w ∧
     sensor_data w' = sensor_data w ++ [reading] ∧
     alerts w' = alerts w ++ rows ∧
     user_settings w' = <[Device.owner device := settings]> (user_settings w) ∧
     sensor_data_seq w' = (sensor_data_seq w + 1)%Z ∧
     alert_seq w' = (alert_seq w + Z.of_nat (length rows))%Z ∧
     clock w' = clock w).
Proof.
  destruct (is_valid data w) as [[[errors | validated] | e] w0] eqn:Hvalid.
  - left. exists errors, w0.
    unfold receive_sensor_data, bind. rewrite Hvalid.
    split; [done |]. split; [done |].
    destruct (is_valid_world data w) as [Hw0 | [k Hw0]];
      rewrite Hvalid in Hw0; simpl in Hw0; by subst w0.
  - right.
    destruct (is_valid_inr data w validated) as (_ & Hw0 & d & Hd & Hact);
      [by rewrite Hvalid |].
    rewrite Hvalid in Hw0. simpl in Hw0. subst w0.
    destruct (create_outcome validated d
                (logged w [Select_Device (v_api_key validated)]) Hd Hact)
      as (w' & Hcreate & ?).
    exists validated, d, w'. do 3 (split; [done |]).
    unfold receive_sensor_data, bind. rewrite Hvalid, Hcreate.
    by split.
  - exfalso. destruct data as [| datatype | data]; [done | done |].
    rewrite is_valid_run in Hvalid.
    by destruct (CharField_run_validation (Payload.api_key data)).
Qed.

(* ===================================================================== *)
(** * What a 400 answer holds *)
(* ===================================================================== *)








(** A payload that lacks [temperature], [humidity], [air_quality] or
    [api_key] is answered 400 with [required] under that name; one that
    holds [null] under one of them or under [raw_data] is answered 400
    with [may_not_be_null] there. Nothing is written, and when it is the
    key that is absent or [null], no query is made at all. *)
Theorem missing_field_is_required (data : Payload.t) (field_name : string)
    (detail : ErrorDetail) (w : world) :
  (detail = required ∧ missing data field_name) ∨
  (detail = may_not_be_null ∧ sent_null data field_name) →
  ∃ errors w',
    receive_sensor_data (JSON_object data) w
    = (Return (HTTP_400_BAD_REQUEST errors), w') ∧
    (field_name, [detail]) ∈ errors ∧
    devices w' = devices w ∧ sensor_data w' = sensor_data w ∧
    alerts w' = alerts w ∧ user_settings w' = user_settings w ∧
    (field_name = "api_key"%string → w' = w).
Proof.
  intros Hlack.
  assert (∀ api_key,
            (field_name = "api_key"%string → api_key = inl [detail]) →
            ∃ errors,
              to_internal_value data api_key = inl errors ∧
              (field_name, [detail]) ∈ errors) as Hfields.
  { intros api_key Hkey.
    destruct (to_internal_value_cases data api_key)
      as [(v & _ & [t Ht] & [h Hh] & [q Hq] & _ & _ & [raw Hraw] & Hk) | ->].
    - exfalso.
      destruct Hlack as [[_ Hm] | [_ Hn]].
      + destruct Hm as [(-> & Hm) | [(-> & Hm) | [(-> & Hm) | (-> & Hm)]]];
          rewrite ?Hm in *; try done.
        by rewrite Hkey in Hk.
      + destruct Hn as [(-> & Hn) | [(-> & Hn) | [(-> & Hn) | [(-> & Hn)
                        | (-> & Hn)]]]];
          rewrite ?Hn in *; try done.
        by rewrite Hkey in Hk.
    - eexists. split; [done |]. rewrite !elem_of_app.
      destruct Hlack as [[-> Hm] | [-> Hn]].
      + destruct Hm as [(-> & Hm) | [(-> & Hm) | [(-> & Hm) | (-> & Hm)]]];
          rewrite ?Hm, ?Hkey by done; simpl;
          [left | right; left | do 2 right; left | do 6 right];
          apply list_elem_of_here.
      + destruct Hn as [(-> & Hn) | [(-> & Hn) | [(-> & Hn) | [(-> & Hn)
                        | (-> & Hn)]]]];
          rewrite ?Hn, ?Hkey by done; simpl;
          [left | right; left | do 2 right; left | do 5 right; left
          | do 6 right];
          apply list_elem_of_here. }
  assert (field_name = "api_key"%string →
          CharField_run_validation (Payload.api_key data) = inl [detail])
    as Hkey.
  { intros ->.
    destruct Hlack as [[-> Hm] | [-> Hn]].
    - destruct Hm as [([=] & _) | [([=] & _) | [([=] & _) | (_ & ->)]]].
      done.
    - destruct Hn as [([=] & _) | [([=] & _) | [([=] & _) | [([=] & _)
                      | (_ & ->)]]]].
      done. }
  assert (∃ errors, (is_valid (JSON_object data) w).1 = Return (inl errors) ∧
                    (field_name, [detail]) ∈ errors) as (errors & Hvalid & Hin).
  { rewrite is_valid_run.
    destruct (CharField_run_validation (Payload.api_key data)) as [errs | k]
      eqn:Hfield; simpl.
    - destruct (Hfields (inl errs)) as (errors & -> & ?).
      { intros Hname. by rewrite <- (Hkey Hname). }
      by exists errors.
    - match goal with
      | |- context [to_internal_value data ?a] =>
          destruct (Hfields a) as (errors & -> & ?)
      end.
      { intros Hname. by specialize (Hkey Hname). }
      by exists errors. }
  destruct (receive_sensor_data_rejected (JSON_object data) w errors Hvalid)
    as (w' & l & Hrun & ? & ? & ? & ? & _).
  exists errors, w'. repeat split; try done.
  intros Hname. specialize (Hkey Hname).
  unfold receive_sensor_data, bind in Hrun.
  rewrite is_valid_run, Hkey in Hrun.
  rewrite is_valid_run, Hkey in Hvalid. simpl in Hvalid.
  injection Hvalid as Hv. rewrite Hv in Hrun. by injection Hrun.
Qed.

Lemma missing_field_is_required_witness :
  ∃ errors w',
    receive_sensor_data
      (JSON_object
         (Payload.mk JSON_null (JSON_value 50%float) (JSON_value 100%float)
            empty empty empty (JSON_value "key-greenhouse"%string) empty))
      sample_world
    = (Return (HTTP_400_BAD_REQUEST errors), w') ∧
    ("temperature"%string, [may_not_be_null]) ∈ errors ∧
    devices w' = devices sample_world ∧
    sensor_data w' = sensor_data sample_world ∧
    alerts w' = alerts sample_world ∧
    user_settings w' = user_settings sample_world ∧
    ("temperature"%string = "api_key"%string → w' = sample_world).
Proof.
  apply (missing_field_is_required
           (Payload.mk JSON_null (JSON_value 50%float) (JSON_value 100%float)
              empty empty empty (JSON_value "key-greenhouse"%string) empty)
           "temperature" may_not_be_null sample_world).
  right. split; [reflexivity |]. left. split; reflexivity.
Defined.

(* ===================================================================== *)
(** * Values that are not numbers *)
(* ===================================================================== *)

Lemma Prim2SF_nan (x : float) : is_nan x = true → Prim2SF x = S754_nan.
Proof.
  unfold is_nan. rewrite FloatAxioms.eqb_spec. unfold SFeqb.
  destruct (Prim2SF x) as [[]|[]| |[] m e]; simpl; try done;
    rewrite Z.compare_refl;
    change (Pos.compare_cont Eq m m) with (Pos.compare m m);
    by rewrite Pos.compare_refl.
Qed.

(** A NaN is neither below nor above anything. *)
Lemma ltb_nan (x y : float) :
  is_nan x = true → (x <? y)%float = false ∧ (y <? x)%float = false.
Proof.
  intros Hnan%Prim2SF_nan. rewrite !ltb_spec, Hnan. unfold SFltb.
  split; [done |]. by destruct (Prim2SF y).
Qed.

(** A NaN passes every range validator, whatever the limits of the
    column: both [a < min] and [a > max] are false for it. *)
Theorem nan_passes_validation (f : FloatField) (x : float) :
  is_nan x = true → run_validation f (JSON_value x) = inr (Some x).
Proof.
  intros Hnan. unfold run_validation, run_validators.
  assert (omap (λ v, if compare v x then
                       Some match v with
                            | MinValueValidator b => min_value b
                            | MaxValueValidator b => max_value b
                            end
                     else None) (validators f) = []) as ->; [| done].
  induction (validators f) as [|v vs IH]; [done |].
  destruct v as [b | b]; simpl;
    destruct (ltb_nan x b Hnan) as [Hlt Hgt]; rewrite ?Hlt, ?Hgt; exact IH.
Qed.

Lemma nan_passes_validation_witness :
  run_validation SensorData.temperature_field (JSON_value nan)
  = inr (Some nan).
Proof.
  apply (nan_passes_validation SensorData.temperature_field nan).
  reflexivity.
Defined.

(** A reading whose temperature, humidity and air quality are NaN raises
    no alert under any settings. *)
Theorem nan_reading_raises_no_alert (reading : SensorData.t)
    (settings : UserSettings.t) :
  is_nan (SensorData.temperature reading) = true →
  is_nan (SensorData.humidity reading) = true →
  is_nan (SensorData.air_quality reading) = true →
  alerts_to_create reading settings = [].
Proof.
  intros Ht Hh Hq. unfold alerts_to_create. cbv zeta.
  destruct (ltb_nan _ (UserSettings.temp_high_threshold settings) Ht)
    as [_ ->].
  destruct (ltb_nan _ (UserSettings.temp_low_threshold settings) Ht)
    as [-> _].
  destruct (ltb_nan _ (UserSettings.humidity_high_threshold settings) Hh)
    as [_ ->].
  destruct (ltb_nan _ (UserSettings.humidity_low_threshold settings) Hh)
    as [-> _].
  by destruct (ltb_nan _ (UserSettings.air_quality_threshold settings) Hq)
    as [_ ->].
Qed.

Lemma nan_reading_raises_no_alert_witness :
  alerts_to_create (sample_reading nan nan nan) (UserSettings.new 1000) = [].
Proof.
  apply (nan_reading_raises_no_alert (sample_reading nan nan nan)
           (UserSettings.new 1000)); reflexivity.
Defined.

(* ===================================================================== *)
(** * Rows an ingest adds, rows it leaves alone *)
(* ===================================================================== *)

(** The instances [_check_alerts] builds: unsaved, active, unresolved, for
    the reading's device, never of type [uv_high], three at most. *)
Lemma alerts_to_create_fresh (reading : SensorData.t)
    (settings : UserSettings.t) :
  Forall (λ a, Alert.id a = None ∧ Alert.created_at a = None ∧
               Alert.status a = active ∧ Alert.resolved_at a = None ∧
               Alert.device a = SensorData.device reading ∧
               Alert.alert_type a ≠ uv_high)
    (alerts_to_create reading settings) ∧
  length (alerts_to_create reading settings) ≤ 3.
Proof.
  unfold alerts_to_create. cbv zeta.
  destruct (UserSettings.temp_high_threshold settings
              <? SensorData.temperature reading)%float;
  destruct (SensorData.temperature reading
              <? UserSettings.temp_low_threshold settings)%float;
  destruct (UserSettings.humidity_high_threshold settings
              <? SensorData.humidity reading)%float;
  destruct (SensorData.humidity reading
              <? UserSettings.humidity_low_threshold settings)%float;
  destruct (UserSettings.air_quality_threshold settings
              <? SensorData.air_quality reading)%float;
  simpl; (split; [| lia]);
  repeat match goal with |- Forall _ _ => constructor end;
  by repeat split.
Qed.

Lemma assign_pks_Forall (pk now : Z) (objs : list Alert.t)
    (P Q : Alert.t → Prop) :
  (∀ a k, P a →
     Q (Alert.mk (Some k) (Alert.device a) (Alert.alert_type a)
          (Alert.threshold_value a) (Alert.current_value a) (Alert.status a)
          (Alert.message a) (Some now) (Alert.resolved_at a))) →
  Forall P objs → Forall Q (assign_pks pk now objs).
Proof.
  intros HPQ Hobjs. revert pk.
  induction Hobjs as [|a objs Ha _ IH]; intros pk; simpl; [done |].
  constructor; [by apply HPQ | apply IH].
Qed.

(** Whatever the request, an ingest changes no device, rewrites no stored
    reading or alert and no settings row: readings and alerts only grow at
    the end, by at most one reading and three alerts, and settings rows
    are only added. *)
Theorem ingest_only_appends (data : request_data) (w : world) :
  let w' := (receive_sensor_data data w).2 in
  devices w' = devices w ∧
  sensor_data w `prefix_of` sensor_data w' ∧
  alerts w `prefix_of` alerts w' ∧
  user_settings w ⊆ user_settings w' ∧
  length (sensor_data w') ≤ length (sensor_data w) + 1 ∧
  length (alerts w') ≤ length (alerts w) + 3.
Proof.
  intros w'. subst w'.
  destruct (ingest_outcome data w)
    as [(errors & w' & -> & _ & Hd & Hs & Ha & Hu & _)
       | (v & d & w' & _ & _ & _ & -> & Hd & Hs & Ha & Hu & _)]; simpl;
    rewrite Hd, Hs, Ha, Hu.
  - repeat split; try done; lia.
  - split; [done |]. split; [by apply prefix_app_r |].
    split; [by apply prefix_app_r |]. split.
    + unfold settings_in_force.
      destruct (user_settings w !! Device.owner d) as [s|] eqn:Hrow; simpl.
      * by rewrite insert_id.
      * by apply insert_subseteq.
    + rewrite !length_app, assign_pks_length. simpl.
      pose proof (alerts_to_create_fresh
                    (new_reading w d v)
                    (settings_in_force w (Device.owner d))) as [_ Hlen].
      lia.
Qed.

(** The alerts an accepted ingest stores are the evaluation of the stored
    reading under the owner's settings in force (the owner's row, else the
    defaults), in the evaluator's order; they get the next pks of the
    sequence, the server clock as [created_at] and status [active]. *)
Theorem accepted_ingest_stores_evaluation (data : request_data)
    (w w' : world)
    (data_id timestamp : Z) (name : string) :
  receive_sensor_data data w
  = (Return (HTTP_201_CREATED data_id timestamp name), w') →
  ∃ reading rows,
    sensor_data w' = sensor_data w ++ [reading] ∧
    SensorData.id reading = data_id ∧
    alerts w' = alerts w ++ rows ∧
    rows = assign_pks (alert_seq w) (clock w)
             (alerts_to_create reading
                (settings_in_force w
                   (Device.owner (SensorData.device reading)))) ∧
    Alert.id <$> rows = Some <$> seqZ (alert_seq w) (Z.of_nat (length rows)) ∧
    Forall (λ a, Alert.status a = active ∧
                 Alert.created_at a = Some (clock w) ∧
                 Alert.resolved_at a = None ∧
                 Alert.device a = SensorData.device reading) rows.
Proof.
  intros Hrun.
  destruct (ingest_outcome data w)
    as [(errors & w0 & Hrun0 & _)
       | (v & d & w0 & _ & _ & _ & Hrun0 & _ & Hsd & Hal & _)];
    rewrite Hrun in Hrun0; [done |].
  injection Hrun0 as -> -> -> <-.
  eexists _, _. split; [exact Hsd |]. split; [done |].
  split; [exact Hal |]. split; [done |].
  split; [by rewrite assign_pks_ids, assign_pks_length |].
  eapply assign_pks_Forall;
    [| apply (alerts_to_create_fresh (new_reading w d v))].
  intros a k (_ & _ & ? & ? & ? & _). by repeat split.
Qed.

Lemma accepted_ingest_stores_evaluation_witness :
  ∃ reading rows,
    sensor_data
      (receive_sensor_data
         (JSON_object (sample_payload "key-greenhouse" 36.0 85.0 600))
         sample_world).2
    = sensor_data sample_world ++ [reading] ∧
    SensorData.id reading = 1%Z ∧
    alerts
      (receive_sensor_data
         (JSON_object (sample_payload "key-greenhouse" 36.0 85.0 600))
         sample_world).2
    = alerts sample_world ++ rows ∧
    rows = assign_pks (alert_seq sample_world) (clock sample_world)
             (alerts_to_create reading
                (settings_in_force sample_world
                   (Device.owner (SensorData.device reading)))) ∧
    Alert.id <$> rows
    = Some <$> seqZ (alert_seq sample_world) (Z.of_nat (length rows)) ∧
    Forall (λ a, Alert.status a = active ∧
                 Alert.created_at a = Some (clock sample_world) ∧
                 Alert.resolved_at a = None ∧
                 Alert.device a = SensorData.device reading) rows.
Proof.
  apply (accepted_ingest_stores_evaluation
           (JSON_object (sample_payload "key-greenhouse" 36.0 85.0 600))
           sample_world _
           1 1000 "greenhouse").
  vm_compute. reflexivity.
Defined.

(** No ingest stores an alert of type [uv_high]: one found afterwards was
    there before. *)
Theorem ingest_stores_no_uv_high (data : request_data) (w : world)
    (a : Alert.t) :
  a ∈ alerts (receive_sensor_data data w).2 →
  Alert.alert_type a = uv_high →
  a ∈ alerts w.
Proof.
  intros Hin Huv.
  destruct (ingest_outcome data w)
    as [(errors & w' & Hrun & _ & _ & _ & Hal & _)
       | (v & d & w' & _ & _ & _ & Hrun & _ & _ & Hal & _)];
    rewrite Hrun in Hin; simpl in Hin; rewrite Hal in Hin; [done |].
  apply elem_of_app in Hin as [Hin | Hin]; [done |].
  assert (Forall (λ a, Alert.alert_type a ≠ uv_high)
            (assign_pks (alert_seq w) (clock w)
               (alerts_to_create (new_reading w d v)
                  (settings_in_force w (Device.owner d))))) as Hnone.
  { eapply assign_pks_Forall;
      [| apply (alerts_to_create_fresh (new_reading w d v))].
    by intros b k (_ & _ & _ & _ & _ & ?). }
  rewrite Forall_forall in Hnone. by destruct (Hnone a Hin).
Qed.

Lemma ingest_stores_no_uv_high_witness :
  Alert.mk (Some 9%Z) greenhouse uv_high 8 9 active [] (Some 900%Z) None
  ∈ alerts
      (World (devices sample_world) []
         [Alert.mk (Some 9%Z) greenhouse uv_high 8 9 active []
            (Some 900%Z) None] ∅ 1 10 1000 []).
Proof.
  apply (ingest_stores_no_uv_high
           (JSON_object (sample_payload "key-greenhouse" 36.0 85.0 600))
           (World (devices sample_world) []
              [Alert.mk (Some 9%Z) greenhouse uv_high 8 9 active []
                 (Some 900%Z) None] ∅ 1 10 1000 [])).
  - vm_compute. apply list_elem_of_here.
  - reflexivity.
Defined.

(** Once a request was answered 201, the owner of the device of the
    stored reading has a settings row, the one that request worked with,
    and a later request changes the settings table only when it stores a
    reading for a device of another owner. *)
Theorem later_requests_keep_settings (data1 data2 : request_data)
    (w w1 : world) (data_id timestamp : Z) (name : string) :
  receive_sensor_data data1 w
  = (Return (HTTP_201_CREATED data_id timestamp name), w1) →
  ∃ reading,
    sensor_data w1 = sensor_data w ++ [reading] ∧
    SensorData.id reading = data_id ∧
    let owner := Device.owner (SensorData.device reading) in
    let w2 := (receive_sensor_data data2 w1).2 in
    user_settings w1 !! owner = Some (settings_in_force w owner) ∧
    ((∀ reading2,
        sensor_data w2 = sensor_data w1 ++ [reading2] →
        Device.owner (SensorData.device reading2) = owner) →
     user_settings w2 = user_settings w1).
Proof.
  intros Hrun.
  destruct (ingest_outcome data1 w)
    as [(errors & w0 & Hrun0 & _)
       | (v & d & w0 & _ & _ & _ & Hrun0 & _ & Hsd & _ & Hus & _)];
    rewrite Hrun in Hrun0; [done |].
  injection Hrun0 as -> -> -> <-.
  exists (new_reading w d v). split; [exact Hsd |]. split; [done |].
  cbv zeta. change (SensorData.device (new_reading w d v)) with d.
  assert (user_settings w1 !! Device.owner d
          = Some (settings_in_force w (Device.owner d))) as Hrow
    by (rewrite Hus; apply lookup_insert_eq).
  split; [done |]. intros Hsame.
  destruct (ingest_outcome data2 w1)
    as [(errors & w2 & Hrun2 & _ & _ & _ & _ & Hus2 & _)
       | (v2 & d2 & w2 & _ & _ & _ & Hrun2 & _ & Hsd2 & _ & Hus2 & _)];
    rewrite Hrun2 in Hsame |- *; simpl in Hsame |- *; rewrite Hus2;
    [done |].
  specialize (Hsame _ Hsd2). simpl in Hsame.
  apply insert_id. unfold settings_in_force.
  by rewrite Hsame, Hrow.
Qed.

Lemma later_requests_keep_settings_witness :
  ∃ reading,
    sensor_data
      (receive_sensor_data
         (JSON_object (sample_payload "key-greenhouse" 20 50 100))
         sample_world).2
    = sensor_data sample_world ++ [reading] ∧
    SensorData.id reading = 1%Z ∧
    let owner := Device.owner (SensorData.device reading) in
    let w2 :=
      (receive_sensor_data
         (JSON_object (sample_payload "key-cellar" 36.0 50 100))
         (receive_sensor_data
            (JSON_object (sample_payload "key-greenhouse" 20 50 100))
            sample_world).2).2 in
    user_settings
      (receive_sensor_data
         (JSON_object (sample_payload "key-greenhouse" 20 50 100))
         sample_world).2 !! owner
    = Some (settings_in_force sample_world owner) ∧
    ((∀ reading2,
        sensor_data w2
        = sensor_data
            (receive_sensor_data
               (JSON_object (sample_payload "key-greenhouse" 20 50 100))
               sample_world).2 ++ [reading2] →
        Device.owner (SensorData.device reading2) = owner) →
     user_settings w2
     = user_settings
         (receive_sensor_data
            (JSON_object (sample_payload "key-greenhouse" 20 50 100))
            sample_world).2).
Proof.
  apply (later_requests_keep_settings
           (JSON_object (sample_payload "key-greenhouse" 20 50 100))
           (JSON_object (sample_payload "key-cellar" 36.0 50 100))
           sample_world _ 1 1000 "greenhouse").
  vm_compute. reflexivity.
Defined.

(* ===================================================================== *)
(** * More on resolving alerts *)
(* ===================================================================== *)

Lemma get_object_run (request : Request) (pk : Z) (w : world) :
  ∃ queryset,
    get_queryset request w = (Return queryset, w) ∧
    get_object request pk w =
      (match filter (λ a, Alert.id a = Some pk) queryset with
       | [] => Raise Http404
       | [alert] => Return alert
       | _ => Raise MultipleObjectsReturned
       end, logged w [Select_Alert pk]).
Proof.
  destruct (get_queryset_run request w) as (qs & Hqs & _).
  exists qs. split; [done |].
  unfold get_object, bind, record. rewrite Hqs. simpl.
  by destruct (filter (λ a, Alert.id a = Some pk) qs) as [|a [|b l]].
Qed.

(** What [resolve] does, case by case: the alert it fetched is saved as
    resolved, or the exception of the lookup leaves the view. *)
Lemma resolve_outcome (request : Request) (pk : Z) (w : world) :
  (∃ alert,
     (get_object request pk w).1 = Return alert ∧
     alert ∈ alerts w ∧ Alert.id alert = Some pk ∧
     resolve request pk w =
       (Return (HTTP_200_OK (resolved_now alert (clock w))),
        resolved_world w pk (resolved_now alert (clock w)))) ∨
  (∃ e,
     (get_object request pk w).1 = Raise e ∧
     (e = Http404 ∨ e = MultipleObjectsReturned) ∧
     resolve request pk w = (Raise e, logged w [Select_Alert pk])).
Proof.
  destruct (get_object_run request pk w) as (qs & _ & Hrun).
  destruct (filter (λ a, Alert.id a = Some pk) qs) as [|a [|b l]] eqn:Hf.
  - right. exists Http404. rewrite Hrun. split; [done |]. split; [by left |].
    unfold resolve, bind. by rewrite Hrun.
  - left. exists a.
    destruct (get_object_inv request pk a w) as (_ & Hin & Hid);
      [by rewrite Hrun |].
    rewrite Hrun. do 3 (split; [done |]).
    unfold resolve, bind, timezone_now. rewrite Hrun.
    change (clock (logged w [Select_Alert pk])) with (clock w).
    fold (resolved_now a (clock w)).
    rewrite (Alert_save_existing (resolved_now a (clock w)) pk)
      by (try done; simpl; apply list_elem_of_fmap; by exists a).
    unfold resolved_world. simpl. by rewrite <- app_assoc.
  - right. exists MultipleObjectsReturned. rewrite Hrun.
    split; [done |]. split; [by right |].
    unfold resolve, bind. by rewrite Hrun.
Qed.

Lemma resolved_world_ids (w : world) (pk : Z) (saved : Alert.t) :
  Alert.id saved = Some pk →
  Alert.id <$> alerts (resolved_world w pk saved) = Alert.id <$> alerts w.
Proof.
  intros Hid. simpl. rewrite <- list_fmap_compose.
  apply list_fmap_ext. intros i a _. simpl.
  by case_bool_decide; [congruence |].
Qed.

Lemma keys_in_order_ids (w w' : world) :
  sensor_data w' = sensor_data w →
  sensor_data_seq w' = sensor_data_seq w →
  Alert.id <$> alerts w' = Alert.id <$> alerts w →
  alert_seq w' = alert_seq w →
  keys_in_order w → keys_in_order w'.
Proof.
  unfold keys_in_order. intros -> -> Hids ->. rewrite Hids.
  intros (? & ? & Ha & ?). do 2 (split; [done |]). split; [| done].
  apply (Forall_fmap Alert.id (λ i, ∃ pk, i = Some pk ∧ (pk < alert_seq w)%Z)).
  rewrite Hids. by apply Forall_fmap.
Qed.

(** Ingest and resolve keep the primary keys in order: each stored reading
    and alert has a pk below the next value of its sequence, and no two
    rows of a table share a pk. *)
Theorem keys_stay_in_order (w : world) :
  keys_in_order w →
  (∀ data, keys_in_order (receive_sensor_data data w).2) ∧
  (∀ request pk, keys_in_order (resolve request pk w).2).
Proof.
  intros Hkeys. split.
  - intros data.
    destruct (ingest_outcome data w)
      as [(errors & w' & -> & _ & _ & Hs & Ha & _ & Hss & Has & _)
         | (v & d & w' & _ & _ & _ & -> & _ & Hs & Ha & _ & Hss & Has & _)];
      simpl.
    + eapply keys_in_order_ids; [done | done | by rewrite Ha | done | done].
    + destruct Hkeys as (Hr & Hrn & Hal & Han).
      unfold keys_in_order. rewrite Hs, Ha, Hss, Has.
      split; [| split; [| split]].
      * apply Forall_app_2.
        -- eapply Forall_impl; [exact Hr |]. intros r ?; simpl in *. lia.
        -- constructor; [simpl; lia | done].
      * rewrite fmap_app. apply NoDup_app. split; [done |].
        split; [| apply NoDup_singleton].
        intros i Hi ->%list_elem_of_singleton.
        apply list_elem_of_fmap in Hi as (r & Hri & Hrin).
        rewrite Forall_forall in Hr. specialize (Hr r Hrin).
        simpl in Hri. lia.
      * apply Forall_app_2.
        -- eapply Forall_impl; [exact Hal |].
           intros a (k & ? & ?). exists k. split; [done | lia].
        -- apply (Forall_fmap Alert.id
                    (λ i, ∃ pk, i = Some pk ∧ (pk < alert_seq w + _)%Z)).
           rewrite assign_pks_ids, assign_pks_length.
           apply Forall_fmap, Forall_forall.
           intros k Hk%elem_of_seqZ. simpl. exists k. split; [done | lia].
      * rewrite fmap_app. apply NoDup_app. split; [done |].
        rewrite assign_pks_ids. split.
        -- intros i Hi Hnew.
           apply list_elem_of_fmap in Hi as (a & -> & Hain).
           rewrite Forall_forall in Hal.
           destruct (Hal a Hain) as (k & Hk & ?). rewrite Hk in Hnew.
           apply list_elem_of_fmap in Hnew as (k' & [= <-] & Hk'%elem_of_seqZ).
           lia.
        -- apply NoDup_fmap_2; [apply _ | apply NoDup_seqZ].
  - intros request pk.
    destruct (resolve_outcome request pk w)
      as [(alert & _ & _ & Hid & ->) | (e & _ & _ & ->)]; simpl.
    + eapply keys_in_order_ids; [| | | | exact Hkeys]; try done.
      by apply (resolved_world_ids w pk (resolved_now alert (clock w))).
    + by eapply keys_in_order_ids; [| | | | exact Hkeys].
Qed.

Lemma keys_stay_in_order_witness :
  (∀ data, keys_in_order (receive_sensor_data data alert_world).2) ∧
  (∀ request pk, keys_in_order (resolve request pk alert_world).2).
Proof.
  apply (keys_stay_in_order alert_world).
  unfold keys_in_order. simpl. split; [done |]. split; [apply NoDup_nil_2 |].
  split.
  - repeat constructor; eexists; (split; [reflexivity | reflexivity]).
  - apply (bool_decide_unpack _). by vm_compute.
Defined.

(** What [get_queryset] lets through: stored alerts on devices the user
    owns. *)
Lemma get_queryset_owned (request : Request) (w : world) (queryset : list Alert.t)
    (a : Alert.t) :
  get_queryset request w = (Return queryset, w) →
  a ∈ queryset →
  a ∈ alerts w ∧ owns_device_of w (user request) a.
Proof.
  unfold get_queryset. intros [= <-] Ha.
  assert (a ∈ filter
            (λ a, Device.id (Alert.device a)
                  ∈ Device.id <$>
                    filter (λ d, Device.owner d = user request)
                      (map_to_list (devices w)).*2) (alerts w)) as Hin.
  { destruct (status_filter request) as [s|]; [case_bool_decide |];
      [done | by apply list_elem_of_filter in Ha as [_ Ha] | done]. }
  apply list_elem_of_filter in Hin as [Hdev Hin]. split; [done |].
  apply list_elem_of_fmap in Hdev as (d & Hid & Hd).
  apply list_elem_of_filter in Hd as [Howner Hd].
  apply list_elem_of_fmap in Hd as ([key d'] & -> & Hkd).
  apply elem_of_map_to_list in Hkd. by exists key, d'.
Qed.

Lemma filter_none {A} (P : A → Prop) `{∀ x, Decision (P x)} (l : list A) :
  (∀ x, x ∈ l → ¬ P x) → filter P l = [].
Proof.
  induction l as [|x l IH]; intros Hl; [done |].
  rewrite filter_cons_False by (apply Hl, list_elem_of_here).
  apply IH. intros y Hy. apply Hl. by apply list_elem_of_further.
Qed.

(** A user cannot resolve an alert of a device that is not theirs: when no
    stored alert with that pk sits on a device the user owns, the answer
    is 404 and no row is touched. *)
Theorem resolve_foreign_alert_is_404 (request : Request) (pk : Z)
    (w : world) :
  (∀ a, a ∈ alerts w → Alert.id a = Some pk →
        ¬ owns_device_of w (user request) a) →
  resolve request pk w = (Raise Http404, logged w [Select_Alert pk]).
Proof.
  intros Hforeign.
  destruct (get_object_run request pk w) as (qs & Hqs & Hrun).
  rewrite filter_none in Hrun.
  - unfold resolve, bind. by rewrite Hrun.
  - intros a Ha Hid.
    destruct (get_queryset_owned request w qs a Hqs Ha) as [Hin Hown].
    by apply (Hforeign a Hin Hid).
Qed.

Lemma resolve_foreign_alert_is_404_witness :
  resolve (mkRequest 8 None) 5 alert_world
  = (Raise Http404, logged alert_world [Select_Alert 5]).
Proof.
  apply (resolve_foreign_alert_is_404 (mkRequest 8 None) 5 alert_world).
  intros a _ _ (key & d & Hd & Howner & _).
  simpl in Hd, Howner.
  destruct (decide (key = "key-greenhouse"%string)) as [-> | Hne1].
  - rewrite lookup_insert_eq in Hd. injection Hd as <-. done.
  - rewrite lookup_insert_ne in Hd by done.
    destruct (decide (key = "key-cellar"%string)) as [-> | Hne2].
    + rewrite lookup_insert_eq in Hd. injection Hd as <-. done.
    + rewrite lookup_insert_ne in Hd by done. done.
Defined.

Lemma filter_unique {A B} `{EqDecision B} (f : A → B) (c : B) (l : list A) :
  NoDup (f <$> l) → length (filter (λ a, f a = c) l) ≤ 1.
Proof.
  induction l as [|x l IH]; [simpl; lia |].
  rewrite fmap_cons, NoDup_cons. intros [Hx Hl].
  rewrite filter_cons. case_decide as Hc; [| by apply IH].
  rewrite (filter_none (λ a, f a = c) l); [simpl; lia |].
  intros y Hy Hyc. apply Hx. apply list_elem_of_fmap. exists y.
  split; [congruence | done].
Qed.

(** With unique primary keys [resolve] has two outcomes only: the 200
    answer carrying the resolved alert, or 404. *)
Theorem resolve_answers_200_or_404 (request : Request) (pk : Z) (w : world) :
  keys_in_order w →
  (∃ alert, alert ∈ alerts w ∧ Alert.id alert = Some pk ∧
            resolve request pk w =
              (Return (HTTP_200_OK (resolved_now alert (clock w))),
               resolved_world w pk (resolved_now alert (clock w)))) ∨
  resolve request pk w = (Raise Http404, logged w [Select_Alert pk]).
Proof.
  intros (_ & _ & _ & Hnodup).
  destruct (resolve_outcome request pk w)
    as [(alert & _ & ? & ? & ?) | (e & Hget & [-> | ->] & Hrun)].
  - left. by exists alert.
  - by right.
  - exfalso.
    destruct (get_object_run request pk w) as (qs & Hqs & Hobj).
    rewrite Hobj in Hget. simpl in Hget.
    assert (length (filter (λ a, Alert.id a = Some pk) qs) ≤ 1) as Hlen.
    { apply filter_unique. eapply sublist_NoDup; [exact Hnodup |].
      apply fmap_sublist. unfold get_queryset in Hqs.
      injection Hqs as <-.
      destruct (status_filter request) as [s|]; [case_bool_decide |];
        repeat (etrans; [apply sublist_filter |]); done. }
    destruct (filter (λ a, Alert.id a = Some pk) qs) as [|a [|b l]];
      [done | done | simpl in Hlen; lia].
Qed.

Lemma resolve_answers_200_or_404_witness :
  (∃ alert, alert ∈ alerts alert_world ∧ Alert.id alert = Some 6%Z ∧
            resolve (mkRequest 7 (Some "active"%string)) 6 alert_world =
              (Return (HTTP_200_OK (resolved_now alert (clock alert_world))),
               resolved_world alert_world 6
                 (resolved_now alert (clock alert_world)))) ∨
  resolve (mkRequest 7 (Some "active"%string)) 6 alert_world
  = (Raise Http404, logged alert_world [Select_Alert 6]).
Proof.
  apply (resolve_answers_200_or_404 (mkRequest 7 (Some "active"%string)) 6
           alert_world).
  unfold keys_in_order. simpl. split; [done |]. split; [apply NoDup_nil_2 |].
  split.
  - repeat constructor; eexists; (split; [reflexivity | reflexivity]).
  - apply (bool_decide_unpack _). by vm_compute.
Defined.

(* ===================================================================== *)
(** * The list of active alerts *)
(* ===================================================================== *)

#[local] Instance newest_first_total : Total newest_first.
Proof. intros a b. unfold newest_first. lia. Qed.

#[local] Instance newest_first_trans : Transitive newest_first.
Proof. intros a b c. unfold newest_first. lia. Qed.

Lemma active_alerts_run (request : Request) (w : world) :
  active_alerts request w =
    (Return (merge_sort newest_first
               (filter (listed_as_active request w) (alerts w))), w).
Proof. reflexivity. Qed.

Lemma filter_replaced (P Q : Alert.t → Prop) `{∀ a, Decision (P a)}
    `{∀ a, Decision (Q a)} (saved : Alert.t) (l : list Alert.t) :
  ¬ P saved →
  filter P ((λ r, if bool_decide (Q r) then saved else r) <$> l)
  = filter (λ a, P a ∧ ¬ Q a) l.
Proof.
  intros Hsaved. induction l as [|a l IH]; [done |].
  rewrite fmap_cons, !filter_cons, IH.
  case_bool_decide as HQ.
  - rewrite decide_False by done. by rewrite decide_False by tauto.
  - destruct (decide (P a)).
    + by rewrite decide_True by tauto.
    + by rewrite decide_False by tauto.
Qed.

(** Once an alert is resolved it is gone from every user's list of active
    alerts: the list served after [resolve] holds the alerts served before
    except those with the resolved pk, newest first. *)
Theorem resolved_alert_leaves_active_list (request viewer : Request)
    (pk : Z) (alert : Alert.t) (w : world) :
  (get_object request pk w).1 = Return alert →
  let w' := (resolve request pk w).2 in
  ∃ before after,
    active_alerts viewer w = (Return before, w) ∧
    active_alerts viewer w' = (Return after, w') ∧
    after ≡ₚ filter (λ a, Alert.id a ≠ Some pk) before ∧
    StronglySorted newest_first after.
Proof.
  intros Hget w'. subst w'.
  destruct (resolve_outcome request pk w)
    as [(a & Hget' & Hin & Hid & ->) | (e & Hget' & _)];
    [| by rewrite Hget in Hget'].
  simpl. rewrite !active_alerts_run. eexists _, _.
  split; [done |]. split; [done |].
  split; [| apply (StronglySorted_merge_sort _)].
  rewrite !merge_sort_Permutation.
  change (listed_as_active viewer
            (resolved_world w pk (resolved_now a (clock w))))
    with (listed_as_active viewer w).
  unfold resolved_world at 1. simpl.
  rewrite (filter_replaced (listed_as_active viewer w)
             (λ r, Alert.id r = Some pk)); [| by intros [_ ?]].
  rewrite list_filter_filter.
  by rewrite (list_filter_iff _ (λ a0, Alert.id a0 ≠ Some pk
                                       ∧ listed_as_active viewer w a0))
    by tauto.
Qed.

Lemma resolved_alert_leaves_active_list_witness :
  ∃ before after,
    active_alerts (mkRequest 7 None) alert_world
    = (Return before, alert_world) ∧
    active_alerts (mkRequest 7 None)
      (resolve (mkRequest 7 None) 5 alert_world).2
    = (Return after, (resolve (mkRequest 7 None) 5 alert_world).2) ∧
    after ≡ₚ filter (λ a, Alert.id a ≠ Some 5%Z) before ∧
    StronglySorted newest_first after.
Proof.
  apply (resolved_alert_leaves_active_list (mkRequest 7 None)
           (mkRequest 7 None) 5 hot_alert alert_world).
  vm_compute. reflexivity.
Defined.

Lemma filter_all {A} (P : A → Prop) `{∀ x, Decision (P x)} (l : list A) :
  Forall P l → filter P l = l.
Proof.
  induction 1 as [|x l Hx _ IH]; [done |].
  by rewrite filter_cons_True, IH.
Qed.

(** The alerts an accepted ingest stored join the owner's list of active
    alerts, and the list of a user who owns no device with that id is what
    it was. *)
Theorem stored_alerts_join_active_list (data : request_data)
    (w w' : world) (data_id timestamp : Z) (name : string)
    (viewer : Request) :
  receive_sensor_data data w
  = (Return (HTTP_201_CREATED data_id timestamp name), w') →
  ∃ reading rows before after,
    sensor_data w' = sensor_data w ++ [reading] ∧
    alerts w' = alerts w ++ rows ∧
    active_alerts viewer w = (Return before, w) ∧
    active_alerts viewer w' = (Return after, w') ∧
    StronglySorted newest_first after ∧
    (Device.owner (SensorData.device reading) = user viewer →
     after ≡ₚ before ++ rows) ∧
    (Device.id (SensorData.device reading)
       ∉ Device.id <$> user_devices viewer w →
     after = before).
Proof.
  intros Hrun.
  destruct (ingest_outcome data w)
    as [(errors & w0 & Hrun0 & _)
       | (v & d & w0 & _ & Hd & _ & Hrun0 & Hdev & Hsd & Hal & _)];
    rewrite Hrun in Hrun0; [done |].
  injection Hrun0 as -> -> -> <-.
  set (reading := new_reading w d v) in *.
  set (rows := assign_pks _ _ _) in *.
  exists reading, rows. rewrite !active_alerts_run. eexists _, _.
  do 4 (split; [done |]).
  split; [apply (StronglySorted_merge_sort _) |].
  assert (∀ a, listed_as_active viewer w' a ↔ listed_as_active viewer w a)
    as Hsame
    by (intros a; unfold listed_as_active, user_devices; by rewrite Hdev).
  rewrite (list_filter_iff _ _ _ Hsame), Hal, filter_app.
  assert (Forall (λ a, Alert.device a = d ∧ Alert.status a = active) rows)
    as Hrows.
  { eapply assign_pks_Forall; [| apply (alerts_to_create_fresh reading)].
    by intros a k (_ & _ & ? & _ & ? & _). }
  split.
  - intros Howner. rewrite !merge_sort_Permutation.
    rewrite (filter_all _ rows); [done |].
    eapply Forall_impl; [exact Hrows |].
    intros a [Hda Hsa]. split; [| by rewrite Hsa].
    rewrite Hda.
    apply list_elem_of_fmap. exists d. split; [done |].
    apply list_elem_of_filter. split; [done |].
    apply list_elem_of_fmap. exists (v_api_key v, d). split; [done |].
    by apply elem_of_map_to_list.
  - intros Hforeign. rewrite (filter_none _ rows); [by rewrite app_nil_r |].
    intros a Ha [Hin _]. rewrite Forall_forall in Hrows.
    destruct (Hrows a Ha) as [Hda _]. by rewrite Hda in Hin.
Qed.

Lemma stored_alerts_join_active_list_witness :
  ∃ reading rows before after,
    sensor_data
      (receive_sensor_data
         (JSON_object (sample_payload "key-greenhouse" 36.0 85.0 600))
         alert_world).2
    = sensor_data alert_world ++ [reading] ∧
    alerts
      (receive_sensor_data
         (JSON_object (sample_payload "key-greenhouse" 36.0 85.0 600))
         alert_world).2
    = alerts alert_world ++ rows ∧
    active_alerts (mkRequest 7 None) alert_world
    = (Return before, alert_world) ∧
    active_alerts (mkRequest 7 None)
      (receive_sensor_data
         (JSON_object (sample_payload "key-greenhouse" 36.0 85.0 600))
         alert_world).2
    = (Return after,
       (receive_sensor_data
          (JSON_object (sample_payload "key-greenhouse" 36.0 85.0 600))
          alert_world).2) ∧
    StronglySorted newest_first after ∧
    (Device.owner (SensorData.device reading) = user (mkRequest 7 None) →
     after ≡ₚ before ++ rows) ∧
    (Device.id (SensorData.device reading)
       ∉ Device.id <$> user_devices (mkRequest 7 None) alert_world →
     after = before).
Proof.
  apply (stored_alerts_join_active_list
           (JSON_object (sample_payload "key-greenhouse" 36.0 85.0 600))
           alert_world _
           1 1000 "greenhouse" (mkRequest 7 None)).
  vm_compute. reflexivity.
Defined.

(* ===================================================================== *)
(** * The admin actions on alerts *)
(* ===================================================================== *)

Lemma filter_rewritten {A} (P : A → Prop) `{∀ a, Decision (P a)}
    (q : A → bool) (f : A → A) (l : list A) :
  (∀ a, q a = true → ¬ P (f a)) →
  filter P ((λ a, if q a then f a else a) <$> l)
  = filter (λ a, P a ∧ q a = false) l.
Proof.
  intros Hf. induction l as [|a l IH]; [done |].
  rewrite fmap_cons, !filter_cons, IH.
  destruct (q a) eqn:Hq.
  - rewrite decide_False by auto. by rewrite decide_False by (by intros [_ ?]).
  - destruct (decide (P a)).
    + by rewrite decide_True by done.
    + by rewrite decide_False by tauto.
Qed.

(** Alerts ticked for [mark_as_resolved] or [mark_as_ignored] leave every
    user's list of active alerts; the alerts not ticked stay on it. *)
Theorem admin_actions_clear_active_list (selected : list Z)
    (viewer : Request) (w : world) :
  ∃ before after_resolved after_ignored,
    active_alerts viewer w = (Return before, w) ∧
    (active_alerts viewer (mark_as_resolved selected w).2).1
    = Return after_resolved ∧
    (active_alerts viewer (mark_as_ignored selected w).2).1
    = Return after_ignored ∧
    after_resolved ≡ₚ filter (λ a, selected_row selected a = false) before ∧
    after_ignored ≡ₚ filter (λ a, selected_row selected a = false) before.
Proof.
  rewrite !active_alerts_run. eexists _, _, _.
  do 3 (split; [reflexivity |]).
  rewrite !merge_sort_Permutation, list_filter_filter.
  unfold mark_as_resolved, mark_as_ignored, queryset_update, timezone_now,
    bind. simpl.
  change (listed_as_active viewer (World (devices w) _ _ _ _ _ _ _))
    with (listed_as_active viewer w).
  rewrite !(filter_rewritten (listed_as_active viewer w))
    by (by intros a _ [_ ?]).
  split;
    by rewrite (list_filter_iff _ (λ a, selected_row selected a = false
                                        ∧ listed_as_active viewer w a))
      by tauto.
Qed.

Lemma filter_one {A B} `{EqDecision B} (f : A → B) (c : B) (x : A)
    (l : list A) :
  NoDup (f <$> l) → x ∈ l → f x = c →
  filter (λ a, f a = c) l = [x].
Proof.
  induction l as [|y l IH]; intros Hnodup Hx Hc; [by apply elem_of_nil in Hx |].
  rewrite fmap_cons, NoDup_cons in Hnodup. destruct Hnodup as [Hy Hl].
  rewrite filter_cons.
  apply elem_of_cons in Hx as [-> | Hx].
  - rewrite decide_True by done. f_equal. apply filter_none.
    intros z Hz Hzc. apply Hy, list_elem_of_fmap. exists z.
    split; [congruence | done].
  - rewrite decide_False; [by apply IH |].
    intros Hyc. apply Hy, list_elem_of_fmap. exists x.
    split; [congruence | done].
Qed.

(** With unique primary keys, resolving an alert through the API and
    ticking that one alert for the admin's [mark_as_resolved] store the
    same alerts table, and the admin action reports one row. *)
Theorem admin_resolve_agrees_with_api (request : Request) (pk : Z)
    (alert : Alert.t) (w : world) :
  keys_in_order w →
  (get_object request pk w).1 = Return alert →
  alerts (mark_as_resolved [pk] w).2 = alerts (resolve request pk w).2 ∧
  (mark_as_resolved [pk] w).1 = Return 1.
Proof.
  intros (_ & _ & _ & Hnodup) Hget.
  destruct (resolve_outcome request pk w)
    as [(a & Hget' & Hin & Hid & ->) | (e & Hget' & _)];
    [| by rewrite Hget in Hget'].
  unfold mark_as_resolved, queryset_update, timezone_now, bind. simpl.
  assert (∀ r, selected_row [pk] r = bool_decide (Alert.id r = Some pk))
    as Hsel.
  { intros r. unfold selected_row. destruct (Alert.id r) as [k|].
    - apply bool_decide_ext. rewrite list_elem_of_singleton.
      split; [by intros -> | by intros [= ->]].
    - by rewrite bool_decide_eq_false_2. }
  split.
  - apply list_fmap_ext. intros i r Hr. simpl. rewrite Hsel.
    case_bool_decide as Hrid; [| done].
    assert (r = a) as ->; [| done].
    apply list_elem_of_lookup_2 in Hr.
    pose proof (filter_one Alert.id (Some pk) a (alerts w) Hnodup Hin Hid)
      as Hone.
    assert (r ∈ filter (λ x, Alert.id x = Some pk) (alerts w)) as Hrin
      by (by apply list_elem_of_filter).
    rewrite Hone in Hrin. by apply list_elem_of_singleton in Hrin.
  - do 2 f_equal.
    rewrite (list_filter_iff _ (λ x, Alert.id x = Some pk)).
    + by rewrite (filter_one Alert.id (Some pk) a (alerts w) Hnodup Hin Hid).
    + intros r. rewrite Hsel. by rewrite bool_decide_spec.
Qed.

Lemma admin_resolve_agrees_with_api_witness :
  alerts (mark_as_resolved [5%Z] alert_world).2
  = alerts (resolve (mkRequest 7 None) 5 alert_world).2 ∧
  (mark_as_resolved [5%Z] alert_world).1 = Return 1.
Proof.
  apply (admin_resolve_agrees_with_api (mkRequest 7 None) 5 hot_alert
           alert_world).
  - unfold keys_in_order. simpl. split; [done |].
    split; [apply NoDup_nil_2 |]. split.
    + repeat constructor; eexists; (split; [reflexivity | reflexivity]).
    + apply (bool_decide_unpack _). by vm_compute.
  - vm_compute. reflexivity.
Defined.

(** Saving an alert for the first time with [save()] and storing it with
    [bulk_create] put the same row in the table; [save()] then announces
    it once to the owner's alert group and once to the owner's sensor
    group, [bulk_create] announces nothing. *)
Theorem save_announces_what_bulk_create_hides (a : Alert.t) (w : world) :
  Alert.id a = None →
  ∃ obj,
    (Alert_save a w).1 = Return obj ∧
    (Alert_objects_bulk_create [a] w).1 = Return [obj] ∧
    Alert.id obj = Some (alert_seq w) ∧
    alerts (Alert_save a w).2 = alerts w ++ [obj] ∧
    alerts (Alert_objects_bulk_create [a] w).2 = alerts w ++ [obj] ∧
    log (Alert_save a w).2 =
      log w ++
      [Insert_Alert (alert_seq w);
       group_send (user_alerts (Device.owner (Alert.device a)))
         (alert_notification obj (Some (clock w)));
       group_send (user_sensors (Device.owner (Alert.device a)))
         (alert_notification obj None)] ∧
    log (Alert_objects_bulk_create [a] w).2 =
      log w ++ [Bulk_Insert_Alert [alert_seq w]].
Proof.
  intros Hid.
  unfold Alert_save, Alert_objects_bulk_create, alert_created, timezone_now,
    bind, record, ret. rewrite Hid. simpl.
  eexists. do 5 (split; [reflexivity |]). split; [| done].
  by rewrite <- !app_assoc.
Qed.

Lemma save_announces_what_bulk_create_hides_witness :
  ∃ obj,
    (Alert_save (Alert.new greenhouse humidity_low 20 10 []) sample_world).1
    = Return obj ∧
    (Alert_objects_bulk_create [Alert.new greenhouse humidity_low 20 10 []]
       sample_world).1 = Return [obj] ∧
    Alert.id obj = Some (alert_seq sample_world) ∧
    alerts (Alert_save (Alert.new greenhouse humidity_low 20 10 [])
              sample_world).2 = alerts sample_world ++ [obj] ∧
    alerts (Alert_objects_bulk_create
              [Alert.new greenhouse humidity_low 20 10 []] sample_world).2
    = alerts sample_world ++ [obj] ∧
    log (Alert_save (Alert.new greenhouse humidity_low 20 10 [])
           sample_world).2 =
      log sample_world ++
      [Insert_Alert (alert_seq sample_world);
       group_send
         (user_alerts
            (Device.owner
               (Alert.device (Alert.new greenhouse humidity_low 20 10 []))))
         (alert_notification obj (Some (clock sample_world)));
       group_send
         (user_sensors
            (Device.owner
               (Alert.device (Alert.new greenhouse humidity_low 20 10 []))))
         (alert_notification obj None)] ∧
    log (Alert_objects_bulk_create
           [Alert.new greenhouse humidity_low 20 10 []] sample_world).2 =
      log sample_world ++ [Bulk_Insert_Alert [alert_seq sample_world]].
Proof.
  apply (save_announces_what_bulk_create_hides
           (Alert.new greenhouse humidity_low 20 10 []) sample_world).
  reflexivity.
Defined.

(* ===================================================================== *)
(** * The properties of a reading and the default thresholds *)
(* ===================================================================== *)

Lemma SFltb_trans (x y z : spec_float) :
  SFltb x y = true → SFltb y z = true → SFltb x z = true.
Proof.
  unfold SFltb.
  destruct x as [sx|sx| |sx mx ex], y as [sy|sy| |sy my ey],
    z as [sz|sz| |sz mz ez]; simpl;
    try (destruct sx); try (destruct sy); try (destruct sz); simpl;
    try done;
    change (Pos.compare_cont Eq mx my) with (Pos.compare mx my);
    change (Pos.compare_cont Eq my mz) with (Pos.compare my mz);
    change (Pos.compare_cont Eq mx mz) with (Pos.compare mx mz);
    destruct (Z.compare_spec ex ey), (Z.compare_spec ey ez),
      (Z.compare_spec ex ez); simpl; try done; try lia;
    destruct (Pos.compare_spec mx my), (Pos.compare_spec my mz),
      (Pos.compare_spec mx mz); simpl; try done; try lia.
Qed.

Lemma ltb_trans (x y z : float) :
  (x <? y)%float = true → (y <? z)%float = true → (x <? z)%float = true.
Proof. rewrite !ltb_spec. apply SFltb_trans. Qed.

(** Against the default thresholds the two properties of a reading agree
    with the evaluator: the air quality is dangerous exactly when
    [air_quality_bad] is raised, a temperature above 40 raises
    [temperature_high] and one below 0 raises [temperature_low]. *)
Theorem extreme_readings_raise_default_alerts (self : SensorData.t)
    (now : Z) :
  let evs := alerts_to_create self (UserSettings.new now) in
  (emits evs air_quality_bad ↔ is_air_quality_dangerous self = true) ∧
  ((40 <? SensorData.temperature self)%float = true →
   emits evs temperature_high) ∧
  ((SensorData.temperature self <? 0)%float = true →
   emits evs temperature_low) ∧
  (is_temperature_extreme self = true →
   emits evs temperature_high ∨ emits evs temperature_low).
Proof.
  intros evs.
  assert ((40 <? SensorData.temperature self)%float = true →
          (35 <? SensorData.temperature self)%float = true) as Hhigh
    by (apply ltb_trans; reflexivity).
  assert ((SensorData.temperature self <? 0)%float = true →
          (SensorData.temperature self <? 5)%float = true ∧
          (35 <? SensorData.temperature self)%float = false) as Hlow.
  { intros Hneg. split; [by eapply ltb_trans |].
    destruct (35 <? SensorData.temperature self)%float eqn:H35; [| done].
    by pose proof (ltb_trans _ _ _ H35 Hneg). }
  assert ((40 <? SensorData.temperature self)%float = true →
          emits evs temperature_high) as Hemit_high.
  { intros H35%Hhigh. subst evs. unfold alerts_to_create, emits. cbv zeta.
    simpl. rewrite H35.
    destruct (80 <? SensorData.humidity self)%float;
      destruct (SensorData.humidity self <? 20)%float;
      destruct (500 <? SensorData.air_quality self)%float;
      simpl; find_in_list. }
  assert ((SensorData.temperature self <? 0)%float = true →
          emits evs temperature_low) as Hemit_low.
  { intros [H5 H35]%Hlow. subst evs. unfold alerts_to_create, emits.
    cbv zeta. simpl. rewrite H35, H5.
    destruct (80 <? SensorData.humidity self)%float;
      destruct (SensorData.humidity self <? 20)%float;
      destruct (500 <? SensorData.air_quality self)%float;
      simpl; find_in_list. }
  split; [| split; [done | split; [done |]]].
  - subst evs. unfold is_air_quality_dangerous, alerts_to_create, emits.
    cbv zeta. simpl.
    destruct (35 <? SensorData.temperature self)%float;
      destruct (SensorData.temperature self <? 5)%float;
      destruct (80 <? SensorData.humidity self)%float;
      destruct (SensorData.humidity self <? 20)%float;
      destruct (500 <? SensorData.air_quality self)%float;
      simpl; emits_iff.
  - unfold is_temperature_extreme. intros [?|?]%orb_true_iff; auto.
Qed.

Lemma extreme_readings_raise_default_alerts_witness :
  emits (alerts_to_create (sample_reading 41 50 100) (UserSettings.new 1000))
    temperature_high.
Proof.
  apply (extreme_readings_raise_default_alerts (sample_reading 41 50 100)
           1000).
  reflexivity.
Defined.

(* ===================================================================== *)
(** * Connections and groups *)
(* ===================================================================== *)

Lemma recipients_app (g : group) (l1 l2 : layer) :
  recipients g (l1 ++ l2) = recipients g l1 ++ recipients g l2.
Proof. unfold recipients. by rewrite filter_app, fmap_app. Qed.

Lemma elem_of_recipients (g : group) (channel : string) (l : layer) :
  channel ∈ recipients g l ↔ (g, channel) ∈ l.
Proof.
  unfold recipients. rewrite list_elem_of_fmap. split.
  - intros ([g' ch] & -> & [Hg Hin]%list_elem_of_filter).
    simpl in Hg. by subst.
  - intros Hin. exists (g, channel). split; [done |].
    by apply list_elem_of_filter.
Qed.

Lemma recipients_group_add (g g' : group) (channel : string) (l : layer) :
  recipients g' (group_add g channel l) =
    if bool_decide (g' = g ∧ (g, channel) ∉ l)
    then recipients g' l ++ [channel] else recipients g' l.
Proof.
  unfold group_add. case_bool_decide as Hin.
  - by rewrite bool_decide_eq_false_2 by tauto.
  - rewrite recipients_app. unfold recipients at 2.
    rewrite filter_cons, filter_nil. simpl.
    destruct (decide (g = g')) as [<- | Hne].
    + by rewrite bool_decide_eq_true_2.
    + rewrite bool_decide_eq_false_2 by (intros [-> _]; done).
      by rewrite app_nil_r.
Qed.

(** [connect] puts an authenticated connection in one group, the one of
    its own user and of its consumer's kind, and leaves the audience of
    every other group as it was. *)
Theorem connect_joins_own_group_only (c : consumer) (l : layer)
    (user : User.t) :
  scope_user c = Some user →
  channel_name c ∈ recipients (own_group (class c) user) (connect c l).2 ∧
  accepted (connect c l).1 = true ∧
  group_name (connect c l).1 = Some (own_group (class c) user) ∧
  ∀ g, g ≠ own_group (class c) user →
       recipients g (connect c l).2 = recipients g l.
Proof.
  intros Huser.
  assert ((connect c l).2
          = group_add (own_group (class c) user) (channel_name c) l) as Hl
    by (unfold connect; rewrite Huser; by destruct (class c)).
  rewrite Hl. split; [| split; [| split]].
  - apply elem_of_recipients. unfold group_add.
    case_bool_decide; [done |]. apply elem_of_app. right.
    apply list_elem_of_here.
  - unfold connect. rewrite Huser. by destruct (class c).
  - unfold connect. rewrite Huser. by destruct (class c).
  - intros g Hg. rewrite recipients_group_add.
    by rewrite bool_decide_eq_false_2 by tauto.
Qed.

Lemma connect_joins_own_group_only_witness :
  "ch-1"%string
  ∈ recipients (own_group SensorDataConsumer (User.mk 7 "ada"))
      (connect (new_consumer SensorDataConsumer "ch-1"
                  (Some (User.mk 7 "ada"))) []).2 ∧
  accepted (connect (new_consumer SensorDataConsumer "ch-1"
                       (Some (User.mk 7 "ada"))) []).1 = true ∧
  group_name (connect (new_consumer SensorDataConsumer "ch-1"
                         (Some (User.mk 7 "ada"))) []).1
  = Some (own_group SensorDataConsumer (User.mk 7 "ada")) ∧
  ∀ g, g ≠ own_group SensorDataConsumer (User.mk 7 "ada") →
       recipients g
         (connect (new_consumer SensorDataConsumer "ch-1"
                     (Some (User.mk 7 "ada"))) []).2
       = recipients g [].
Proof.
  apply (connect_joins_own_group_only
           (new_consumer SensorDataConsumer "ch-1" (Some (User.mk 7 "ada")))
           [] (User.mk 7 "ada")).
  reflexivity.
Defined.

(** [disconnect] undoes [connect]: for a channel the layer did not know,
    connecting and then disconnecting gives the layer back, and in any
    case the channel is out of its group afterwards. *)
Theorem disconnect_undoes_connect (c : consumer) (l : layer) (user : User.t) :
  scope_user c = Some user →
  ∃ l',
    disconnect (connect c l).1 (connect c l).2 = inr l' ∧
    (channel_name c ∉ recipients (own_group (class c) user) l') ∧
    ((own_group (class c) user, channel_name c) ∉ l → l' = l).
Proof.
  intros Huser.
  destruct (connect_joins_own_group_only c l user Huser)
    as (_ & _ & Hgroup & _).
  assert ((connect c l).2
          = group_add (own_group (class c) user) (channel_name c) l) as Hl
    by (unfold connect; rewrite Huser; by destruct (class c)).
  assert (channel_name (connect c l).1 = channel_name c) as Hch
    by (unfold connect; rewrite Huser; by destruct (class c)).
  unfold disconnect. rewrite Hgroup, Hl, Hch. eexists. split; [done |].
  split.
  - rewrite elem_of_recipients. unfold group_discard.
    rewrite list_elem_of_filter. by intros [? _].
  - intros Hfresh. unfold group_add, group_discard.
    rewrite bool_decide_eq_false_2 by done.
    rewrite filter_app, filter_cons_False, filter_nil, app_nil_r by auto.
    apply filter_all, Forall_forall. by intros m Hm ->.
Qed.

Lemma disconnect_undoes_connect_witness :
  ∃ l',
    disconnect
      (connect (new_consumer AlertConsumer "ch-2" (Some (User.mk 7 "ada")))
         [(user_sensors 7, "ch-1"%string)]).1
      (connect (new_consumer AlertConsumer "ch-2" (Some (User.mk 7 "ada")))
         [(user_sensors 7, "ch-1"%string)]).2 = inr l' ∧
    (channel_name (new_consumer AlertConsumer "ch-2" (Some (User.mk 7 "ada")))
     ∉ recipients
         (own_group
            (class (new_consumer AlertConsumer "ch-2"
                      (Some (User.mk 7 "ada"))))
            (User.mk 7 "ada")) l') ∧
    ((own_group
        (class (new_consumer AlertConsumer "ch-2" (Some (User.mk 7 "ada"))))
        (User.mk 7 "ada"),
      channel_name (new_consumer AlertConsumer "ch-2"
                      (Some (User.mk 7 "ada"))))
     ∉ [(user_sensors 7, "ch-1"%string)] →
     l' = [(user_sensors 7, "ch-1"%string)]).
Proof.
  apply (disconnect_undoes_connect
           (new_consumer AlertConsumer "ch-2" (Some (User.mk 7 "ada")))
           [(user_sensors 7, "ch-1"%string)] (User.mk 7 "ada")).
  reflexivity.
Defined.

(** An anonymous connection is closed without being accepted, joins no
    group and is sent nothing; the [disconnect] that follows finds no
    [group_name] on the instance and fails. *)
Theorem anonymous_connection_is_turned_away (c : consumer) (l : layer) :
  scope_user c = None →
  group_name c = None →
  (connect c l).2 = l ∧
  closed (connect c l).1 = true ∧
  accepted (connect c l).1 = accepted c ∧
  sent (connect c l).1 = sent c ∧
  disconnect (connect c l).1 (connect c l).2 = inl no_group_name.
Proof.
  intros Huser Hgroup. unfold connect, disconnect. rewrite Huser. simpl.
  by rewrite Hgroup.
Qed.

Lemma anonymous_connection_is_turned_away_witness :
  (connect (new_consumer SensorDataConsumer "ch-3" None)
     [(user_sensors 7, "ch-1"%string)]).2 = [(user_sensors 7, "ch-1"%string)] ∧
  closed (connect (new_consumer SensorDataConsumer "ch-3" None)
            [(user_sensors 7, "ch-1"%string)]).1 = true ∧
  accepted (connect (new_consumer SensorDataConsumer "ch-3" None)
              [(user_sensors 7, "ch-1"%string)]).1
  = accepted (new_consumer SensorDataConsumer "ch-3" None) ∧
  sent (connect (new_consumer SensorDataConsumer "ch-3" None)
          [(user_sensors 7, "ch-1"%string)]).1
  = sent (new_consumer SensorDataConsumer "ch-3" None) ∧
  disconnect
    (connect (new_consumer SensorDataConsumer "ch-3" None)
       [(user_sensors 7, "ch-1"%string)]).1
    (connect (new_consumer SensorDataConsumer "ch-3" None)
       [(user_sensors 7, "ch-1"%string)]).2 = inl no_group_name.
Proof.
  apply (anonymous_connection_is_turned_away
           (new_consumer SensorDataConsumer "ch-3" None)
           [(user_sensors 7, "ch-1"%string)]); reflexivity.
Defined.

Lemma owned_devices_lookup (w : world) (d : Device.t) :
  d ∈ snd <$> map_to_list (devices w) ↔ ∃ key, devices w !! key = Some d.
Proof.
  rewrite list_elem_of_fmap. split.
  - intros ([key d'] & -> & Hkd). apply elem_of_map_to_list in Hkd.
    by exists key.
  - intros [key Hkd]. exists (key, d). split; [done |].
    by apply elem_of_map_to_list.
Qed.

(** [subscribe_device] answers by ownership. With device ids unique, a
    device of the connection's user is confirmed under its name; an id
    that is no device of that user, whether it exists or not, gets the
    one error frame. *)
Theorem subscription_answers_by_ownership (c : consumer) (w : world)
    (id : Z) (user : User.t) :
  class c = SensorDataConsumer →
  scope_user c = Some user →
  NoDup (Device.id <$> (snd <$> map_to_list (devices w))) →
  (∀ key d, devices w !! key = Some d → Device.id d = id →
            Device.owner d = User.id user →
            receive (json_object (Some "subscribe_device"%string)
                       (id_uuid id)) w c
            = inr (self_send
                     (Frame.subscription_success id
                        (Device.name d +:+ " 디바이스 구독 완료")) c)) ∧
  ((∀ key d, devices w !! key = Some d → Device.id d = id →
             Device.owner d ≠ User.id user) →
   receive (json_object (Some "subscribe_device"%string) (id_uuid id)) w c
   = inr (self_send
            (Frame.error "디바이스를 찾을 수 없거나 권한이 없습니다.") c)).
Proof.
  intros Hclass Huser Hids.
  unfold receive, subscribe_to_device, get_user_device.
  rewrite Hclass, Huser. rewrite bool_decide_eq_true_2 by done. split.
  - intros key d Hd Hid Howner.
    assert (filter (λ d, Device.id d = id ∧ Device.owner d = User.id user)
              (snd <$> map_to_list (devices w)) = [d]) as ->; [| done].
    rewrite (list_filter_iff _
               (λ d, Device.owner d = User.id user ∧ Device.id d = id))
      by tauto.
    rewrite <- (list_filter_filter (λ d, Device.owner d = User.id user)
                  (λ d, Device.id d = id)).
    rewrite (filter_one Device.id id d).
    + by rewrite filter_cons_True.
    + done.
    + apply owned_devices_lookup. by exists key.
    + done.
  - intros Hforeign. rewrite filter_none; [done |].
    intros d [key Hd]%owned_devices_lookup [Hid Howner].
    by apply (Hforeign key d).
Qed.

Lemma subscription_answers_by_ownership_witness :
  (∀ key d, devices sample_world !! key = Some d → Device.id d = 11%Z →
            Device.owner d = User.id (User.mk 7 "ada") →
            receive (json_object (Some "subscribe_device"%string)
                       (id_uuid 11))
              sample_world
              (new_consumer SensorDataConsumer "ch-1"
                 (Some (User.mk 7 "ada")))
            = inr (self_send
                     (Frame.subscription_success 11
                        (Device.name d +:+ " 디바이스 구독 완료"))
                     (new_consumer SensorDataConsumer "ch-1"
                        (Some (User.mk 7 "ada"))))) ∧
  ((∀ key d, devices sample_world !! key = Some d → Device.id d = 11%Z →
             Device.owner d ≠ User.id (User.mk 7 "ada")) →
   receive (json_object (Some "subscribe_device"%string) (id_uuid 11))
     sample_world
     (new_consumer SensorDataConsumer "ch-1" (Some (User.mk 7 "ada")))
   = inr (self_send
            (Frame.error "디바이스를 찾을 수 없거나 권한이 없습니다.")
            (new_consumer SensorDataConsumer "ch-1"
               (Some (User.mk 7 "ada"))))).
Proof.
  apply (subscription_answers_by_ownership
           (new_consumer SensorDataConsumer "ch-1" (Some (User.mk 7 "ada")))
           sample_world 11 (User.mk 7 "ada")).
  - reflexivity.
  - reflexivity.
  - apply (bool_decide_unpack _). vm_compute. exact I.
Defined.

Lemma own_group_sensors (class : consumer_class) (user : User.t) (owner : Z) :
  user_sensors owner = own_group class user →
  class = SensorDataConsumer ∧ User.id user = owner.
Proof. destruct class; simpl; intros [= ->]; done. Qed.

Lemma own_group_alerts (class : consumer_class) (user : User.t) (owner : Z) :
  user_alerts owner = own_group class user →
  class = AlertConsumer ∧ User.id user = owner.
Proof. destruct class; simpl; intros [= ->]; done. Qed.

Lemma open_connection_members (class : consumer_class) (channel : string)
    (user : option User.t) (h : hub) :
  members (open_connection class channel user h) =
    match user with
    | Some user => group_add (own_group class user) channel (members h)
    | None => members h
    end.
Proof.
  unfold open_connection, connect, new_consumer. simpl.
  destruct user; [| done]. by destruct class.
Qed.

Lemma open_connection_sockets (cls : consumer_class) (channel : string)
    (user : option User.t) (h : hub) :
  ∃ c, sockets (open_connection cls channel user h) = sockets h ++ [c] ∧
       class c = cls ∧ channel_name c = channel ∧ scope_user c = user.
Proof.
  unfold open_connection, connect, new_consumer. simpl.
  destruct user; [destruct cls |]; eexists; (split; [reflexivity | done]).
Qed.

Lemma elem_of_group_add (m : group * string) (g : group) (channel : string)
    (l : layer) :
  m ∈ group_add g channel l ↔ m ∈ l ∨ m = (g, channel).
Proof.
  unfold group_add. case_bool_decide as Hin.
  - split; [auto | by intros [? | ->]].
  - rewrite elem_of_app, list_elem_of_singleton. tauto.
Qed.

(** A new connection under a channel name nobody has keeps every
    membership with a consumer of the group's class and user. *)
Lemma open_connection_joined (class : consumer_class) (channel : string)
    (user : option User.t) (h : hub) :
  joined_by_connect h →
  channel ∉ channel_name <$> sockets h →
  channel ∉ snd <$> members h →
  joined_by_connect (open_connection class channel user h).
Proof.
  intros Hjoined Hsockets Hmembers g c.
  destruct (open_connection_sockets class channel user h)
    as (c0 & -> & Hclass & Hname & Huser).
  rewrite open_connection_members.
  assert ((g, channel_name c) ∈ members h → channel_name c ≠ channel) as Hold.
  { intros Hin Heq. apply Hmembers. apply list_elem_of_fmap.
    exists (g, channel_name c). by rewrite <- Heq. }
  intros [Hc | ->%list_elem_of_singleton]%elem_of_app Hin.
  - apply (Hjoined g c Hc). destruct user as [u |]; [| done].
    apply elem_of_group_add in Hin as [Hin | [= -> Heq]]; [done |].
    destruct Hsockets. apply list_elem_of_fmap. by exists c.
  - rewrite Hname in Hin, Hold. rewrite Huser, Hclass.
    destruct user as [u |].
    + apply elem_of_group_add in Hin as [Hin | [= ->]].
      * by destruct (Hold Hin).
      * by exists u.
    + by destruct (Hold Hin).
Qed.

Lemma opened_snoc (rs : list connection) (r : connection) :
  opened (rs ++ [r]) = open_connection r.1.1 r.1.2 r.2 (opened rs).
Proof. unfold opened. by rewrite foldl_app. Qed.

Lemma opened_names (rs : list connection) :
  channel_name <$> sockets (opened rs) = (λ r, r.1.2) <$> rs ∧
  ∀ m, m ∈ members (opened rs) → m.2 ∈ (λ r, r.1.2) <$> rs.
Proof.
  induction rs as [|r rs [IHs IHm]] using rev_ind; [split; [done |] |].
  { intros m Hm. by apply elem_of_nil in Hm. }
  rewrite opened_snoc. split.
  - destruct (open_connection_sockets r.1.1 r.1.2 r.2 (opened rs))
      as (c & -> & _ & Hname & _).
    rewrite !fmap_app, IHs. simpl. by rewrite Hname.
  - intros m. rewrite open_connection_members, fmap_app, elem_of_app.
    destruct r.2 as [u |]; [| by left; apply IHm].
    intros [Hm | ->]%elem_of_group_add; [by left; apply IHm |].
    right. apply list_elem_of_here.
Qed.

Lemma opened_joined (rs : list connection) :
  NoDup ((λ r, r.1.2) <$> rs) → joined_by_connect (opened rs).
Proof.
  induction rs as [|r rs IH] using rev_ind; intros Hnames.
  { intros g c Hc. by apply elem_of_nil in Hc. }
  rewrite fmap_app in Hnames. apply NoDup_app in Hnames as (Hrs & Hr & _).
  destruct (opened_names rs) as [Hs Hm].
  rewrite opened_snoc. apply open_connection_joined.
  - by apply IH.
  - rewrite Hs. intros Hin. apply (Hr _ Hin). apply list_elem_of_here.
  - intros ([g ch] & Heq & Hin%Hm)%list_elem_of_fmap. simpl in *. subst ch.
    apply (Hr _ Hin). apply list_elem_of_here.
Qed.

(** However many connections are opened, under distinct channel names, a
    message to a user's sensors group is handled only by
    [SensorDataConsumer]s of that user, and one to a user's alerts group
    only by [AlertConsumer]s of that user. *)
Theorem groups_reach_their_own_user_only (rs : list connection)
    (c : consumer) (g : group) :
  NoDup ((λ r, r.1.2) <$> rs) →
  c ∈ sockets (opened rs) →
  channel_name c ∈ recipients g (members (opened rs)) →
  ∃ user,
    scope_user c = Some user ∧
    match g with
    | user_sensors owner =>
        class c = SensorDataConsumer ∧ User.id user = owner
    | user_alerts owner => class c = AlertConsumer ∧ User.id user = owner
    end.
Proof.
  intros Hnames Hc Hin%elem_of_recipients.
  destruct (opened_joined rs Hnames g c Hc Hin) as (user & Huser & Hg).
  exists user. split; [done |]. destruct g.
  - by apply own_group_sensors in Hg.
  - by apply own_group_alerts in Hg.
Qed.

Lemma groups_reach_their_own_user_only_witness :
  ∃ user,
    scope_user
      (self_send
         (Frame.connection_established
            ("실시간 센서 데이터 연결됨 (사용자: " +:+ "ada" +:+ ")"))
         (Consumer SensorDataConsumer "ch-1" (Some (User.mk 7 "ada"))
            (Some (user_sensors 7)) true false []))
    = Some user ∧
    class
      (self_send
         (Frame.connection_established
            ("실시간 센서 데이터 연결됨 (사용자: " +:+ "ada" +:+ ")"))
         (Consumer SensorDataConsumer "ch-1" (Some (User.mk 7 "ada"))
            (Some (user_sensors 7)) true false []))
    = SensorDataConsumer ∧ User.id user = 7%Z.
Proof.
  apply (groups_reach_their_own_user_only family
           (self_send
              (Frame.connection_established
                 ("실시간 센서 데이터 연결됨 (사용자: " +:+ "ada" +:+ ")"))
              (Consumer SensorDataConsumer "ch-1" (Some (User.mk 7 "ada"))
                 (Some (user_sensors 7)) true false []))
           (user_sensors 7)).
  - apply (bool_decide_unpack _). vm_compute. exact I.
  - apply list_elem_of_here.
  - apply list_elem_of_here.
Defined.

(* ===================================================================== *)
(** * From the request to the browser *)
(* ===================================================================== *)

Lemma publish_app (l1 l2 : list effect) (h : hub) :
  publish (l1 ++ l2) h = publish l2 (publish l1 h).
Proof.
  revert h. induction l1 as [|e l1 IH]; intros h; [done |].
  destruct e; simpl; apply IH.
Qed.

Lemma publish_silent (l : list effect) (h : hub) :
  Forall (λ e, negb (is_reading_event e) && negb (is_alert_event e)) l →
  publish l h = h.
Proof.
  induction 1 as [|e l He _ IH]; [done |].
  destruct e as [| | | | | | | |g []]; simpl in *; done.
Qed.

Lemma publish_evaluation (l : list effect) (h : hub) :
  Forall is_evaluation l → publish l h = h.
Proof.
  intros Hl. apply publish_silent. eapply Forall_impl; [exact Hl |].
  by intros [].
Qed.

Lemma publish_device_lookup (l : list effect) (h : hub) :
  Forall is_device_lookup l → publish l h = h.
Proof.
  intros Hl. apply publish_silent. eapply Forall_impl; [exact Hl |].
  by intros [].
Qed.

(** [json.dumps] refuses the data of both read serializers: the
    ['device'] key holds a [uuid.UUID]. *)
Lemma SensorDataSerializer_data_refused (instance : SensorData.t) :
  serializable (SensorDataSerializer_data instance) = false.
Proof. reflexivity. Qed.

Lemma AlertSerializer_data_refused (instance : Alert.t) :
  serializable (AlertSerializer_data instance) = false.
Proof.
  unfold AlertSerializer_data. by destruct (Alert.id instance).
Qed.

Lemma dispatch_reading (c : consumer) (reading : SensorData.t) :
  class c = SensorDataConsumer →
  dispatch (sensor_data_update reading) c = inl not_serializable.
Proof. intros Hclass. unfold dispatch. by rewrite Hclass. Qed.

Lemma dispatch_alerts_group (c : consumer) (alert : Alert.t) (t : Z) :
  class c = AlertConsumer →
  dispatch (alert_notification alert (Some t)) c = inl not_serializable.
Proof.
  intros Hclass. unfold dispatch, send_json. rewrite Hclass.
  cbn [Frame.serializable]. by rewrite AlertSerializer_data_refused.
Qed.

Lemma dispatch_sensors_group (c : consumer) (alert : Alert.t)
    (t : option Z) :
  class c = SensorDataConsumer →
  dispatch (alert_notification alert t) c = inl not_serializable.
Proof.
  intros Hclass. unfold dispatch, send_json. rewrite Hclass.
  cbn [Frame.serializable]. by rewrite AlertSerializer_data_refused.
Qed.

Lemma lose_connection_closed (c : consumer) :
  closed c = true → lose_connection c = c.
Proof. destruct c. simpl. by intros ->. Qed.

(** A message whose handler fails at every member of its group leaves the
    members that were still connected without their connection, and
    changes nothing else. *)
Lemma deliver_fails (g : group) (e : event) (h : hub) :
  (∀ c, c ∈ sockets h → channel_name c ∈ recipients g (members h) →
        ∃ why, dispatch e c = inl why) →
  deliver g e h =
    Hub (members h)
        ((λ c, if bool_decide (channel_name c ∈ recipients g (members h))
               then lose_connection c else c)
           <$> sockets h).
Proof.
  intros Hfails. unfold deliver. f_equal.
  apply Forall_fmap_ext_1, Forall_forall. intros c Hc.
  case_bool_decide as Hin; [| done]. simpl.
  destruct (closed c) eqn:Hclosed; simpl.
  - by rewrite lose_connection_closed.
  - by destruct (Hfails c Hc Hin) as [why ->].
Qed.

(** An ingest request seen from the browsers. A refused request reaches no
    connection. An accepted one reaches the connections in the sensors
    group of the device's owner, where [sensor_data_update] fails:
    [json.dumps] raises [TypeError] on the device id in the serializer
    data, so no frame is sent and every such connection is lost. No other
    connection changes, and nothing of the alerts the request stored is
    sent to anyone. *)
Theorem reading_event_fails_in_owner_sockets (data : request_data)
    (w : world) (h : hub) :
  joined_by_connect h →
  let w' := (receive_sensor_data data w).2 in
  ∃ l,
    log w' = log w ++ l ∧
    members (publish l h) = members h ∧
    sent <$> sockets (publish l h) = sent <$> sockets h ∧
    ((sensor_data w' = sensor_data w ∧ sockets (publish l h) = sockets h) ∨
     (∃ reading,
        let g := user_sensors (Device.owner (SensorData.device reading)) in
        sensor_data w' = sensor_data w ++ [reading] ∧
        (∀ c, c ∈ sockets h →
              channel_name c ∈ recipients g (members h) →
              dispatch (sensor_data_update reading) c
              = inl not_serializable) ∧
        sockets (publish l h) =
          (λ c, if bool_decide (channel_name c ∈ recipients g (members h))
                then lose_connection c else c)
            <$> sockets h)).
Proof.
  intros Hjoined w'. subst w'.
  destruct (ingest_log_shape data w)
    as [(l & Hlog & Hl & Hsame) | (key & reading & post & Hlog & Hpost & Hnew)].
  - exists l. rewrite publish_device_lookup by done.
    do 3 (split; [done |]). by left.
  - exists (ingest_prefix key reading ++ post). split; [done |].
    rewrite publish_app. unfold ingest_prefix. simpl.
    rewrite publish_evaluation by done.
    assert (∀ c, c ∈ sockets h →
                 channel_name c
                 ∈ recipients
                     (user_sensors (Device.owner (SensorData.device reading)))
                     (members h) →
                 dispatch (sensor_data_update reading) c
                 = inl not_serializable) as Hfails.
    { intros c Hc Hin%elem_of_recipients.
      destruct (Hjoined _ c Hc Hin) as (user & _ & Hg).
      apply own_group_sensors in Hg as [Hclass _].
      by apply dispatch_reading. }
    rewrite deliver_fails by (intros c Hc Hin; eexists; by apply Hfails).
    split; [done |]. simpl. split.
    + rewrite <- list_fmap_compose. apply Forall_fmap_ext_1, Forall_forall.
      intros c _. simpl. by case_bool_decide.
    + right. by exists reading.
Qed.

Lemma reading_event_fails_in_owner_sockets_witness :
  let h := opened family in
  let data := JSON_object (sample_payload "key-greenhouse" 36 50 100) in
  let w' := (receive_sensor_data data sample_world).2 in
  ∃ l,
    log w' = log sample_world ++ l ∧
    members (publish l h) = members h ∧
    sent <$> sockets (publish l h) = sent <$> sockets h ∧
    ((sensor_data w' = sensor_data sample_world ∧
      sockets (publish l h) = sockets h) ∨
     (∃ reading,
        let g := user_sensors (Device.owner (SensorData.device reading)) in
        sensor_data w' = sensor_data sample_world ++ [reading] ∧
        (∀ c, c ∈ sockets h →
              channel_name c ∈ recipients g (members h) →
              dispatch (sensor_data_update reading) c
              = inl not_serializable) ∧
        sockets (publish l h) =
          (λ c, if bool_decide (channel_name c ∈ recipients g (members h))
                then lose_connection c else c)
            <$> sockets h)).
Proof.
  apply (reading_event_fails_in_owner_sockets
           (JSON_object (sample_payload "key-greenhouse" 36 50 100))
           sample_world (opened family)).
  apply opened_joined. apply (bool_decide_unpack _). vm_compute. exact I.
Defined.

(** An alert stored with [save()] seen from the browsers: the message
    reaches the alerts connections and the sensors connections of the
    device's owner, and in both [alert_notification] fails, because
    [json.dumps] raises [TypeError] on the device id in the serializer
    data. No frame is sent, those connections are lost, and no other
    connection changes. *)
Theorem saved_alert_fails_in_both_groups (a : Alert.t) (w : world)
    (h : hub) :
  Alert.id a = None →
  joined_by_connect h →
  ∃ obj l,
    let owner := Device.owner (Alert.device a) in
    (Alert_save a w).1 = Return obj ∧
    alerts (Alert_save a w).2 = alerts w ++ [obj] ∧
    log (Alert_save a w).2 = log w ++ l ∧
    members (publish l h) = members h ∧
    sent <$> sockets (publish l h) = sent <$> sockets h ∧
    (∀ c, c ∈ sockets h →
          channel_name c ∈ recipients (user_alerts owner) (members h) →
          dispatch (alert_notification obj (Some (clock w))) c
          = inl not_serializable) ∧
    (∀ c, c ∈ sockets h →
          channel_name c ∈ recipients (user_sensors owner) (members h) →
          dispatch (alert_notification obj None) c = inl not_serializable) ∧
    sockets (publish l h) =
      (λ c, if bool_decide
                 (channel_name c
                  ∈ recipients (user_alerts owner) (members h))
               || bool_decide
                    (channel_name c
                     ∈ recipients (user_sensors owner) (members h))
            then lose_connection c else c)
        <$> sockets h.
Proof.
  intros Hid Hjoined.
  assert (∀ obj t c, c ∈ sockets h →
            channel_name c
            ∈ recipients (user_alerts (Device.owner (Alert.device a)))
                (members h) →
            dispatch (alert_notification obj (Some t)) c
            = inl not_serializable) as Halerts.
  { intros obj t c Hc Hin%elem_of_recipients.
    destruct (Hjoined _ c Hc Hin) as (user & _ & Hg).
    apply own_group_alerts in Hg as [Hclass _].
    by apply dispatch_alerts_group. }
  assert (∀ obj t c, c ∈ sockets h →
            channel_name c
            ∈ recipients (user_sensors (Device.owner (Alert.device a)))
                (members h) →
            dispatch (alert_notification obj t) c
            = inl not_serializable) as Hsensors.
  { intros obj t c Hc Hin%elem_of_recipients.
    destruct (Hjoined _ c Hc Hin) as (user & _ & Hg).
    apply own_group_sensors in Hg as [Hclass _].
    by apply dispatch_sensors_group. }
  unfold Alert_save, alert_created, timezone_now, bind, record, ret.
  rewrite Hid. simpl.
  eexists _, _. split; [reflexivity |]. split; [reflexivity |].
  split; [by rewrite <- !app_assoc |]. cbn [publish app].
  rewrite (deliver_fails (user_alerts _))
    by (intros c Hc Hin; eexists; by apply Halerts).
  set (h1 := Hub _ _).
  assert (∀ c, c ∈ sockets h1 →
               channel_name c
               ∈ recipients (user_sensors (Device.owner (Alert.device a)))
                   (members h1) →
               ∃ why,
                 dispatch
                   (alert_notification
                      (Alert.mk (Some (alert_seq w)) (Alert.device a)
                         (Alert.alert_type a) (Alert.threshold_value a)
                         (Alert.current_value a) (Alert.status a)
                         (Alert.message a) (Some (clock w))
                         (Alert.resolved_at a)) None) c = inl why) as Hone.
  { intros c Hc Hin. subst h1. simpl in Hc, Hin.
    apply list_elem_of_fmap in Hc as (c0 & -> & Hc0).
    assert (class (if bool_decide
                        (channel_name c0
                         ∈ recipients
                             (user_alerts (Device.owner (Alert.device a)))
                             (members h))
                   then lose_connection c0 else c0) = class c0) as Hclass
      by (by case_bool_decide).
    unfold dispatch, send_json. rewrite Hclass.
    destruct (class c0); [| by eexists].
    cbn [Frame.serializable]. rewrite AlertSerializer_data_refused.
    by eexists. }
  rewrite (deliver_fails (user_sensors _)) by exact Hone.
  subst h1. simpl.
  split; [done |]. split.
  { rewrite <- !list_fmap_compose. apply Forall_fmap_ext_1, Forall_forall.
    intros c _. simpl. by repeat case_bool_decide. }
  split; [by apply Halerts |]. split; [by apply Hsensors |].
  rewrite <- list_fmap_compose. apply Forall_fmap_ext_1, Forall_forall.
  intros c Hc. simpl.
  assert (channel_name (lose_connection c) = channel_name c) as Hname
    by done.
  assert (lose_connection (lose_connection c) = lose_connection c) as Htwice
    by done.
  repeat case_bool_decide; simpl; congruence.
Qed.

Lemma saved_alert_fails_in_both_groups_witness :
  ∃ obj l,
    let owner :=
      Device.owner
        (Alert.device (Alert.new greenhouse humidity_low 20 10 [])) in
    (Alert_save (Alert.new greenhouse humidity_low 20 10 []) sample_world).1
    = Return obj ∧
    alerts (Alert_save (Alert.new greenhouse humidity_low 20 10 [])
              sample_world).2 = alerts sample_world ++ [obj] ∧
    log (Alert_save (Alert.new greenhouse humidity_low 20 10 [])
           sample_world).2 = log sample_world ++ l ∧
    members (publish l (opened family)) = members (opened family) ∧
    sent <$> sockets (publish l (opened family))
    = sent <$> sockets (opened family) ∧
    (∀ c, c ∈ sockets (opened family) →
          channel_name c
          ∈ recipients (user_alerts owner) (members (opened family)) →
          dispatch (alert_notification obj (Some (clock sample_world))) c
          = inl not_serializable) ∧
    (∀ c, c ∈ sockets (opened family) →
          channel_name c
          ∈ recipients (user_sensors owner) (members (opened family)) →
          dispatch (alert_notification obj None) c = inl not_serializable) ∧
    sockets (publish l (opened family)) =
      (λ c, if bool_decide
                 (channel_name c
                  ∈ recipients (user_alerts owner) (members (opened family)))
               || bool_decide
                    (channel_name c
                     ∈ recipients (user_sensors owner)
                         (members (opened family)))
            then lose_connection c else c)
        <$> sockets (opened family).
Proof.
  apply (saved_alert_fails_in_both_groups
           (Alert.new greenhouse humidity_low 20 10 []) sample_world
           (opened family)).
  - reflexivity.
  - apply opened_joined. apply (bool_decide_unpack _). vm_compute. exact I.
Defined.

(* ===================================================================== *)
(** * The latest reading of a device *)
(* ===================================================================== *)

#[local] Instance latest_first_total : Total latest_first.
Proof. intros a b. unfold latest_first. lia. Qed.

#[local] Instance latest_first_trans : Transitive latest_first.
Proof. intros a b c. unfold latest_first. lia. Qed.

(** The first row of a sorted selection is the row every other one is
    sorted after. *)
Lemma head_merge_sort {A} (R : relation A) `{!RelDecision R} `{!Total R}
    `{!Transitive R} (l : list A) (x : A) :
  x ∈ l →
  ∃ y, head (merge_sort R l) = Some y ∧ y ∈ l ∧ R y x.
Proof.
  intros Hx.
  pose proof (StronglySorted_merge_sort R l) as Hsorted.
  pose proof (merge_sort_Permutation R l) as Hperm.
  revert Hsorted Hperm. generalize (merge_sort R l). intros s Hsorted Hperm.
  rewrite <- Hperm in Hx.
  destruct s as [|y s]; [by apply elem_of_nil in Hx |].
  exists y. split; [done |].
  split; [rewrite <- Hperm; apply list_elem_of_here |].
  apply elem_of_cons in Hx as [-> | Hx].
  - by destruct (total R y y).
  - apply StronglySorted_inv in Hsorted as [_ Hy].
    rewrite Forall_forall in Hy. by apply Hy.
Qed.

(** When every stored reading is older than the server clock, an accepted
    ingest makes its reading the latest of its device. A
    [get_latest_data] request is then answered from the latest readings
    of the user's devices, each a stored one: with an empty
    [latest_data] frame when there is none, and otherwise with no frame
    at all, because [json.dumps] raises [TypeError] on the device id in
    the serializer data and [receive] does not catch it. So the owner of
    the device gets no answer. *)
Theorem latest_data_fails_once_a_reading_is_stored (data : request_data)
    (w w' : world) (data_id timestamp : Z) (name : string) (c : consumer)
    (user : User.t) (device_id : json_id) :
  receive_sensor_data data w
  = (Return (HTTP_201_CREATED data_id timestamp name), w') →
  (∀ r, r ∈ sensor_data w → (SensorData.timestamp r < clock w)%Z) →
  class c = SensorDataConsumer →
  scope_user c = Some user →
  ∃ reading latest,
    sensor_data w' = sensor_data w ++ [reading] ∧
    latest_of (SensorData.device reading) w' = Some reading ∧
    get_latest_sensor_data (Some user) w'
    = inr (SensorDataSerializer_data <$> latest) ∧
    (Device.owner (SensorData.device reading) = User.id user →
     reading ∈ latest) ∧
    (∀ r, r ∈ latest →
          r ∈ sensor_data w' ∧
          ∃ key d, devices w' !! key = Some d ∧
                   Device.owner d = User.id user ∧
                   Device.id (SensorData.device r) = Device.id d) ∧
    receive (json_object (Some "get_latest_data"%string) device_id) w' c
    = match latest with
      | [] => inr (self_send (Frame.latest_data []) c)
      | _ => inl not_serializable
      end ∧
    (Device.owner (SensorData.device reading) = User.id user →
     receive (json_object (Some "get_latest_data"%string) device_id) w' c
     = inl not_serializable).
Proof.
  intros Hrun Holder Hclass Huser.
  destruct (ingest_outcome data w)
    as [(errors & w0 & Hrun0 & _)
       | (v & d & w0 & _ & Hd & _ & Hrun0 & Hdev & Hsd & _)];
    rewrite Hrun in Hrun0; [done |].
  injection Hrun0 as -> -> -> <-.
  set (reading := new_reading w d v) in *.
  assert (latest_of d w' = Some reading) as Hlatest.
  { unfold latest_of. rewrite Hsd, filter_app.
    rewrite (filter_cons_True _ reading) by done. rewrite filter_nil.
    destruct (head_merge_sort latest_first
                (filter (λ r, Device.id (SensorData.device r) = Device.id d)
                        (sensor_data w) ++ [reading]) reading)
      as (y & -> & Hy & Hle).
    { apply elem_of_app. right. apply list_elem_of_here. }
    apply elem_of_app in Hy as [Hy | ->%list_elem_of_singleton]; [| done].
    apply list_elem_of_filter in Hy as [_ Hy]. apply Holder in Hy.
    unfold latest_first in Hle. simpl in Hle. lia. }
  set (latest := omap (λ device, latest_of device w')
                   (filter (λ d, Device.owner d = User.id user)
                           (snd <$> map_to_list (devices w')))).
  assert (Device.owner d = User.id user → reading ∈ latest) as Hshown.
  { intros Howner. apply list_elem_of_omap. exists d. split; [| done].
    apply list_elem_of_filter. split; [done |].
    apply owned_devices_lookup. exists (v_api_key v). by rewrite Hdev. }
  assert (receive (json_object (Some "get_latest_data"%string) device_id)
            w' c
          = match latest with
            | [] => inr (self_send (Frame.latest_data []) c)
            | _ => inl not_serializable
            end) as Hanswer.
  { unfold receive, send_latest_data, get_latest_sensor_data, send_json.
    rewrite Hclass, Huser.
    rewrite bool_decide_eq_false_2 by done.
    rewrite bool_decide_eq_true_2 by done.
    rewrite <- (list_fmap_omap (λ device, latest_of device w')
                  SensorDataSerializer_data).
    fold latest. by destruct latest. }
  exists reading, latest. split; [exact Hsd |]. split; [exact Hlatest |].
  split.
  { unfold get_latest_sensor_data.
    by rewrite <- (list_fmap_omap (λ device, latest_of device w')
                     SensorDataSerializer_data). }
  split; [exact Hshown |]. split; [| split; [exact Hanswer |]].
  - intros r (d' & [Howner Hd']%list_elem_of_filter & Hr)%list_elem_of_omap.
    apply owned_devices_lookup in Hd' as [key Hd'].
    unfold latest_of in Hr. apply head_Some_elem_of in Hr.
    rewrite merge_sort_Permutation in Hr.
    apply list_elem_of_filter in Hr as [Hid Hr].
    split; [done |]. by exists key, d'.
  - intros Howner. rewrite Hanswer.
    specialize (Hshown Howner). destruct latest; [| done].
    by apply elem_of_nil in Hshown.
Qed.

Lemma latest_data_fails_once_a_reading_is_stored_witness :
  ∃ reading latest,
    sensor_data
      (receive_sensor_data
         (JSON_object (sample_payload "key-greenhouse" 20 50 100))
         history_world).2
    = sensor_data history_world ++ [reading] ∧
    latest_of (SensorData.device reading)
      (receive_sensor_data
         (JSON_object (sample_payload "key-greenhouse" 20 50 100))
         history_world).2
    = Some reading ∧
    get_latest_sensor_data (Some (User.mk 7 "ada"))
      (receive_sensor_data
         (JSON_object (sample_payload "key-greenhouse" 20 50 100))
         history_world).2
    = inr (SensorDataSerializer_data <$> latest) ∧
    (Device.owner (SensorData.device reading) = User.id (User.mk 7 "ada") →
     reading ∈ latest) ∧
    (∀ r, r ∈ latest →
          r ∈ sensor_data
                (receive_sensor_data
                   (JSON_object (sample_payload "key-greenhouse" 20 50 100))
                   history_world).2 ∧
          ∃ key d,
            devices
              (receive_sensor_data
                 (JSON_object (sample_payload "key-greenhouse" 20 50 100))
                 history_world).2 !! key = Some d ∧
            Device.owner d = User.id (User.mk 7 "ada") ∧
            Device.id (SensorData.device r) = Device.id d) ∧
    receive (json_object (Some "get_latest_data"%string) id_absent)
      (receive_sensor_data
         (JSON_object (sample_payload "key-greenhouse" 20 50 100))
         history_world).2
      (new_consumer SensorDataConsumer "ch-1" (Some (User.mk 7 "ada")))
    = match latest with
      | [] =>
          inr (self_send (Frame.latest_data [])
                 (new_consumer SensorDataConsumer "ch-1"
                    (Some (User.mk 7 "ada"))))
      | _ => inl not_serializable
      end ∧
    (Device.owner (SensorData.device reading) = User.id (User.mk 7 "ada") →
     receive (json_object (Some "get_latest_data"%string) id_absent)
       (receive_sensor_data
          (JSON_object (sample_payload "key-greenhouse" 20 50 100))
          history_world).2
       (new_consumer SensorDataConsumer "ch-1" (Some (User.mk 7 "ada")))
     = inl not_serializable).
Proof.
  apply (latest_data_fails_once_a_reading_is_stored
           (JSON_object (sample_payload "key-greenhouse" 20 50 100))
           history_world _ 2 1000 "greenhouse"
           (new_consumer SensorDataConsumer "ch-1" (Some (User.mk 7 "ada")))
           (User.mk 7 "ada") id_absent).
  - vm_compute. reflexivity.
  - intros r Hr. apply list_elem_of_singleton in Hr. subst r.
    vm_compute. reflexivity.
  - reflexivity.
  - reflexivity.
Defined.

(* ===================================================================== *)
(** * The dashboard *)
(* ===================================================================== *)

Lemma length_omap_le {A B} (f : A → option B) (l : list A) :
  length (omap f l) ≤ length l.
Proof.
  induction l as [|a l IH]; [done |].
  change (omap f (a :: l))
    with (match f a with Some b => b :: omap f l | None => omap f l end).
  destruct (f a); simpl; lia.
Qed.

Lemma dashboard_summary_run (request : Request) (w : world) :
  ∃ s,
    dashboard_summary request w = (Return s, w) ∧
    Summary.total_devices s = length (user_devices request w) ∧
    Summary.active_devices s =
      length (filter (λ d, Device.is_active d = true)
                (user_devices request w)) ∧
    Summary.recent_data_count s =
      length (filter (λ r, Device.id (SensorData.device r)
                           ∈ Device.id <$> user_devices request w
                           ∧ (clock w - timedelta_hours 24
                              ≤ SensorData.timestamp r)%Z)
                (sensor_data w)) ∧
    Summary.active_alerts_count s =
      length (filter (listed_as_active request w) (alerts w)) ∧
    length (Summary.latest_readings s) ≤ Summary.active_devices s.
Proof.
  eexists. split; [reflexivity |]. simpl. do 4 (split; [reflexivity |]).
  apply length_omap_le.
Qed.

(** The dashboard and the alert list agree: the number of active alerts
    [dashboard_summary] reports is the length of the list
    [AlertViewSet.active] serves the same user; and the summary lists at
    most one latest reading for each active device, of which there are no
    more than devices. *)
Theorem dashboard_agrees_with_active_list (request : Request) (w : world) :
  ∃ s listed,
    dashboard_summary request w = (Return s, w) ∧
    active_alerts request w = (Return listed, w) ∧
    Summary.active_alerts_count s = length listed ∧
    length (Summary.latest_readings s) ≤ Summary.active_devices s ∧
    Summary.active_devices s ≤ Summary.total_devices s.
Proof.
  destruct (dashboard_summary_run request w)
    as (s & Hrun & Htotal & Hactive & _ & Halerts & Hlatest).
  exists s. eexists. split; [exact Hrun |].
  split; [apply active_alerts_run |].
  split; [by rewrite Halerts, merge_sort_Permutation |].
  split; [exact Hlatest |].
  rewrite Hactive, Htotal. apply length_filter.
Qed.

Lemma omap_ext_Forall {A B} (f g : A → option B) (l : list A) :
  Forall (λ a, f a = g a) l → omap f l = omap g l.
Proof.
  induction 1 as [|a l Ha _ IH]; [done |].
  csimpl. rewrite Ha, IH. done.
Qed.

(** An accepted ingest seen on the dashboard. The device counts stay. For
    the owner of the device the count of recent readings rises by one and
    the count of active alerts by the number of alerts the reading raised;
    for a user who owns no device with that id the summary is what it
    was. *)
Theorem ingest_moves_owner_dashboard (data : request_data)
    (w w' : world)
    (data_id timestamp : Z) (name : string) (viewer : Request) :
  receive_sensor_data data w
  = (Return (HTTP_201_CREATED data_id timestamp name), w') →
  ∃ reading rows before after,
    sensor_data w' = sensor_data w ++ [reading] ∧
    alerts w' = alerts w ++ rows ∧
    dashboard_summary viewer w = (Return before, w) ∧
    dashboard_summary viewer w' = (Return after, w') ∧
    Summary.total_devices after = Summary.total_devices before ∧
    Summary.active_devices after = Summary.active_devices before ∧
    (Device.owner (SensorData.device reading) = user viewer →
     Summary.recent_data_count after
     = S (Summary.recent_data_count before) ∧
     Summary.active_alerts_count after
     = Summary.active_alerts_count before + length rows) ∧
    (Device.id (SensorData.device reading)
       ∉ Device.id <$> user_devices viewer w →
     after = before).
Proof.
  intros Hrun.
  destruct (ingest_outcome data w)
    as [(errors & w0 & Hrun0 & _)
       | (v & d & w0 & _ & Hd & _ & Hrun0 & Hdev & Hsd & Hal & _ & _ & _
          & Hclock)];
    rewrite Hrun in Hrun0; [done |].
  injection Hrun0 as -> -> -> <-.
  set (reading := new_reading w d v) in *.
  set (rows := assign_pks _ _ _) in *.
  assert (user_devices viewer w' = user_devices viewer w) as Hsame
    by (unfold user_devices; by rewrite Hdev).
  assert (Forall (λ a, Alert.device a = d ∧ Alert.status a = active) rows)
    as Hrows.
  { eapply assign_pks_Forall; [| apply (alerts_to_create_fresh reading)].
    by intros a k (_ & _ & ? & _ & ? & _). }
  exists reading, rows. eexists _, _.
  split; [exact Hsd |]. split; [exact Hal |].
  split; [reflexivity |]. split; [reflexivity |].
  unfold dashboard_summary, timezone_now, bind. simpl.
  rewrite Hsame, Hclock, Hsd, Hal, !filter_app, !length_app.
  split; [done |]. split; [done |]. split.
  - intros Howner.
    assert (Device.id d ∈ Device.id <$> user_devices viewer w) as Hmine.
    { apply list_elem_of_fmap. exists d. split; [done |].
      apply list_elem_of_filter. split; [done |].
      apply owned_devices_lookup. by exists (v_api_key v). }
    split.
    + rewrite (filter_cons_True _ reading).
      * simpl. lia.
      * split; [done |]. unfold timedelta_hours. simpl. lia.
    + f_equal. f_equal. apply filter_all.
      eapply Forall_impl; [exact Hrows |].
      intros a [-> ->]. by split.
  - intros Hforeign.
    rewrite (filter_cons_False _ reading) by (by intros [? _]).
    rewrite (filter_none _ rows).
    + rewrite filter_nil. simpl. rewrite !Nat.add_0_r. f_equal.
      apply omap_ext_Forall, Forall_forall.
      intros d' [_ Hd']%list_elem_of_filter.
      unfold latest_of. rewrite Hsd, filter_app.
      rewrite (filter_cons_False _ reading); [by rewrite filter_nil, app_nil_r |].
      simpl. intros Heq. apply Hforeign. rewrite Heq.
      apply list_elem_of_fmap. by exists d'.
    + intros a Ha [Hin _]. rewrite Forall_forall in Hrows.
      destruct (Hrows a Ha) as [Hda _]. by rewrite Hda in Hin.
Qed.

Lemma ingest_moves_owner_dashboard_witness :
  ∃ reading rows before after,
    sensor_data
      (receive_sensor_data
         (JSON_object (sample_payload "key-greenhouse" 36.0 85.0 600))
         alert_world).2
    = sensor_data alert_world ++ [reading] ∧
    alerts
      (receive_sensor_data
         (JSON_object (sample_payload "key-greenhouse" 36.0 85.0 600))
         alert_world).2
    = alerts alert_world ++ rows ∧
    dashboard_summary (mkRequest 7 None) alert_world
    = (Return before, alert_world) ∧
    dashboard_summary (mkRequest 7 None)
      (receive_sensor_data
         (JSON_object (sample_payload "key-greenhouse" 36.0 85.0 600))
         alert_world).2
    = (Return after,
       (receive_sensor_data
          (JSON_object (sample_payload "key-greenhouse" 36.0 85.0 600))
          alert_world).2) ∧
    Summary.total_devices after = Summary.total_devices before ∧
    Summary.active_devices after = Summary.active_devices before ∧
    (Device.owner (SensorData.device reading) = user (mkRequest 7 None) →
     Summary.recent_data_count after
     = S (Summary.recent_data_count before) ∧
     Summary.active_alerts_count after
     = Summary.active_alerts_count before + length rows) ∧
    (Device.id (SensorData.device reading)
       ∉ Device.id <$> user_devices (mkRequest 7 None) alert_world →
     after = before).
Proof.
  apply (ingest_moves_owner_dashboard
           (JSON_object (sample_payload "key-greenhouse" 36.0 85.0 600))
           alert_world _
           1 1000 "greenhouse" (mkRequest 7 None)).
  vm_compute. reflexivity.
Defined.

(* ===================================================================== *)
(** * The test data command *)
(* ===================================================================== *)

Lemma timedelta_in_range (seconds : Z) :
  (datetime_min - datetime_max ≤ seconds ≤ datetime_max - datetime_min)%Z →
  timedelta seconds = Some seconds.
Proof.
  unfold datetime_min, datetime_max, timedelta. intros [Hlo Hhi].
  rewrite bool_decide_eq_true_2; [done |]. split.
  - apply Z.div_le_lower_bound; lia.
  - apply Z.div_le_upper_bound; lia.
Qed.

Lemma datetime_add_in_range (t delta : Z) :
  (datetime_min ≤ t + delta ≤ datetime_max)%Z →
  datetime_add t delta = Some (t + delta)%Z.
Proof. intros Hr. unfold datetime_add. by rewrite bool_decide_eq_true_2. Qed.

(** The loop with a positive interval: one data point for each multiple of
    the interval that fits between [current_time] and [end_time]. *)
Lemma generate_run (n : nat) (draw : nat → Z → Sample.t) (device : Device.t)
    (interval end_time : Z) :
  (0 < interval)%Z →
  (end_time + 60 * interval ≤ datetime_max)%Z →
  ∀ (current_time : Z) (data_points : list DataPoint.t) (count : nat),
    (datetime_min ≤ current_time ≤ end_time)%Z →
    Z.of_nat n = ((end_time - current_time) `div` (60 * interval))%Z →
    ∃ new,
      generate (S (S n)) draw device interval end_time current_time
        data_points count
      = Some (inr (data_points ++ new, count + S n)) ∧
      length new = S n ∧
      ∀ j, j < S n →
           new !! j =
             Some (DataPoint.mk device
                     (draw (count + j)
                        (current_time + Z.of_nat j * (60 * interval))%Z)
                     (current_time + Z.of_nat j * (60 * interval))%Z).
Proof.
  intros Hpos Hmax.
  induction n as [|n IH]; intros current_time data_points count Hrange Hn.
  - assert (end_time - current_time < 60 * interval)%Z as Hlast.
    { destruct (decide (end_time - current_time < 60 * interval)%Z);
        [done |].
      assert (1 ≤ (end_time - current_time) `div` (60 * interval))%Z
        by (apply Z.div_le_lower_bound; lia).
      lia. }
    exists [DataPoint.mk device (draw count current_time) current_time].
    split; [| split].
    + simpl. rewrite bool_decide_eq_true_2 by lia.
      rewrite timedelta_in_range
        by (unfold datetime_min, datetime_max in *; lia).
      rewrite datetime_add_in_range by lia.
      rewrite bool_decide_eq_false_2 by lia.
      by rewrite Nat.add_1_r.
    + done.
    + intros [|j] Hj; [| lia]. simpl.
      by rewrite Nat.add_0_r, Z.add_0_r.
  - assert (60 * interval ≤ end_time - current_time)%Z as Hmore.
    { destruct (decide (60 * interval ≤ end_time - current_time)%Z);
        [done |].
      rewrite Z.div_small in Hn by lia. lia. }
    destruct (IH (current_time + 60 * interval)%Z
                (data_points
                 ++ [DataPoint.mk device (draw count current_time)
                       current_time])
                (S count)) as (new & Hrun & Hlen & Hnew).
    { lia. }
    { replace (end_time - (current_time + 60 * interval))%Z
        with (end_time - current_time + (-1) * (60 * interval))%Z by lia.
      rewrite Z.div_add by lia. lia. }
    exists (DataPoint.mk device (draw count current_time) current_time
            :: new).
    split; [| split].
    + change (generate (S (S (S n))) draw device interval end_time
                current_time data_points count)
        with (if bool_decide (current_time ≤ end_time)%Z then
                match timedelta (60 * interval) with
                | None => Some (inl overflow)
                | Some minutes =>
                    match datetime_add current_time minutes with
                    | None => Some (inl overflow)
                    | Some current_time' =>
                        generate (S (S n)) draw device interval end_time
                          current_time'
                          (data_points
                           ++ [DataPoint.mk device (draw count current_time)
                                 current_time])
                          (S count)
                    end
                end
              else Some (inr (data_points, count))).
      rewrite bool_decide_eq_true_2 by lia.
      rewrite timedelta_in_range
        by (unfold datetime_min, datetime_max in *; lia).
      rewrite datetime_add_in_range by lia.
      rewrite Hrun, <- app_assoc. simpl.
      do 3 f_equal. lia.
    + simpl. by rewrite Hlen.
    + intros [|j] Hj.
      * simpl. by rewrite Nat.add_0_r, Z.add_0_r.
      * change ((DataPoint.mk device (draw count current_time) current_time
                 :: new) !! S j) with (new !! j).
        rewrite Hnew by lia.
        replace (S count + j) with (count + S j) by lia.
        replace (current_time + 60 * interval
                 + Z.of_nat j * (60 * interval))%Z
          with (current_time + Z.of_nat (S j) * (60 * interval))%Z by lia.
        done.
Qed.

Lemma get_or_create_frame (user uuid4 : Z) (w w1 : world) (device : Device.t)
    (created : bool) :
  get_or_create user uuid4 w = inr (device, created, w1) →
  sensor_data w1 = sensor_data w ∧ alerts w1 = alerts w ∧
  user_settings w1 = user_settings w ∧
  sensor_data_seq w1 = sensor_data_seq w ∧ alert_seq w1 = alert_seq w ∧
  clock w1 = clock w ∧ log w1 = log w.
Proof.
  unfold get_or_create. intros Hget.
  destruct (filter _ _) as [|d [|d' l]]; [| by injection Hget as _ _ <- | done].
  case_bool_decide; [done |]. by injection Hget as _ _ <-.
Qed.

Lemma delete_readings_none (device : Device.t) (w : world) :
  ¬ 0 < length (filter (λ r, Device.id (SensorData.device r)
                              = Device.id device) (sensor_data w)) →
  delete_readings device w = w.
Proof.
  intros Hnone. unfold delete_readings. destruct w as [? sd ? ? ? ? ? ?].
  simpl in *. f_equal. apply filter_all, Forall_forall. intros r Hr Hid.
  apply Hnone.
  assert (r ∈ filter (λ r, Device.id (SensorData.device r)
                           = Device.id device) sd) as Hin
    by (by apply list_elem_of_filter).
  destruct (filter _ sd); [by apply elem_of_nil in Hin | simpl; lia].
Qed.

(** A run with a known user, a usable device, a positive interval and a
    start time the clock can reach. *)
Lemma handle_run (users : gmap string Z) (uuid4 : Z)
    (draw : nat → Z → Sample.t) (options : Options.t) (w w1 : world)
    (user : Z) (device : Device.t) (created : bool) :
  users !! Options.username options = Some user →
  get_or_create user uuid4 w = inr (device, created, w1) →
  (0 ≤ Options.hours options)%Z →
  (0 < Options.interval options)%Z →
  (datetime_min ≤ clock w - 3600 * Options.hours options)%Z →
  (clock w + 60 * Options.interval options ≤ datetime_max)%Z →
  let n :=
    S (Z.to_nat ((60 * Options.hours options)
                 `div` Options.interval options)) in
  let start_time := (clock w - 3600 * Options.hours options)%Z in
  ∃ data_points out,
    handle (S n) users uuid4 draw options w
    = Some (out ++ [success_line n; period_line start_time (clock w);
                    device_line (Device.name device) (Device.id device);
                    owner_line (Options.username options)],
            SensorData_objects_bulk_create data_points
              (delete_readings device w1)) ∧
    length data_points = n ∧
    ∀ j, j < n →
         data_points !! j =
           Some (DataPoint.mk device
                   (draw j (start_time + Z.of_nat j
                                         * (60 * Options.interval options))%Z)
                   (start_time + Z.of_nat j
                                 * (60 * Options.interval options))%Z).
Proof.
  intros Huser Hget Hhours Hinterval Hmin Hmax n start_time. subst n.
  destruct (get_or_create_frame _ _ _ _ _ _ Hget)
    as (_ & _ & _ & _ & _ & Hclock & _).
  destruct (generate_run (Z.to_nat ((60 * Options.hours options)
                                    `div` Options.interval options))
              draw device (Options.interval options) (clock w)
              Hinterval Hmax start_time [] 0)
    as (data_points & Hrun & Hlen & Hpoints).
  { subst start_time. lia. }
  { rewrite Z2Nat.id by (apply Z.div_pos; lia).
    subst start_time.
    replace (clock w - (clock w - 3600 * Options.hours options))%Z
      with (60 * (60 * Options.hours options))%Z by lia.
    by rewrite Z.div_mul_cancel_l by lia. }
  exists data_points.
  unfold handle. rewrite Huser, Hget.
  assert (timedelta (3600 * Options.hours options)
          = Some (3600 * Options.hours options)%Z) as Hdelta
    by (apply timedelta_in_range; unfold datetime_min, datetime_max in *;
        lia).
  case_bool_decide as Hexisting; cbv beta zeta match.
  - change (clock (delete_readings device w1)) with (clock w1).
    rewrite Hclock, Hdelta.
    rewrite datetime_add_in_range by lia.
    replace (clock w + - (3600 * Options.hours options))%Z
      with start_time by (subst start_time; lia).
    rewrite Hrun. eexists. split; [reflexivity |]. by split.
  - rewrite Hclock, Hdelta.
    rewrite datetime_add_in_range by lia.
    replace (clock w + - (3600 * Options.hours options))%Z
      with start_time by (subst start_time; lia).
    rewrite Hrun.
    rewrite (delete_readings_none device w1 Hexisting).
    eexists. split; [reflexivity |]. by split.
Qed.

Lemma SensorData_rows_length (pk now : Z) (objs : list DataPoint.t) :
  length (SensorData_rows pk now objs) = length objs.
Proof.
  revert pk. induction objs as [|p objs IH]; intros pk; [done |].
  simpl. by rewrite IH.
Qed.

Lemma SensorData_rows_Forall (pk now : Z) (objs : list DataPoint.t)
    (device : Device.t) :
  Forall (λ p, DataPoint.device p = device) objs →
  Forall (λ r, SensorData.timestamp r = now ∧ SensorData.device r = device)
    (SensorData_rows pk now objs).
Proof.
  intros Hobjs. revert pk.
  induction Hobjs as [|p objs Hp _ IH]; intros pk; simpl; constructor; auto.
Qed.

Lemma data_points_device (device : Device.t) (data_points : list DataPoint.t)
    (f : nat → DataPoint.t) :
  (∀ j, j < length data_points → data_points !! j = Some (f j)) →
  (∀ j, DataPoint.device (f j) = device) →
  Forall (λ p, DataPoint.device p = device) data_points.
Proof.
  intros Hpoints Hf. apply Forall_lookup. intros j p Hj.
  rewrite Hpoints in Hj by (by eapply lookup_lt_Some).
  injection Hj as <-. apply Hf.
Qed.

(** With a known user, a usable device and a positive interval, the
    command finishes and leaves the device with one reading for every
    multiple of the interval that fits into the hours asked for, the start
    included: [60 * hours // interval + 1] rows, the number it reports. *)
Theorem command_stores_one_reading_per_interval (users : gmap string Z)
    (uuid4 : Z) (draw : nat → Z → Sample.t) (options : Options.t)
    (w w1 : world) (user : Z) (device : Device.t) (created : bool) :
  users !! Options.username options = Some user →
  get_or_create user uuid4 w = inr (device, created, w1) →
  (0 ≤ Options.hours options)%Z →
  (0 < Options.interval options)%Z →
  (datetime_min ≤ clock w - 3600 * Options.hours options)%Z →
  (clock w + 60 * Options.interval options ≤ datetime_max)%Z →
  let n :=
    S (Z.to_nat ((60 * Options.hours options)
                 `div` Options.interval options)) in
  ∃ fuel out w',
    handle fuel users uuid4 draw options w = Some (out, w') ∧
    success_line n ∈ out ∧
    length (filter (λ r, Device.id (SensorData.device r) = Device.id device)
              (sensor_data w')) = n ∧
    sensor_data_seq w' = (sensor_data_seq w + Z.of_nat n)%Z.
Proof.
  intros Huser Hget Hhours Hinterval Hmin Hmax n.
  destruct (handle_run users uuid4 draw options w w1 user device created
              Huser Hget Hhours Hinterval Hmin Hmax)
    as (data_points & out & Hrun & Hlen & Hpoints).
  destruct (get_or_create_frame _ _ _ _ _ _ Hget)
    as (_ & _ & _ & Hseq & _).
  fold n in Hrun, Hlen, Hpoints.
  exists (S n). eexists _, _. split; [exact Hrun |]. split; [| split].
  - apply elem_of_app. right. apply list_elem_of_here.
  - simpl. rewrite filter_app, length_app.
    rewrite (filter_none _ (filter _ _))
      by (by intros r [Hne _]%list_elem_of_filter).
    rewrite filter_all.
    + by rewrite SensorData_rows_length.
    + eapply Forall_impl.
      * apply (SensorData_rows_Forall _ _ _ device).
        eapply data_points_device.
        -- intros j Hj. apply Hpoints. by rewrite <- Hlen.
        -- done.
      * by intros r [_ ->].
  - simpl. by rewrite Hseq, Hlen.
Qed.

Lemma command_stores_one_reading_per_interval_witness :
  ∃ fuel out w',
    handle fuel sample_users 13 sample_draw (Options.mk 24 60 "newbe123")
      history_world = Some (out, w') ∧
    success_line 25 ∈ out ∧
    length (filter (λ r, Device.id (SensorData.device r)
                         = Device.id test_device)
              (sensor_data w')) = 25 ∧
    sensor_data_seq w' = (sensor_data_seq history_world + Z.of_nat 25)%Z.
Proof.
  apply (command_stores_one_reading_per_interval sample_users 13 sample_draw
           (Options.mk 24 60 "newbe123") history_world
           (World (<["test-sensor-001"%string := test_device]>
                     (devices history_world))
                  (sensor_data history_world) (alerts history_world)
                  (user_settings history_world)
                  (sensor_data_seq history_world) (alert_seq history_world)
                  (clock history_world) (log history_world))
           7 test_device true).
  - reflexivity.
  - vm_compute. reflexivity.
  - simpl. lia.
  - simpl. lia.
  - vm_compute. intros H. discriminate H.
  - vm_compute. intros H. discriminate H.
Defined.

(** What a run leaves in the table. The earlier readings of the test
    device are gone and those of other devices are kept, followed by the
    new rows. The data points were built with timestamps one interval
    apart from the start time, but the rows are stored by [bulk_create]
    under [auto_now_add]: every one carries the time of the run. No alert
    is stored and nothing is sent to a group. *)
Theorem command_stores_rows_at_run_time (users : gmap string Z)
    (uuid4 : Z) (draw : nat → Z → Sample.t) (options : Options.t)
    (w w1 : world) (user : Z) (device : Device.t) (created : bool) :
  users !! Options.username options = Some user →
  get_or_create user uuid4 w = inr (device, created, w1) →
  (0 ≤ Options.hours options)%Z →
  (0 < Options.interval options)%Z →
  (datetime_min ≤ clock w - 3600 * Options.hours options)%Z →
  (clock w + 60 * Options.interval options ≤ datetime_max)%Z →
  ∃ fuel out w' data_points,
    handle fuel users uuid4 draw options w = Some (out, w') ∧
    sensor_data w' =
      filter (λ r, Device.id (SensorData.device r) ≠ Device.id device)
        (sensor_data w)
      ++ SensorData_rows (sensor_data_seq w) (clock w) data_points ∧
    (∀ j, j < length data_points →
          DataPoint.timestamp <$> data_points !! j =
            Some (clock w - 3600 * Options.hours options
                  + Z.of_nat j * (60 * Options.interval options))%Z) ∧
    Forall (λ r, SensorData.timestamp r = clock w
                 ∧ SensorData.device r = device)
      (SensorData_rows (sensor_data_seq w) (clock w) data_points) ∧
    alerts w' = alerts w ∧
    log w' = log w.
Proof.
  intros Huser Hget Hhours Hinterval Hmin Hmax.
  destruct (handle_run users uuid4 draw options w w1 user device created
              Huser Hget Hhours Hinterval Hmin Hmax)
    as (data_points & out & Hrun & Hlen & Hpoints).
  destruct (get_or_create_frame _ _ _ _ _ _ Hget)
    as (Hsd & Hal & _ & Hseq & _ & Hclock & Hlog).
  eexists _, _, _, data_points. split; [exact Hrun |]. simpl.
  rewrite Hsd, Hseq, Hclock, Hal, Hlog.
  split; [done |]. split; [| split; [| done]].
  - intros j Hj. rewrite Hpoints by (by rewrite <- Hlen). done.
  - apply SensorData_rows_Forall. eapply data_points_device.
    + intros j Hj. apply Hpoints. by rewrite <- Hlen.
    + done.
Qed.

Lemma command_stores_rows_at_run_time_witness :
  ∃ fuel out w' data_points,
    handle fuel sample_users 13 sample_draw (Options.mk 2 30 "newbe123")
      history_world = Some (out, w') ∧
    sensor_data w' =
      filter (λ r, Device.id (SensorData.device r) ≠ Device.id test_device)
        (sensor_data history_world)
      ++ SensorData_rows (sensor_data_seq history_world)
           (clock history_world) data_points ∧
    (∀ j, j < length data_points →
          DataPoint.timestamp <$> data_points !! j =
            Some (clock history_world - 3600 * 2
                  + Z.of_nat j * (60 * 30))%Z) ∧
    Forall (λ r, SensorData.timestamp r = clock history_world
                 ∧ SensorData.device r = test_device)
      (SensorData_rows (sensor_data_seq history_world)
         (clock history_world) data_points) ∧
    alerts w' = alerts history_world ∧
    log w' = log history_world.
Proof.
  apply (command_stores_rows_at_run_time sample_users 13 sample_draw
           (Options.mk 2 30 "newbe123") history_world
           (World (<["test-sensor-001"%string := test_device]>
                     (devices history_world))
                  (sensor_data history_world) (alerts history_world)
                  (user_settings history_world)
                  (sensor_data_seq history_world) (alert_seq history_world)
                  (clock history_world) (log history_world))
           7 test_device true).
  - reflexivity.
  - vm_compute. reflexivity.
  - simpl. lia.
  - simpl. lia.
  - vm_compute. intros H. discriminate H.
  - vm_compute. intros H. discriminate H.
Defined.

Lemma generate_zero (fuel : nat) (draw : nat → Z → Sample.t)
    (device : Device.t) (end_time current_time : Z)
    (data_points : list DataPoint.t) (count : nat) :
  (datetime_min ≤ current_time ≤ end_time)%Z →
  (end_time ≤ datetime_max)%Z →
  generate fuel draw device 0 end_time current_time data_points count = None.
Proof.
  intros Hrange Hmax. revert data_points count.
  induction fuel as [|fuel IH]; intros data_points count; [done |].
  simpl. rewrite bool_decide_eq_true_2 by lia.
  change (timedelta 0) with (Some 0%Z). simpl.
  rewrite datetime_add_in_range by lia.
  rewrite Z.add_0_r. apply IH.
Qed.

(** With [--interval 0], [--hours] not negative and the start and end
    times inside the range of [datetime], the loop is entered and never
    advances [current_time]: once the user and the device are found, the
    command does not finish, however many steps it is given. *)
Theorem command_hangs_on_zero_interval (users : gmap string Z) (uuid4 : Z)
    (draw : nat → Z → Sample.t) (options : Options.t) (w w1 : world)
    (user : Z) (device : Device.t) (created : bool) (fuel : nat) :
  users !! Options.username options = Some user →
  get_or_create user uuid4 w = inr (device, created, w1) →
  Options.interval options = 0%Z →
  (0 ≤ Options.hours options)%Z →
  (datetime_min ≤ clock w - 3600 * Options.hours options)%Z →
  (clock w ≤ datetime_max)%Z →
  handle fuel users uuid4 draw options w = None.
Proof.
  intros Huser Hget Hzero Hhours Hmin Hmax.
  destruct (get_or_create_frame _ _ _ _ _ _ Hget)
    as (_ & _ & _ & _ & _ & Hclock & _).
  unfold handle. rewrite Huser, Hget, Hzero.
  assert (timedelta (3600 * Options.hours options)
          = Some (3600 * Options.hours options)%Z) as Hdelta
    by (apply timedelta_in_range; unfold datetime_min, datetime_max in *;
        lia).
  case_bool_decide; cbv beta zeta match.
  - change (clock (delete_readings device w1)) with (clock w1).
    rewrite Hclock, Hdelta. rewrite datetime_add_in_range by lia.
    by rewrite generate_zero by lia.
  - rewrite Hclock, Hdelta. rewrite datetime_add_in_range by lia.
    by rewrite generate_zero by lia.
Qed.

Lemma command_hangs_on_zero_interval_witness :
  handle 1000 sample_users 13 sample_draw (Options.mk 24 0 "newbe123")
    history_world = None.
Proof.
  apply (command_hangs_on_zero_interval sample_users 13 sample_draw
           (Options.mk 24 0 "newbe123") history_world
           (World (<["test-sensor-001"%string := test_device]>
                     (devices history_world))
                  (sensor_data history_world) (alerts history_world)
                  (user_settings history_world)
                  (sensor_data_seq history_world) (alert_seq history_world)
                  (clock history_world) (log history_world))
           7 test_device true 1000).
  - reflexivity.
  - vm_compute. reflexivity.
  - reflexivity.
  - simpl. lia.
  - vm_compute. intros H. discriminate H.
  - vm_compute. intros H. discriminate H.
Defined.
